(** * Room directory, room session and admin monitor of the chat front-end

    A shallow embedding of the three page components of the front-end
    ([Dashboard.tsx], the chat page and [AdminPanel.tsx]) together with the
    part of the hosted backend they talk to, and the properties of the
    room-join, transcript, send and capture-review workflows.

    Conventions
    - a JavaScript string is the list of its UTF-16 code units;
    - a JavaScript number that the code only ever obtains from [parseInt],
      a row count or an integer column is a [Z] (exact below 2^53);
    - a nullable column or an optional value is an [option];
    - an [async] function is a state transformer over a [World]: the
      component's React state, the browser effects it produced (toasts,
      navigations, console lines), the backend tables and the list of
      transport faults still to come;
    - a query builder that is awaited resolves to a [Response] record and
      does not reject: a failing request shows as a non-null [error]. *)

From Stdlib Require Import Ascii String Strings.Byte.
From Stdlib Require Import List ZArith NArith Lia Bool Permutation Sorted.
Import ListNotations.

Set Implicit Arguments.

(* ================================================================== *)
(** * JavaScript strings *)

Module Js.

Definition char := N.
Definition jsstring := list char.

(** A literal, written as a Rocq string of code units below 256. *)
Definition str (s : string) : jsstring :=
  List.map N_of_ascii (list_ascii_of_string s).

Fixpoint eqb (a b : jsstring) : bool :=
  match a, b with
  | [], [] => true
  | x :: a', y :: b' => N.eqb x y && eqb a' b'
  | _, _ => false
  end.

(** Truthiness of a string: every string but the empty one. *)
Definition truthy (s : jsstring) : bool :=
  match s with [] => false | _ :: _ => true end.

(** Truthiness of a number ([NaN] is [None]). *)
Definition truthy_number (n : option Z) : bool :=
  match n with
  | None => false
  | Some z => negb (Z.eqb z 0%Z)
  end.

(** [WhiteSpace] and [LineTerminator] code points of ECMAScript, the
    characters [String.prototype.trim] strips and [parseInt] skips. *)
Definition is_whitespace (c : char) : bool :=
  ((c =? 9) || (c =? 10) || (c =? 11) || (c =? 12) || (c =? 13)
   || (c =? 32) || (c =? 160) || (c =? 5760)
   || ((8192 <=? c) && (c <=? 8202))
   || (c =? 8232) || (c =? 8233) || (c =? 8239) || (c =? 8287)
   || (c =? 12288) || (c =? 65279))%N%bool.

Fixpoint trimStart (s : jsstring) : jsstring :=
  match s with
  | [] => []
  | c :: s' => if is_whitespace c then trimStart s' else s
  end.

Definition trimEnd (s : jsstring) : jsstring := rev (trimStart (rev s)).

Definition trim (s : jsstring) : jsstring := trimEnd (trimStart s).

(** ** [parseInt] with no radix argument *)

Definition digit_value (c : char) : option Z :=
  if ((48 <=? c) && (c <=? 57))%N%bool then Some (Z.of_N c - 48)%Z
  else if ((97 <=? c) && (c <=? 122))%N%bool then Some (Z.of_N c - 87)%Z
  else if ((65 <=? c) && (c <=? 90))%N%bool then Some (Z.of_N c - 55)%Z
  else None.

(** The value of the longest prefix of radix-[r] digits, and whether the
    prefix has at least one digit. *)
Fixpoint parse_digits (r : Z) (acc : Z) (seen : bool) (s : jsstring)
  : option Z :=
  match s with
  | [] => if seen then Some acc else None
  | c :: s' =>
      match digit_value c with
      | Some d =>
          if Z.ltb d r then parse_digits r (acc * r + d)%Z true s'
          else if seen then Some acc else None
      | None => if seen then Some acc else None
      end
  end.

Definition strip_sign (s : jsstring) : Z * jsstring :=
  match s with
  | 45%N :: s' => ((-1)%Z, s')
  | 43%N :: s' => (1%Z, s')
  | _ => (1%Z, s)
  end.

Definition strip_radix (s : jsstring) : Z * jsstring :=
  match s with
  | 48%N :: 120%N :: s' => (16%Z, s')
  | 48%N :: 88%N :: s' => (16%Z, s')
  | _ => (10%Z, s)
  end.

(** [None] is [NaN]; [-0] is [0]. *)
Definition parseInt (s : jsstring) : option Z :=
  let (sign, s1) := strip_sign (trimStart s) in
  let (radix, s2) := strip_radix s1 in
  match parse_digits radix 0%Z false s2 with
  | Some n => Some (sign * n)%Z
  | None => None
  end.

(** ** [Number.prototype.toString(16)] on a byte, and [padStart] *)

Definition hex_digit (d : N) : char :=
  if N.ltb d 10%N then (48 + d)%N else (87 + d)%N.

Definition toString16 (b : byte) : jsstring :=
  let n := Byte.to_N b in
  if N.ltb n 16%N then [hex_digit n]
  else [hex_digit (N.div n 16%N); hex_digit (N.modulo n 16%N)].

Definition padStart (len : nat) (fill : char) (s : jsstring) : jsstring :=
  repeat fill (len - length s) ++ s.

Definition join (parts : list jsstring) : jsstring := concat parts.

End Js.

Import Js.

(* ================================================================== *)
(** * Asynchronous functions as state transformers *)

Inductive Completion (A : Type) : Type :=
| Normal (a : A)
| Thrown (message : jsstring).

Arguments Normal {A} a.
Arguments Thrown {A} message.

Definition Task (W A : Type) : Type := W -> Completion A * W.

Definition ret {W A} (a : A) : Task W A := fun w => (Normal a, w).

Definition bind {W A B} (m : Task W A) (k : A -> Task W B) : Task W B :=
  fun w =>
    match m w with
    | (Normal a, w') => k a w'
    | (Thrown e, w') => (Thrown e, w')
    end.

Definition throw {W A} (e : jsstring) : Task W A := fun w => (Thrown e, w).

(** [try { body } catch (error) { handler(error.message) }] *)
Definition try_catch {W A} (body : Task W A) (handler : jsstring -> Task W A)
  : Task W A :=
  fun w =>
    match body w with
    | (Normal a, w') => (Normal a, w')
    | (Thrown e, w') => handler e w'
    end.

Definition gets {W A} (f : W -> A) : Task W A := fun w => (Normal (f w), w).

Definition modify {W} (f : W -> W) : Task W unit := fun w => (Normal tt, f w).

Declare Scope task_scope.
Delimit Scope task_scope with task.

Notation "x <- m ;; k" := (bind m (fun x => k))
  (at level 100, m at next level, right associativity) : task_scope.
Notation "m ;;; k" := (bind m (fun _ => k))
  (at level 100, right associativity) : task_scope.

Open Scope task_scope.

(** [Promise.all(items.map(f))]: the requests are issued in list order. *)
Fixpoint promise_all_map {W A B} (f : A -> Task W B) (items : list A)
  : Task W (list B) :=
  match items with
  | [] => ret []
  | x :: rest =>
      y <- f x ;;
      ys <- promise_all_map f rest ;;
      ret (y :: ys)
  end.

(** The state a task leaves behind. *)
Definition exec {W A} (m : Task W A) (w : W) : W := snd (m w).

(* ================================================================== *)
(** * The platform the pages run on

    Functions of the browser and of the database server that the pages
    call but do not define: they are parameters of the development. *)

Class Platform : Type := {
  (** [String.prototype.toUpperCase] *)
  toUpperCase : jsstring -> jsstring;
  (** [new TextEncoder().encode] *)
  encode : jsstring -> list byte;
  (** [crypto.subtle.digest('SHA-256', _)], read through [Uint8Array] *)
  digest_sha256 : list byte -> list byte;
  (** the server's default for an [id] column, from its row sequence *)
  gen_random_uuid : N -> jsstring;
  (** the server function [generate_room_code], from its row sequence *)
  generate_room_code : N -> jsstring;
}.

(* ================================================================== *)
(** * The backend tables and the requests the pages issue *)

Module Backend.

Definition timestamp := Z.

(** Rows, after the generated [Database] type. *)

Record ChatRoom : Type := {
  cr_created_at : timestamp;
  cr_created_by : jsstring;
  cr_description : option jsstring;
  cr_id : jsstring;
  cr_is_active : option bool;
  cr_is_password_protected : option bool;
  cr_max_participants : option Z;
  cr_name : jsstring;
  cr_password_hash : option jsstring;
  cr_room_code : jsstring;
  cr_updated_at : timestamp;
}.

Record RoomParticipant : Type := {
  rp_id : jsstring;
  rp_is_active : option bool;
  rp_joined_at : timestamp;
  rp_room_id : jsstring;
  rp_user_id : jsstring;
}.

Record Message : Type := {
  msg_content : jsstring;
  msg_created_at : timestamp;
  msg_id : jsstring;
  msg_message_type : option jsstring;
  msg_room_id : jsstring;
  msg_user_id : jsstring;
}.

Record Profile : Type := {
  pf_avatar_url : option jsstring;
  pf_created_at : timestamp;
  pf_display_name : option jsstring;
  pf_is_verified : option bool;
  pf_user_id : jsstring;
}.

Record VerificationImage : Type := {
  vi_captured_at : timestamp;
  vi_id : jsstring;
  vi_image_url : jsstring;
  vi_user_id : jsstring;
}.

Record VerificationAudio : Type := {
  va_audio_url : jsstring;
  va_duration_seconds : option Z;
  va_id : jsstring;
  va_recorded_at : timestamp;
  va_user_id : jsstring;
}.

(** Coordinates are stored and shown, never computed on: they are kept
    as the text the server sends. *)
Record LocationSample : Type := {
  lt_accuracy : option jsstring;
  lt_id : jsstring;
  lt_latitude : jsstring;
  lt_longitude : jsstring;
  lt_recorded_at : timestamp;
  lt_user_id : jsstring;
}.

Record Db : Type := {
  chat_rooms : list ChatRoom;
  room_participants : list RoomParticipant;
  messages : list Message;
  profiles : list Profile;
  verification_images : list VerificationImage;
  verification_audio : list VerificationAudio;
  location_tracking : list LocationSample;
  (** number of rows the server has created so far *)
  row_seq : N;
  (** the server's [now()] *)
  clock : timestamp;
}.

Definition set_chat_rooms (rows : list ChatRoom) (d : Db) : Db :=
  {| chat_rooms := rows;
     room_participants := room_participants d;
     messages := messages d;
     profiles := profiles d;
     verification_images := verification_images d;
     verification_audio := verification_audio d;
     location_tracking := location_tracking d;
     row_seq := row_seq d;
     clock := clock d |}.

Definition set_room_participants (rows : list RoomParticipant) (d : Db) : Db :=
  {| chat_rooms := chat_rooms d;
     room_participants := rows;
     messages := messages d;
     profiles := profiles d;
     verification_images := verification_images d;
     verification_audio := verification_audio d;
     location_tracking := location_tracking d;
     row_seq := row_seq d;
     clock := clock d |}.

Definition set_messages (rows : list Message) (d : Db) : Db :=
  {| chat_rooms := chat_rooms d;
     room_participants := room_participants d;
     messages := rows;
     profiles := profiles d;
     verification_images := verification_images d;
     verification_audio := verification_audio d;
     location_tracking := location_tracking d;
     row_seq := row_seq d;
     clock := clock d |}.

(** The server has created one more row, and time has passed. *)
Definition advance (d : Db) : Db :=
  {| chat_rooms := chat_rooms d;
     room_participants := room_participants d;
     messages := messages d;
     profiles := profiles d;
     verification_images := verification_images d;
     verification_audio := verification_audio d;
     location_tracking := location_tracking d;
     row_seq := N.succ (row_seq d);
     clock := Z.succ (clock d) |}.

(** ** Responses *)

Record Response (A : Type) : Type := {
  data : option A;
  error : option jsstring;
  count : option Z;
}.

Definition ok {A} (a : A) : Response A :=
  {| data := Some a; error := None; count := None |}.

Definition failed {A} (message : jsstring) : Response A :=
  {| data := None; error := Some message; count := None |}.

(** ** Filters and modifiers *)

(** [.eq(column, true)] on a nullable boolean column *)
Definition is_true (b : option bool) : bool :=
  match b with Some true => true | _ => false end.

Section Order.
Variable A : Type.
Variable key : A -> timestamp.

(** [before ascending a b]: [a] may stand before [b]. *)
Definition before (ascending : bool) (a b : A) : bool :=
  if ascending then Z.leb (key a) (key b) else Z.leb (key b) (key a).

Fixpoint insert_row (ascending : bool) (x : A) (rows : list A) : list A :=
  match rows with
  | [] => [x]
  | y :: rest =>
      if before ascending x y then x :: y :: rest
      else y :: insert_row ascending x rest
  end.

(** [.order(column, { ascending })]; rows with equal keys keep the
    order the table holds them in. *)
Definition order (ascending : bool) (rows : list A) : list A :=
  fold_right (insert_row ascending) [] rows.
End Order.

(** [.limit(n)] *)
Definition limit {A} (n : nat) (rows : list A) : list A := firstn n rows.

Definition single_error : jsstring :=
  str "JSON object requested, multiple (or no) rows returned".

(** [.single()] *)
Definition single {A} (rows : list A) : Response A :=
  match rows with
  | [r] => ok r
  | _ => failed single_error
  end.

End Backend.

Import Backend.

(* ================================================================== *)
(** * The world a page runs in *)

Record Toast : Type := {
  toast_title : jsstring;
  toast_description : jsstring;
  toast_variant : option jsstring;
}.

Definition destructive : option jsstring := Some (str "destructive").

(** A fault is the error message of a request that fails, for whatever
    reason (transport, access policy, constraint); [None] lets the
    request through. *)
Definition Fault := option jsstring.

Record World (C : Type) : Type := {
  component : C;
  toasts : list Toast;
  navigations : list jsstring;
  console : list (jsstring * jsstring);
  db : Db;
  net : list Fault;
}.

Section WorldOps.
Variable C : Type.

Definition set_component (c : C) (w : World C) : World C :=
  {| component := c; toasts := toasts w; navigations := navigations w;
     console := console w; db := db w; net := net w |}.

Definition set_backend (d : Db) (n : list Fault) (w : World C) : World C :=
  {| component := component w; toasts := toasts w;
     navigations := navigations w; console := console w;
     db := d; net := n |}.

Definition add_toast (t : Toast) (w : World C) : World C :=
  {| component := component w; toasts := toasts w ++ [t];
     navigations := navigations w; console := console w;
     db := db w; net := net w |}.

Definition add_navigation (path : jsstring) (w : World C) : World C :=
  {| component := component w; toasts := toasts w;
     navigations := navigations w ++ [path]; console := console w;
     db := db w; net := net w |}.

Definition add_console (line : jsstring * jsstring) (w : World C) : World C :=
  {| component := component w; toasts := toasts w;
     navigations := navigations w; console := console w ++ [line];
     db := db w; net := net w |}.

(** [toast({ title, description, variant })] *)
Definition toast (t : Toast) : Task (World C) unit := modify (add_toast t).

(** [navigate(path)] *)
Definition navigate (path : jsstring) : Task (World C) unit :=
  modify (add_navigation path).

(** [console.error(label, error)] *)
Definition console_error (label message : jsstring) : Task (World C) unit :=
  modify (add_console (label, message)).

Definition get_state : Task (World C) C := gets (@component C).

Definition set_state (f : C -> C) : Task (World C) unit :=
  modify (fun w => set_component (f (component w)) w).

(** One awaited request: the next fault, if there is one, decides
    whether the query reaches the tables. *)
Definition request {A} (query : Db -> Response A * Db)
  : Task (World C) (Response A) :=
  fun w =>
    match hd None (net w) with
    | Some message =>
        (Normal (failed message), set_backend (db w) (tl (net w)) w)
    | None =>
        let (r, d) := query (db w) in
        (Normal r, set_backend d (tl (net w)) w)
    end.
End WorldOps.

Arguments add_toast {C} t w.
Arguments add_navigation {C} path w.
Arguments add_console {C} line w.
Arguments toast {C} t.
Arguments navigate {C} path.
Arguments console_error {C} label message.
Arguments get_state {C}.
Arguments set_state {C} f.
Arguments request {C A} query.

(* ================================================================== *)
(** * The queries *)

Module Query.
Section Query.
Context {P : Platform}.

(** [from('chat_rooms').select(..).eq('is_active', true)
      .order('created_at', { ascending: false })] *)
Definition active_rooms (d : Db) : Response (list ChatRoom) * Db :=
  (ok (order cr_created_at false
         (filter (fun r => is_true (cr_is_active r)) (chat_rooms d))), d).

(** [from('chat_rooms').select('*').eq('room_code', code)
      .eq('is_active', true).single()] *)
Definition room_by_code (code : jsstring) (d : Db)
  : Response ChatRoom * Db :=
  (single (filter (fun r => Js.eqb (cr_room_code r) code
                            && is_true (cr_is_active r))
             (chat_rooms d)), d).

Definition active_members (room_id : jsstring) (d : Db)
  : list RoomParticipant :=
  filter (fun p => Js.eqb (rp_room_id p) room_id && is_true (rp_is_active p))
    (room_participants d).

(** [from('room_participants').select('*', { count: 'exact' })
      .eq('room_id', id).eq('is_active', true)] *)
Definition count_active_members (room_id : jsstring) (d : Db)
  : Response (list RoomParticipant) * Db :=
  let rows := active_members room_id d in
  ({| data := Some rows; error := None;
      count := Some (Z.of_nat (length rows)) |}, d).

(** The payload of [createRoom]. *)
Record RoomData : Type := {
  rd_name : jsstring;
  rd_description : option jsstring;
  rd_created_by : jsstring;
  rd_is_password_protected : bool;
  rd_password_hash : option jsstring;
  rd_max_participants : Z;
}.

(** Modelled from the spec: the server-issued fields of a new room (its
    identity, its join-code, its creation time and its active flag),
    which the table definition, not under src/, provides. *)
Definition new_room (r : RoomData) (d : Db) : ChatRoom :=
  {| cr_created_at := clock d;
     cr_created_by := rd_created_by r;
     cr_description := rd_description r;
     cr_id := gen_random_uuid (row_seq d);
     cr_is_active := Some true;
     cr_is_password_protected := Some (rd_is_password_protected r);
     cr_max_participants := Some (rd_max_participants r);
     cr_name := rd_name r;
     cr_password_hash := rd_password_hash r;
     cr_room_code := generate_room_code (row_seq d);
     cr_updated_at := clock d |}.

(** [from('chat_rooms').insert([roomData]).select().single()] *)
Definition insert_room (r : RoomData) (d : Db) : Response ChatRoom * Db :=
  (ok (new_room r d),
   advance (set_chat_rooms (chat_rooms d ++ [new_room r d]) d)).

Definition same_member (room_id user_id : jsstring) (p : RoomParticipant)
  : bool :=
  Js.eqb (rp_room_id p) room_id && Js.eqb (rp_user_id p) user_id.

Definition activate (p : RoomParticipant) : RoomParticipant :=
  {| rp_id := rp_id p; rp_is_active := Some true;
     rp_joined_at := rp_joined_at p; rp_room_id := rp_room_id p;
     rp_user_id := rp_user_id p |}.

(** Modelled from the spec: the collaborator's [upsert] on the
    membership table, whose conflict key is fixed by the table
    definition, not under src/.  The spec keys a membership by its
    (room, user) pair: a row for the pair is updated with the payload,
    and a new row is created only when there is none.

    [from('room_participants')
       .upsert({ room_id, user_id, is_active: true })] *)
Definition upsert_member (room_id user_id : jsstring) (d : Db)
  : Response unit * Db :=
  if existsb (same_member room_id user_id) (room_participants d) then
    (ok tt,
     set_room_participants
       (map (fun p => if same_member room_id user_id p then activate p
                      else p)
          (room_participants d)) d)
  else
    let row :=
      {| rp_id := gen_random_uuid (row_seq d); rp_is_active := Some true;
         rp_joined_at := clock d; rp_room_id := room_id;
         rp_user_id := user_id |} in
    (ok tt,
     advance (set_room_participants (room_participants d ++ [row]) d)).

(** [from('messages').select('id, content, user_id, created_at')
      .eq('room_id', id).order('created_at', { ascending: true })
      .limit(100)] *)
Definition room_messages (room_id : jsstring) (d : Db)
  : Response (list Message) * Db :=
  (ok (limit 100
         (order msg_created_at true
            (filter (fun m => Js.eqb (msg_room_id m) room_id)
               (messages d)))), d).

(** [from('profiles').select('display_name, avatar_url')
      .eq('user_id', id).single()] *)
Definition profile_of (user_id : jsstring) (d : Db)
  : Response Profile * Db :=
  (single (filter (fun p => Js.eqb (pf_user_id p) user_id) (profiles d)),
   d).

(** Modelled from the spec: the server-issued identity and creation
    time of a new message.

    [from('messages')
       .insert({ room_id, user_id, content, message_type })] *)
Definition insert_message (room_id user_id content message_type : jsstring)
    (d : Db) : Response unit * Db :=
  let row :=
    {| msg_content := content; msg_created_at := clock d;
       msg_id := gen_random_uuid (row_seq d);
       msg_message_type := Some message_type;
       msg_room_id := room_id; msg_user_id := user_id |} in
  ({| data := None; error := None; count := None |},
   advance (set_messages (messages d ++ [row]) d)).

(** [from('verification_images').select('*').eq('user_id', id)
      .order('captured_at', { ascending: false }).limit(20)] *)
Definition images_of (user_id : jsstring) (d : Db)
  : Response (list VerificationImage) * Db :=
  (ok (limit 20
         (order vi_captured_at false
            (filter (fun r => Js.eqb (vi_user_id r) user_id)
               (verification_images d)))), d).

(** [from('verification_audio').select('*').eq('user_id', id)
      .order('recorded_at', { ascending: false }).limit(20)] *)
Definition audio_of (user_id : jsstring) (d : Db)
  : Response (list VerificationAudio) * Db :=
  (ok (limit 20
         (order va_recorded_at false
            (filter (fun r => Js.eqb (va_user_id r) user_id)
               (verification_audio d)))), d).

(** [from('location_tracking').select('*').eq('user_id', id)
      .order('recorded_at', { ascending: false }).limit(50)] *)
Definition locations_of (user_id : jsstring) (d : Db)
  : Response (list LocationSample) * Db :=
  (ok (limit 50
         (order lt_recorded_at false
            (filter (fun r => Js.eqb (lt_user_id r) user_id)
               (location_tracking d)))), d).
End Query.
End Query.

(** The signed-in user a page keeps: [{ ...session.user, profile }]. *)
Record User : Type := {
  user_id : jsstring;
  user_profile : option Profile;
}.

(** The message of the [TypeError] a property read on [null] throws. *)
Definition null_read (property : string) : jsstring :=
  str "Cannot read properties of null (reading '" ++ str property
  ++ str "')".

(** [value || fallback] on a number *)
Definition number_or (value : option Z) (fallback : Z) : Z :=
  match value with
  | Some z => if Js.truthy_number value then z else fallback
  | None => fallback
  end.

(** [a >= b] where [b] may be [null], which compares as [0] *)
Definition ge_nullable (a : Z) (b : option Z) : bool :=
  match b with
  | Some z => Z.geb a z
  | None => Z.geb a 0
  end.

(* ================================================================== *)
(** * Room Directory: [Dashboard.tsx] *)

Module Dashboard.

Record Room : Type := {
  room_id : jsstring;
  room_name : jsstring;
  room_code : jsstring;
  room_description : option jsstring;
  room_created_at : timestamp;
  is_password_protected : option bool;
  max_participants : option Z;
  participant_count : Z;
}.

Record NewRoom : Type := {
  name : jsstring;
  description : jsstring;
  password : jsstring;
  maxParticipants : Z;
}.

Record State : Type := {
  currentUser : option User;
  rooms : list Room;
  isAdmin : bool;
  loading : bool;
  showCreateRoom : bool;
  showJoinRoom : bool;
  newRoom : NewRoom;
  joinRoomCode : jsstring;
  joinRoomPassword : jsstring;
}.

(** [useState] initial values *)
Definition initial : State :=
  {| currentUser := None; rooms := []; isAdmin := false; loading := true;
     showCreateRoom := false; showJoinRoom := false;
     newRoom := {| name := []; description := []; password := [];
                   maxParticipants := 50%Z |};
     joinRoomCode := []; joinRoomPassword := [] |}.

Definition setRooms (v : list Room) (s : State) : State :=
  {| currentUser := currentUser s; rooms := v; isAdmin := isAdmin s;
     loading := loading s; showCreateRoom := showCreateRoom s;
     showJoinRoom := showJoinRoom s; newRoom := newRoom s;
     joinRoomCode := joinRoomCode s;
     joinRoomPassword := joinRoomPassword s |}.

Definition setShowCreateRoom (v : bool) (s : State) : State :=
  {| currentUser := currentUser s; rooms := rooms s; isAdmin := isAdmin s;
     loading := loading s; showCreateRoom := v;
     showJoinRoom := showJoinRoom s; newRoom := newRoom s;
     joinRoomCode := joinRoomCode s;
     joinRoomPassword := joinRoomPassword s |}.

Definition setNewRoom (f : NewRoom -> NewRoom) (s : State) : State :=
  {| currentUser := currentUser s; rooms := rooms s; isAdmin := isAdmin s;
     loading := loading s; showCreateRoom := showCreateRoom s;
     showJoinRoom := showJoinRoom s; newRoom := f (newRoom s);
     joinRoomCode := joinRoomCode s;
     joinRoomPassword := joinRoomPassword s |}.

Definition setJoinRoomCode (v : jsstring) (s : State) : State :=
  {| currentUser := currentUser s; rooms := rooms s; isAdmin := isAdmin s;
     loading := loading s; showCreateRoom := showCreateRoom s;
     showJoinRoom := showJoinRoom s; newRoom := newRoom s;
     joinRoomCode := v; joinRoomPassword := joinRoomPassword s |}.

Definition setJoinRoomPassword (v : jsstring) (s : State) : State :=
  {| currentUser := currentUser s; rooms := rooms s; isAdmin := isAdmin s;
     loading := loading s; showCreateRoom := showCreateRoom s;
     showJoinRoom := showJoinRoom s; newRoom := newRoom s;
     joinRoomCode := joinRoomCode s; joinRoomPassword := v |}.

(** The [onChange] handlers of the create-room dialog. *)

Definition onNameChange (value : jsstring) (s : State) : State :=
  setNewRoom (fun prev =>
    {| name := value; description := description prev;
       password := password prev;
       maxParticipants := maxParticipants prev |}) s.

Definition onDescriptionChange (value : jsstring) (s : State) : State :=
  setNewRoom (fun prev =>
    {| name := name prev; description := value;
       password := password prev;
       maxParticipants := maxParticipants prev |}) s.

Definition onPasswordChange (value : jsstring) (s : State) : State :=
  setNewRoom (fun prev =>
    {| name := name prev; description := description prev;
       password := value;
       maxParticipants := maxParticipants prev |}) s.

(** [maxParticipants: parseInt(e.target.value) || 50]; the [min="2"] and
    [max="100"] attributes of the input take no part in it. *)
Definition onMaxParticipantsChange (value : jsstring) (s : State) : State :=
  setNewRoom (fun prev =>
    {| name := name prev; description := description prev;
       password := password prev;
       maxParticipants := number_or (parseInt value) 50 |}) s.

Section Dashboard.
Context {P : Platform}.

(** [hashPassword] (Dashboard.tsx, lines 234-241) *)
Definition hashPassword (password : jsstring) : jsstring :=
  let data := encode password in
  let hashArray := digest_sha256 data in
  join (map (fun b => padStart 2 48%N (toString16 b)) hashArray).

Definition room_view (r : ChatRoom) (n : Z) : Room :=
  {| room_id := cr_id r; room_name := cr_name r;
     room_code := cr_room_code r; room_description := cr_description r;
     room_created_at := cr_created_at r;
     is_password_protected := cr_is_password_protected r;
     max_participants := cr_max_participants r;
     participant_count := n |}.

(** [loadRooms] (Dashboard.tsx, lines 86-121) *)
Definition loadRooms : Task (World State) unit :=
  try_catch
    (r <- request Query.active_rooms ;;
     match error r with
     | Some message => throw message
     | None =>
         roomsWithCounts <-
           promise_all_map
             (fun room =>
                c <- request (Query.count_active_members (cr_id room)) ;;
                ret (room_view room (number_or (count c) 0)))
             (match data r with Some rows => rows | None => [] end) ;;
         set_state (setRooms roomsWithCounts)
     end)
    (fun message => console_error (str "Error loading rooms:") message).

Definition room_created (d : ChatRoom) : Toast :=
  {| toast_title := str "Room Created";
     toast_description :=
       str "Room " ++ [34%N] ++ cr_name d ++ [34%N]
       ++ str " created successfully! Room code: " ++ cr_room_code d;
     toast_variant := None |}.

(** [const roomData = { ... }] *)
Definition roomData (n : NewRoom) (created_by : jsstring) : Query.RoomData :=
  {| Query.rd_name := trim (name n);
     Query.rd_description :=
       (let d := trim (description n) in if truthy d then Some d else None);
     Query.rd_created_by := created_by;
     Query.rd_is_password_protected := truthy (password n);
     Query.rd_password_hash :=
       (if truthy (password n) then Some (hashPassword (password n))
        else None);
     Query.rd_max_participants := maxParticipants n |}.

Definition name_required : Toast :=
  {| toast_title := str "Error";
     toast_description := str "Room name is required";
     toast_variant := destructive |}.

Definition create_failed (message : jsstring) : Toast :=
  {| toast_title := str "Failed to create room";
     toast_description := message;
     toast_variant := destructive |}.

(** [createRoom] (Dashboard.tsx, lines 123-166).  The closing
    [loadRooms()] is not awaited; its requests are the last ones the call
    gives rise to, and they are run here. *)
Definition createRoom : Task (World State) unit :=
  try_catch
    (s <- get_state ;;
     if negb (truthy (trim (name (newRoom s)))) then toast name_required
     else
       created_by <-
         match currentUser s with
         | Some u => ret (user_id u)
         | None => throw (null_read "id")
         end ;;
       let roomData := roomData (newRoom s) created_by in
       r <- request (Query.insert_room roomData) ;;
       match error r with
       | Some message => throw message
       | None =>
           match data r with
           | None => throw (null_read "name")
           | Some d =>
               toast (room_created d) ;;;
               set_state (setShowCreateRoom false) ;;;
               set_state (setNewRoom (fun _ => newRoom initial)) ;;;
               loadRooms
           end
       end)
    (fun message => toast (create_failed message)).

(** The notifications of the join workflow. *)

Definition code_required : Toast :=
  {| toast_title := str "Error";
     toast_description := str "Room code is required";
     toast_variant := destructive |}.

Definition room_not_found : Toast :=
  {| toast_title := str "Room not found";
     toast_description := str "Invalid room code or room is inactive";
     toast_variant := destructive |}.

Definition password_required : Toast :=
  {| toast_title := str "Password required";
     toast_description := str "This room requires a password";
     toast_variant := destructive |}.

Definition room_full : Toast :=
  {| toast_title := str "Room full";
     toast_description := str "This room has reached its maximum capacity";
     toast_variant := destructive |}.

Definition join_failed (message : jsstring) : Toast :=
  {| toast_title := str "Failed to join room";
     toast_description := message;
     toast_variant := destructive |}.

Definition chat_path (code : jsstring) : jsstring := str "/chat/" ++ code.

(** [joinRoom] (Dashboard.tsx, lines 168-232), the [resolveJoin] of the
    room directory.  Entering the room is the navigation to its chat
    path; each refusal is its notification. *)
Definition joinRoom : Task (World State) unit :=
  try_catch
    (s <- get_state ;;
     if negb (truthy (trim (joinRoomCode s))) then toast code_required
     else
       r <- request (Query.room_by_code (toUpperCase (joinRoomCode s))) ;;
       match error r, data r with
       | None, Some room =>
           if is_true (cr_is_password_protected room)
              && negb (truthy (joinRoomPassword s))
           then toast password_required
           else
             (* In a real app, you'd verify the password hash here *)
             c <- request (Query.count_active_members (cr_id room)) ;;
             if truthy_number (count c)
                && ge_nullable (number_or (count c) 0)
                     (cr_max_participants room)
             then toast room_full
             else navigate (chat_path (cr_room_code room))
       | _, _ => toast room_not_found
       end)
    (fun message => toast (join_failed message)).

End Dashboard.
End Dashboard.

(* ================================================================== *)
(** * Room Session: the chat page *)

Module Chat.

(** The [profiles] member of a transcript entry. *)
Record Author : Type := {
  display_name : option jsstring;
  avatar_url : option jsstring;
}.

(** [interface Message]; [author_id] is its [user_id]. *)
Record Message : Type := {
  id : jsstring;
  content : jsstring;
  author_id : jsstring;
  created_at : timestamp;
  profiles : Author;
}.

Record State : Type := {
  messages : list Message;
  newMessage : jsstring;
  room : option ChatRoom;
  currentUser : option User;
  loading : bool;
}.

Definition initial : State :=
  {| messages := []; newMessage := []; room := None; currentUser := None;
     loading := true |}.

Definition setMessages (f : list Message -> list Message) (s : State)
  : State :=
  {| messages := f (messages s); newMessage := newMessage s;
     room := room s; currentUser := currentUser s; loading := loading s |}.

Definition setNewMessage (v : jsstring) (s : State) : State :=
  {| messages := messages s; newMessage := v; room := room s;
     currentUser := currentUser s; loading := loading s |}.

(** [{ display_name: 'Anonymous', avatar_url: null }] *)
Definition anonymous : Author :=
  {| display_name := Some (str "Anonymous"); avatar_url := None |}.

(** [profile || { display_name: 'Anonymous', avatar_url: null }] *)
Definition author_of (profile : option Profile) : Author :=
  match profile with
  | Some p =>
      {| display_name := pf_display_name p; avatar_url := pf_avatar_url p |}
  | None => anonymous
  end.

(** [{ ...message, profiles }] *)
Definition with_profile (m : Backend.Message) (a : Author) : Message :=
  {| id := msg_id m; content := msg_content m; author_id := msg_user_id m;
     created_at := msg_created_at m; profiles := a |}.

Section Chat.
Context {P : Platform}.

(** [joinRoom] (chat page, lines 120-130) *)
Definition joinRoom (roomId userId : jsstring) : Task (World State) unit :=
  r <- request (Query.upsert_member roomId userId) ;;
  match error r with
  | Some message => console_error (str "Error joining room:") message
  | None => ret tt
  end.

(** [loadMessages] (chat page, lines 132-166), which [initializeChat]
    runs when the session opens. *)
Definition loadMessages (roomId : jsstring) : Task (World State) unit :=
  r <- request (Query.room_messages roomId) ;;
  match error r with
  | Some message => console_error (str "Error loading messages:") message
  | None =>
      messagesWithProfiles <-
        promise_all_map
          (fun message =>
             p <- request (Query.profile_of (msg_user_id message)) ;;
             ret (with_profile message (author_of (data p))))
          (match data r with Some rows => rows | None => [] end) ;;
      set_state (setMessages (fun _ => messagesWithProfiles))
  end.

Definition send_failed (message : jsstring) : Toast :=
  {| toast_title := str "Failed to send message";
     toast_description := message;
     toast_variant := destructive |}.

(** [sendMessage] (chat page, lines 242-265) *)
Definition sendMessage : Task (World State) unit :=
  s <- get_state ;;
  match truthy (trim (newMessage s)), room s, currentUser s with
  | true, Some room, Some currentUser =>
      try_catch
        (r <- request
                (Query.insert_message (cr_id room) (user_id currentUser)
                   (trim (newMessage s)) (str "text")) ;;
         match error r with
         | Some message => throw message
         | None => set_state (setNewMessage [])
         end)
        (fun message => toast (send_failed message))
  | _, _, _ => ret tt
  end.

End Chat.
End Chat.

(* ================================================================== *)
(** * Admin Monitor: [AdminPanel.tsx] *)

Module AdminPanel.

(** [interface VerificationData] *)
Record VerificationData : Type := {
  images : list VerificationImage;
  audio : list VerificationAudio;
  locations : list LocationSample;
}.

Record State : Type := {
  selectedUser : option jsstring;
  verificationData : VerificationData;
  loading : bool;
  isAdmin : bool;
}.

Definition initial : State :=
  {| selectedUser := None;
     verificationData := {| images := []; audio := []; locations := [] |};
     loading := true; isAdmin := false |}.

Definition setSelectedUser (v : option jsstring) (s : State) : State :=
  {| selectedUser := v; verificationData := verificationData s;
     loading := loading s; isAdmin := isAdmin s |}.

Definition setVerificationData (v : VerificationData) (s : State) : State :=
  {| selectedUser := selectedUser s; verificationData := v;
     loading := loading s; isAdmin := isAdmin s |}.

(** [rows || []] *)
Definition or_empty {A} (rows : option (list A)) : list A :=
  match rows with Some l => l | None => [] end.

Section AdminPanel.
Context {P : Platform}.

(** [loadUserVerificationData] (AdminPanel.tsx, lines 121-160), the
    [loadCaptureData] of the admin monitor. *)
Definition loadUserVerificationData (userId : jsstring)
  : Task (World State) unit :=
  try_catch
    (images <- request (Query.images_of userId) ;;
     audio <- request (Query.audio_of userId) ;;
     locations <- request (Query.locations_of userId) ;;
     set_state
       (setVerificationData
          {| images := or_empty (data images);
             audio := or_empty (data audio);
             locations := or_empty (data locations) |}))
    (fun message =>
       console_error (str "Error loading verification data:") message ;;;
       toast {| toast_title := str "Error";
                toast_description := str "Failed to load verification data";
                toast_variant := destructive |}).

Definition handleUserSelect (userId : jsstring) : Task (World State) unit :=
  set_state (setSelectedUser (Some userId)) ;;;
  loadUserVerificationData userId.

End AdminPanel.
End AdminPanel.

(* ================================================================== *)
(** * Reading the outcome of the workflows *)

(** What the count check of the join workflow decides when the count
    request answers [M] for a room of capacity [capacity]. *)
Definition reported_full (M : Z) (capacity : option Z) : bool :=
  negb (Z.eqb M 0) && ge_nullable M capacity.

(** The last [n] rows of a log: its [n] most recent entries when the log
    is in creation order. *)
Definition most_recent {A} (n : nat) (log : list A) : list A :=
  skipn (length log - n) log.

(** The transcript entry of a persisted message against the profile
    table [d] holds. *)
Definition enriched (d : Db) (m : Backend.Message)
  : Chat.Message :=
  Chat.with_profile m
    (Chat.author_of (data (fst (Query.profile_of (msg_user_id m) d)))).

(** The row [sendMessage] asks the server to create. *)
Definition sent_row {P : Platform} (w : World Chat.State) (r : ChatRoom) (u : User)
  : Backend.Message :=
  {| msg_content := trim (Chat.newMessage (component w));
     msg_created_at := clock (db w);
     msg_id := gen_random_uuid (row_seq (db w));
     msg_message_type := Some (str "text");
     msg_room_id := cr_id r;
     msg_user_id := user_id u |}.

(** Creation order on rows: [not_after] allows equal times, [earlier]
    does not. *)
Definition not_after {A} (key : A -> timestamp) (a b : A) : Prop :=
  (key a <= key b)%Z.

Definition earlier {A} (key : A -> timestamp) (a b : A) : Prop :=
  (key a < key b)%Z.

(** A task that leaves the tables as it found them. *)
Definition keeps_db {C A} (m : Task (World C) A) : Prop :=
  forall w, db (snd (m w)) = db w.

(** No request still to come fails. *)
Definition reliable (n : list Fault) : Prop := Forall (fun f => f = None) n.

Definition is_hex_digit (c : char) : bool :=
  (((48 <=? c) && (c <=? 57)) || ((97 <=? c) && (c <=? 102)))%N%bool.

(* ================================================================== *)
(** * A platform and tables to run the pages on *)

Module Sample.

Definition upper (s : jsstring) : jsstring :=
  map (fun c => if ((97 <=? c) && (c <=? 122))%N%bool then (c - 32)%N else c)
    s.

(** Code units below 128 are their own encoding; the others are cut to a
    byte, which is enough for the examples below. *)
Definition narrow (s : jsstring) : list byte :=
  map (fun c => match Byte.of_N (c mod 256)%N with
                | Some b => b
                | None => x00
                end) s.

(** A 32-byte checksum standing in for the digest. *)
Definition checksum (m : list byte) : list byte :=
  let total := fold_right (fun b acc => (Byte.to_N b + 31 * acc)%N) 7%N m in
  map (fun i => match Byte.of_N ((total + N.of_nat i * 97) mod 256)%N with
                | Some b => b
                | None => x00
                end) (seq 0 32).

Fixpoint digits (fuel : nat) (n : N) (acc : jsstring) : jsstring :=
  match fuel with
  | O => acc
  | S fuel' =>
      let acc' := (48 + n mod 10)%N :: acc in
      if (n <? 10)%N then acc' else digits fuel' (n / 10)%N acc'
  end.

Definition decimal (n : N) : jsstring := digits (S (N.to_nat n)) n [].

#[export] Instance platform : Platform :=
  {| toUpperCase := upper;
     encode := narrow;
     digest_sha256 := checksum;
     gen_random_uuid := fun n => str "row-" ++ decimal n;
     generate_room_code := fun n => str "RM" ++ decimal n |}.

Definition empty_db : Db :=
  {| chat_rooms := []; room_participants := []; messages := [];
     profiles := []; verification_images := []; verification_audio := [];
     location_tracking := []; row_seq := 0%N; clock := 1000%Z |}.

Definition world {C} (c : C) (d : Db) (n : list Fault) : World C :=
  {| component := c; toasts := []; navigations := []; console := [];
     db := d; net := n |}.

Definition alice : User := {| user_id := str "alice"; user_profile := None |}.

(** The room of the spec's scenario, with a capacity left open. *)
Definition design_sync (capacity : option Z) (protected : bool) : ChatRoom :=
  {| cr_created_at := 10%Z; cr_created_by := str "alice";
     cr_description := None; cr_id := str "room-1";
     cr_is_active := Some true;
     cr_is_password_protected := Some protected;
     cr_max_participants := capacity; cr_name := str "Design Sync";
     cr_password_hash := if protected then Some (str "5e88") else None;
     cr_room_code := str "AB12"; cr_updated_at := 10%Z |}.

Definition member (n : nat) : RoomParticipant :=
  {| rp_id := str "m-" ++ decimal (N.of_nat n); rp_is_active := Some true;
     rp_joined_at := (20 + Z.of_nat n)%Z; rp_room_id := str "room-1";
     rp_user_id := str "user-" ++ decimal (N.of_nat n) |}.

Definition directory (capacity : option Z) (protected : bool) (members : nat)
  : Db :=
  set_room_participants (map member (seq 0 members))
    (set_chat_rooms [design_sync capacity protected] empty_db).

Definition joining (code pass : string) : Dashboard.State :=
  Dashboard.setJoinRoomPassword (str pass)
    (Dashboard.setJoinRoomCode (str code) Dashboard.initial).

Definition post (n : nat) : Backend.Message :=
  {| msg_content := str "message " ++ decimal (N.of_nat n);
     msg_created_at := (100 + Z.of_nat n)%Z;
     msg_id := str "msg-" ++ decimal (N.of_nat n);
     msg_message_type := Some (str "text");
     msg_room_id := str "room-1";
     msg_user_id := if Nat.even n then str "alice" else str "bob" |}.

Definition alice_profile : Profile :=
  {| pf_avatar_url := None; pf_created_at := 1%Z;
     pf_display_name := Some (str "Alice"); pf_is_verified := Some true;
     pf_user_id := str "alice" |}.

(** A room log of [n] messages, written by alice, who has a profile,
    and bob, who has none. *)
Definition history (n : nat) : Db :=
  {| chat_rooms := [design_sync (Some 50%Z) false];
     room_participants := []; messages := map post (seq 1 n);
     profiles := [alice_profile]; verification_images := [];
     verification_audio := []; location_tracking := [];
     row_seq := N.of_nat n; clock := 1000%Z |}.

Definition signed_in : Dashboard.State :=
  {| Dashboard.currentUser := Some alice; Dashboard.rooms := [];
     Dashboard.isAdmin := false; Dashboard.loading := false;
     Dashboard.showCreateRoom := true; Dashboard.showJoinRoom := false;
     Dashboard.newRoom := Dashboard.newRoom Dashboard.initial;
     Dashboard.joinRoomCode := []; Dashboard.joinRoomPassword := [] |}.

(** The create-room dialog after its fields were typed in. *)
Definition typed (name password capacity : string) : Dashboard.State :=
  Dashboard.onMaxParticipantsChange (str capacity)
    (Dashboard.onPasswordChange (str password)
       (Dashboard.onNameChange (str name) signed_in)).

Definition in_room (draft : jsstring) : Chat.State :=
  {| Chat.messages := []; Chat.newMessage := draft;
     Chat.room := Some (design_sync (Some 50%Z) false);
     Chat.currentUser := Some alice; Chat.loading := false |}.

(** The tables after a room was created with -5 typed as its capacity. *)
Definition undersized : Db :=
  db (exec Dashboard.createRoom
        (world (typed "Standup" EmptyString "-5") empty_db [])).

(** A join request for [code], with no password, against [d]. *)
Definition asking (code : string) (d : Db) : World Dashboard.State :=
  world (joining code EmptyString) d [].

(** A session opening on a room whose log has [n] messages. *)
Definition opening (n : nat) : World Chat.State :=
  world Chat.initial (history n) [].

Definition audio_clip (n : nat) : VerificationAudio :=
  {| va_audio_url := str "clip-" ++ decimal (N.of_nat n);
     va_duration_seconds := Some 5%Z;
     va_id := str "a-" ++ decimal (N.of_nat n);
     va_recorded_at := (300 + Z.of_nat n)%Z; va_user_id := str "alice" |}.

Definition position (n : nat) : LocationSample :=
  {| lt_accuracy := None; lt_id := str "l-" ++ decimal (N.of_nat n);
     lt_latitude := str "48.85"; lt_longitude := str "2.35";
     lt_recorded_at := (400 + Z.of_nat n)%Z; lt_user_id := str "alice" |}.

(** The capture tables of the spec's scenario: no image, five audio
    records, three locations. *)
Definition captures : Db :=
  {| chat_rooms := []; room_participants := []; messages := [];
     profiles := []; verification_images := [];
     verification_audio := map audio_clip (seq 0 5);
     location_tracking := map position (seq 0 3);
     row_seq := 8%N; clock := 1000%Z |}.

End Sample.

(* ================================================================== *)
(** * The rest of the pages

    The functions of the three pages that surround the workflows above:
    how each page opens, what its other handlers do, and what it shows. *)

(** [try { body } finally { cleanup }] *)
Definition finally {W A} (body : Task W A) (cleanup : Task W unit)
  : Task W A :=
  fun w =>
    match body w with
    | (c, w') =>
        match cleanup w' with
        | (Normal _, w'') => (c, w'')
        | (Thrown e, w'') => (Thrown e, w'')
        end
    end.

(** ** A task of a part of a page's state, run on the whole state *)

Section Zoom.
Variables C D : Type.
Variable get : D -> C.
Variable put : C -> D -> D.

Definition focus (w : World D) : World C :=
  {| component := get (component w); toasts := toasts w;
     navigations := navigations w; console := console w;
     db := db w; net := net w |}.

Definition unfocus (w' : World C) (w : World D) : World D :=
  {| component := put (component w') (component w); toasts := toasts w';
     navigations := navigations w'; console := console w';
     db := db w'; net := net w' |}.

Definition zoom {A} (m : Task (World C) A) : Task (World D) A :=
  fun w => let (r, w') := m (focus w) in (r, unfocus w' w).
End Zoom.

(* ================================================================== *)
(** * Room Directory: the rest of [Dashboard.tsx] *)

Module Directory.

(** [Enums.app_role] *)
Inductive app_role : Type := admin | user.

(** A row of [user_roles].  The pages only read this table: it is a
    parameter [roles] of the functions that query it. *)
Record UserRole : Type := {
  ur_role : app_role;
  ur_user_id : jsstring;
}.

(** [from('user_roles').select('role').eq('user_id', id).single()] *)
Definition role_of (roles : list UserRole) (id : jsstring) (d : Db)
  : Response UserRole * Db :=
  (single (filter (fun r => Js.eqb (ur_user_id r) id) roles), d).

(** [userRole?.role === 'admin'] *)
Definition is_admin (userRole : option UserRole) : bool :=
  match userRole with
  | Some r => match ur_role r with admin => true | user => false end
  | None => false
  end.

Definition setCurrentUser (v : option User) (s : Dashboard.State)
  : Dashboard.State :=
  {| Dashboard.currentUser := v; Dashboard.rooms := Dashboard.rooms s;
     Dashboard.isAdmin := Dashboard.isAdmin s;
     Dashboard.loading := Dashboard.loading s;
     Dashboard.showCreateRoom := Dashboard.showCreateRoom s;
     Dashboard.showJoinRoom := Dashboard.showJoinRoom s;
     Dashboard.newRoom := Dashboard.newRoom s;
     Dashboard.joinRoomCode := Dashboard.joinRoomCode s;
     Dashboard.joinRoomPassword := Dashboard.joinRoomPassword s |}.

Definition setIsAdmin (v : bool) (s : Dashboard.State) : Dashboard.State :=
  {| Dashboard.currentUser := Dashboard.currentUser s;
     Dashboard.rooms := Dashboard.rooms s; Dashboard.isAdmin := v;
     Dashboard.loading := Dashboard.loading s;
     Dashboard.showCreateRoom := Dashboard.showCreateRoom s;
     Dashboard.showJoinRoom := Dashboard.showJoinRoom s;
     Dashboard.newRoom := Dashboard.newRoom s;
     Dashboard.joinRoomCode := Dashboard.joinRoomCode s;
     Dashboard.joinRoomPassword := Dashboard.joinRoomPassword s |}.

Definition setLoading (v : bool) (s : Dashboard.State) : Dashboard.State :=
  {| Dashboard.currentUser := Dashboard.currentUser s;
     Dashboard.rooms := Dashboard.rooms s;
     Dashboard.isAdmin := Dashboard.isAdmin s; Dashboard.loading := v;
     Dashboard.showCreateRoom := Dashboard.showCreateRoom s;
     Dashboard.showJoinRoom := Dashboard.showJoinRoom s;
     Dashboard.newRoom := Dashboard.newRoom s;
     Dashboard.joinRoomCode := Dashboard.joinRoomCode s;
     Dashboard.joinRoomPassword := Dashboard.joinRoomPassword s |}.

Definition failed_to (message : jsstring) : Toast :=
  {| toast_title := str "Error"; toast_description := message;
     toast_variant := destructive |}.

(** The button of a room card (Dashboard.tsx, lines 481-488):
    [disabled={(room.participant_count || 0) >= room.max_participants}]. *)
Definition card_full (room : Dashboard.Room) : bool :=
  ge_nullable (number_or (Some (Dashboard.participant_count room)) 0)
    (Dashboard.max_participants room).

Definition card_label (room : Dashboard.Room) : jsstring :=
  if card_full room then str "Room Full" else str "Join Chat".

(** A click on that button: nothing when it is disabled, and otherwise
    [navigate(`/chat/${room.room_code}`)]. *)
Definition joinChat (room : Dashboard.Room)
  : Task (World Dashboard.State) unit :=
  if card_full room then ret tt
  else navigate (Dashboard.chat_path (Dashboard.room_code room)).

Section Directory.
Context {P : Platform}.

(** [onChange] of the room-code input (Dashboard.tsx, line 418):
    [setJoinRoomCode(e.target.value.toUpperCase())]. *)
Definition onJoinRoomCodeChange (value : jsstring) (s : Dashboard.State)
  : Dashboard.State :=
  Dashboard.setJoinRoomCode (toUpperCase value) s.

(** [initializeDashboard] (Dashboard.tsx, lines 47-84); [session] is
    what [supabase.auth.getSession()] answers, by its user id. *)
Definition initializeDashboard (roles : list UserRole)
    (session : option jsstring) : Task (World Dashboard.State) unit :=
  finally
    (try_catch
       match session with
       | None => navigate (str "/auth")
       | Some id =>
           profile <- request (Query.profile_of id) ;;
           userRole <- request (role_of roles id) ;;
           set_state
             (setCurrentUser
                (Some {| user_id := id; user_profile := data profile |})) ;;;
           set_state (setIsAdmin (is_admin (data userRole))) ;;;
           Dashboard.loadRooms
       end
       (fun message =>
          console_error (str "Error initializing dashboard:") message ;;;
          toast (failed_to message)))
    (set_state (setLoading false)).

End Directory.
End Directory.

(* ================================================================== *)
(** * Room Session: the rest of the chat page *)

Module Session.

(** A row of the roster: [user_id], [joined_at] and the embedded
    [profiles]. *)
Record Participant : Type := {
  participant_id : jsstring;
  joined_at : timestamp;
  participant_profiles : option Chat.Author;
}.

(** The state of the page: the part the transcript and the draft live
    in, the roster, and the realtime channels it has subscribed to. *)
Record State : Type := {
  chat : Chat.State;
  participants : list Participant;
  channels : list jsstring;
}.

Definition initial : State :=
  {| chat := Chat.initial; participants := []; channels := [] |}.

Definition with_chat (c : Chat.State) (s : State) : State :=
  {| chat := c; participants := participants s; channels := channels s |}.

Definition setParticipants (v : list Participant) (s : State) : State :=
  {| chat := chat s; participants := v; channels := channels s |}.

Definition subscribe (names : list jsstring) (s : State) : State :=
  {| chat := chat s; participants := participants s;
     channels := channels s ++ names |}.

Definition setRoom (v : option ChatRoom) (c : Chat.State) : Chat.State :=
  {| Chat.messages := Chat.messages c; Chat.newMessage := Chat.newMessage c;
     Chat.room := v; Chat.currentUser := Chat.currentUser c;
     Chat.loading := Chat.loading c |}.

Definition setCurrentUser (v : option User) (c : Chat.State) : Chat.State :=
  {| Chat.messages := Chat.messages c; Chat.newMessage := Chat.newMessage c;
     Chat.room := Chat.room c; Chat.currentUser := v;
     Chat.loading := Chat.loading c |}.

Definition setLoading (v : bool) (c : Chat.State) : Chat.State :=
  {| Chat.messages := Chat.messages c; Chat.newMessage := Chat.newMessage c;
     Chat.room := Chat.room c; Chat.currentUser := Chat.currentUser c;
     Chat.loading := v |}.

Definition room_not_found : Toast :=
  {| toast_title := str "Room Not Found";
     toast_description := str "The chat room doesn't exist or is inactive";
     toast_variant := destructive |}.

Definition init_failed (message : jsstring) : Toast :=
  {| toast_title := str "Error"; toast_description := message;
     toast_variant := destructive |}.

(** [from('messages').select('id, content, user_id, created_at')
      .eq('id', id).single()] *)
Definition message_by_id (id : jsstring) (d : Db)
  : Response Backend.Message * Db :=
  (single (filter (fun m => Js.eqb (msg_id m) id) (messages d)), d).

(** The names of the two channels of a room. *)
Definition messages_channel (roomId : jsstring) : jsstring :=
  str "messages:" ++ roomId.

Definition participants_channel (roomId : jsstring) : jsstring :=
  str "participants:" ++ roomId.

Section Session.
Context {P : Platform}.

(** How the server resolves [profiles:user_id(display_name, avatar_url)]
    for a membership row: the relationship it follows is part of the
    table definitions, not under src/, and is a parameter. *)
Variable embedded : Db -> RoomParticipant -> option Chat.Author.

(** [from('room_participants')
      .select('user_id, joined_at, profiles:user_id(...)')
      .eq('room_id', id).eq('is_active', true)] *)
Definition participants_of (roomId : jsstring) (d : Db)
  : Response (list Participant) * Db :=
  (ok (map (fun p => {| participant_id := rp_user_id p;
                        joined_at := rp_joined_at p;
                        participant_profiles := embedded d p |})
         (Query.active_members roomId d)), d).

(** [loadParticipants] (chat page, lines 168-184) *)
Definition loadParticipants (roomId : jsstring) : Task (World State) unit :=
  r <- request (participants_of roomId) ;;
  match error r with
  | Some message =>
      console_error (str "Error loading participants:") message
  | None =>
      set_state
        (setParticipants (match data r with Some rows => rows | None => [] end))
  end.

(** [setupRealtimeSubscriptions] (chat page, lines 186-240): the two
    channels are subscribed; their handlers are [onMessageInserted] and
    [onParticipantsChanged] below. *)
Definition setupRealtimeSubscriptions (roomId : jsstring)
  : Task (World State) unit :=
  set_state
    (subscribe [messages_channel roomId; participants_channel roomId]).

(** The handler of an [INSERT] event on [messages] (chat page, lines
    198-220); [id] is [payload.new.id]. *)
Definition onMessageInserted (id : jsstring) : Task (World Chat.State) unit :=
  m <- request (message_by_id id) ;;
  match data m with
  | Some message =>
      p <- request (Query.profile_of (msg_user_id message)) ;;
      let messageWithProfile :=
        Chat.with_profile message (Chat.author_of (data p)) in
      set_state (Chat.setMessages (fun prev => prev ++ [messageWithProfile]))
  | None => ret tt
  end.

(** The handler of any event on [room_participants] (chat page, lines
    235-237). *)
Definition onParticipantsChanged (roomId : jsstring)
  : Task (World State) unit :=
  loadParticipants roomId.

(** [handleKeyPress] (chat page, lines 267-272) *)
Definition handleKeyPress (key : jsstring) (shiftKey : bool)
  : Task (World Chat.State) unit :=
  if Js.eqb key (str "Enter") && negb shiftKey then Chat.sendMessage
  else ret tt.

(** [initializeChat] (chat page, lines 59-118); [session] is what
    [supabase.auth.getSession()] answers, by its user id, and [roomCode]
    is the route parameter. *)
Definition initializeChat (session : option jsstring) (roomCode : jsstring)
  : Task (World State) unit :=
  finally
    (try_catch
       match session with
       | None => navigate (str "/auth")
       | Some id =>
           profile <- request (Query.profile_of id) ;;
           set_state
             (fun s =>
                with_chat
                  (setCurrentUser
                     (Some {| user_id := id; user_profile := data profile |})
                     (chat s)) s) ;;;
           r <- request (Query.room_by_code roomCode) ;;
           match error r, data r with
           | None, Some roomData =>
               set_state
                 (fun s => with_chat (setRoom (Some roomData) (chat s)) s) ;;;
               zoom chat with_chat (Chat.joinRoom (cr_id roomData) id) ;;;
               zoom chat with_chat (Chat.loadMessages (cr_id roomData)) ;;;
               loadParticipants (cr_id roomData) ;;;
               setupRealtimeSubscriptions (cr_id roomData)
           | _, _ =>
               toast room_not_found ;;;
               navigate (str "/")
           end
       end
       (fun message =>
          console_error (str "Error initializing chat:") message ;;;
          toast (init_failed message)))
    (set_state (fun s => with_chat (setLoading false (chat s)) s)).

End Session.
End Session.

(* ================================================================== *)
(** * Admin Monitor: the rest of [AdminPanel.tsx] *)

Module Monitor.

(** The [profiles] member of a listed user. *)
Record ListedProfile : Type := {
  lp_display_name : option jsstring;
  lp_avatar_url : option jsstring;
  lp_is_verified : option bool;
}.

(** [interface User] *)
Record ListedUser : Type := {
  lu_id : jsstring;
  lu_email : jsstring;
  lu_created_at : timestamp;
  lu_profiles : ListedProfile;
}.

Record State : Type := {
  panel : AdminPanel.State;
  users : list ListedUser;
}.

Definition initial : State :=
  {| panel := AdminPanel.initial; users := [] |}.

Definition with_panel (p : AdminPanel.State) (s : State) : State :=
  {| panel := p; users := users s |}.

Definition setUsers (v : list ListedUser) (s : State) : State :=
  {| panel := panel s; users := v |}.

Definition setIsAdmin (v : bool) (p : AdminPanel.State) : AdminPanel.State :=
  {| AdminPanel.selectedUser := AdminPanel.selectedUser p;
     AdminPanel.verificationData := AdminPanel.verificationData p;
     AdminPanel.loading := AdminPanel.loading p; AdminPanel.isAdmin := v |}.

Definition setLoading (v : bool) (p : AdminPanel.State) : AdminPanel.State :=
  {| AdminPanel.selectedUser := AdminPanel.selectedUser p;
     AdminPanel.verificationData := AdminPanel.verificationData p;
     AdminPanel.loading := v; AdminPanel.isAdmin := AdminPanel.isAdmin p |}.

(** [`user_${profile.user_id.slice(0, 8)}@example.com`] *)
Definition placeholder_email (user_id : jsstring) : jsstring :=
  str "user_" ++ firstn 8 user_id ++ str "@example.com".

(** The entry [loadUsers] makes of a profile row. *)
Definition listed (profile : Profile) : ListedUser :=
  {| lu_id := pf_user_id profile;
     lu_email := placeholder_email (pf_user_id profile);
     lu_created_at := pf_created_at profile;
     lu_profiles :=
       {| lp_display_name := pf_display_name profile;
          lp_avatar_url := pf_avatar_url profile;
          lp_is_verified := pf_is_verified profile |} |}.

(** [from('profiles').select(...)
      .order('created_at', { ascending: false })] *)
Definition all_profiles (d : Db) : Response (list Profile) * Db :=
  (ok (order pf_created_at false (profiles d)), d).

Definition access_denied : Toast :=
  {| toast_title := str "Access Denied";
     toast_description := str "You don't have admin privileges";
     toast_variant := destructive |}.

Definition users_failed : Toast :=
  {| toast_title := str "Error";
     toast_description := str "Failed to load users";
     toast_variant := destructive |}.

(** [loadUsers] (AdminPanel.tsx, lines 83-119) *)
Definition loadUsers : Task (World State) unit :=
  try_catch
    (r <- request all_profiles ;;
     match error r with
     | Some message => throw message
     | None =>
         let usersWithEmail :=
           map listed (match data r with Some rows => rows | None => [] end) in
         set_state (setUsers usersWithEmail)
     end)
    (fun message =>
       console_error (str "Error loading users:") message ;;;
       toast users_failed).

(** [checkAdminAccess] (AdminPanel.tsx, lines 48-81) *)
Definition checkAdminAccess (roles : list Directory.UserRole)
    (session : option jsstring) : Task (World State) unit :=
  finally
    (try_catch
       match session with
       | None => navigate (str "/auth")
       | Some id =>
           userRole <- request (Directory.role_of roles id) ;;
           if negb (Directory.is_admin (data userRole)) then
             toast access_denied ;;;
             navigate (str "/")
           else
             set_state (fun s => with_panel (setIsAdmin true (panel s)) s) ;;;
             loadUsers
       end
       (fun message =>
          console_error (str "Error checking admin access:") message ;;;
          navigate (str "/")))
    (set_state (fun s => with_panel (setLoading false (panel s)) s)).

(** [handleUserSelect] (AdminPanel.tsx, lines 162-165), on the page. *)
Definition handleUserSelect (userId : jsstring) : Task (World State) unit :=
  zoom panel with_panel (AdminPanel.handleUserSelect userId).

End Monitor.

(* ================================================================== *)
(** * Reading the outcome of the pages *)

(** A task that always returns: it never leaves by an exception. *)
Definition completes {C A} (m : Task (World C) A) : Prop :=
  forall w, exists a, fst (m w) = Normal a.

(** [a] may stand before [b] in a selection ordered one way or the
    other. *)
Definition in_order {A} (key : A -> timestamp) (ascending : bool) (a b : A)
  : Prop :=
  if ascending then (key a <= key b)%Z else (key b <= key a)%Z.

(** The first and the last code unit of a string, if it has any. *)
Definition first_unit (s : jsstring) : option char := hd_error s.

Definition last_unit (s : jsstring) : option char := hd_error (rev s).

(** Reading a pair of hexadecimal digits back into a byte. *)
Definition hex_value (c : char) : option N :=
  if ((48 <=? c) && (c <=? 57))%N%bool then Some (c - 48)%N
  else if ((97 <=? c) && (c <=? 102))%N%bool then Some (c - 87)%N
  else None.

Fixpoint unhex (s : jsstring) : option (list byte) :=
  match s with
  | [] => Some []
  | hi :: lo :: rest =>
      match hex_value hi, hex_value lo, unhex rest with
      | Some h, Some l, Some bytes =>
          match Byte.of_N (16 * h + l) with
          | Some b => Some (b :: bytes)
          | None => None
          end
      | _, _, _ => None
      end
  | [_] => None
  end.

(* ================================================================== *)
(** * Pages and tables to run the rest of the pages on *)

Module Scenario.

(** The dashboard of alice over the room of the spec's scenario,
    protected or not, with [members] members; [faults] are still to
    come. *)
Definition lobby (protected : bool) (members : nat) (faults : list Fault)
  : World Dashboard.State :=
  Sample.world Sample.signed_in
    (Sample.directory (Some 2%Z) protected members) faults.

(** The create-room dialog, filled in, over empty tables. *)
Definition creating (password capacity : string) (faults : list Fault)
  : World Dashboard.State :=
  Sample.world (Sample.typed "Standup" password capacity) Sample.empty_db
    faults.

(** The same dialog on a page that holds no user. *)
Definition creating_unsigned : World Dashboard.State :=
  Sample.world (Dashboard.onNameChange (str "Standup") Dashboard.initial)
    Sample.empty_db [].

(** A join request against [d], with possible faults. *)
Definition joining (code pass : string) (d : Db) (faults : list Fault)
  : World Dashboard.State :=
  Sample.world (Sample.joining code pass) d faults.

(** The server resolving an embedded profile by the profile table. *)
Definition by_profile (d : Db) (p : RoomParticipant) : option Chat.Author :=
  match filter (fun q => Js.eqb (pf_user_id q) (rp_user_id p)) (profiles d)
  with
  | [q] => Some (Chat.author_of (Some q))
  | _ => None
  end.

(** The chat page before it opens, over a room log of [n] messages. *)
Definition arriving (n : nat) (faults : list Fault) : World Session.State :=
  Sample.world Session.initial (Sample.history n) faults.

(** The chat page of alice in the open room, with a draft. *)
Definition typing (draft : string) (faults : list Fault)
  : World Chat.State :=
  Sample.world (Sample.in_room (str draft)) (Sample.history 2) faults.

End Scenario.

Unset Implicit Arguments.

(* ================================================================== *)
(** * Facts about strings *)

Lemma eqb_eq (a b : jsstring) : Js.eqb a b = true <-> a = b.
Proof.
  revert b; induction a as [|x a IH]; intros [|y b]; simpl;
    try (split; intro H; [discriminate H || reflexivity | discriminate H || reflexivity]).
  rewrite andb_true_iff, N.eqb_eq, IH. split.
  - intros [-> ->]; reflexivity.
  - intros H; injection H as -> ->; split; reflexivity.
Qed.

Lemma eqb_refl (a : jsstring) : Js.eqb a a = true.
Proof. apply eqb_eq; reflexivity. Qed.

Lemma eqb_neq (a b : jsstring) : Js.eqb a b = false <-> a <> b.
Proof.
  rewrite <- eqb_eq. destruct (Js.eqb a b); split; intro H;
    try reflexivity; try discriminate; try (intros E; discriminate E).
  exfalso; apply H; reflexivity.
Qed.

Lemma trimStart_blank (s : jsstring) :
  forallb is_whitespace s = true -> trimStart s = [].
Proof.
  induction s as [|c s IH]; simpl; [reflexivity|].
  intros H; apply andb_true_iff in H as [Hc Hs].
  rewrite Hc; apply IH, Hs.
Qed.

Lemma trim_blank (s : jsstring) :
  forallb is_whitespace s = true -> trim s = [].
Proof.
  intros H; unfold trim, trimEnd; rewrite (trimStart_blank s H); reflexivity.
Qed.

(** What [trimStart] keeps begins with a character that is not blank. *)
Lemma trimStart_head (s : jsstring) (c : char) (rest : jsstring) :
  trimStart s = c :: rest -> is_whitespace c = false.
Proof.
  induction s as [|x s IH]; simpl; [discriminate|].
  destruct (is_whitespace x) eqn:Hx; [exact IH|].
  intros H; injection H as -> _; exact Hx.
Qed.

(* ================================================================== *)
(** * Facts about requests *)

Section RequestFacts.
Variables C A : Type.
Variable query : Db -> Response A * Db.

Lemma request_through (w : World C) :
  hd None (net w) = None ->
  request query w =
    (Normal (fst (query (db w))),
     set_backend (snd (query (db w))) (tl (net w)) w).
Proof.
  intros H; unfold request; rewrite H.
  destruct (query (db w)); reflexivity.
Qed.

Lemma request_fault (w : World C) (message : jsstring) :
  hd None (net w) = Some message ->
  request query w =
    (Normal (failed message), set_backend (db w) (tl (net w)) w).
Proof. intros H; unfold request; rewrite H; reflexivity. Qed.

End RequestFacts.

Lemma reliable_hd (n : list Fault) : reliable n -> hd None n = None.
Proof. intros H; destruct H; [reflexivity | assumption]. Qed.

Lemma reliable_tl (n : list Fault) : reliable n -> reliable (tl n).
Proof. intros H; destruct H; [constructor | assumption]. Qed.

(* ================================================================== *)
(** * Room Session: sending *)

Section SendFacts.
Context {P : Platform}.

(** C5.  A draft that holds nothing but white space (the empty draft
    included) makes [sendMessage] return at once: no request is issued,
    no message row is persisted, and nothing else changes either. *)
Theorem sendMessage_blank_persists_nothing (w : World Chat.State) :
  forallb is_whitespace (Chat.newMessage (component w)) = true ->
  Chat.sendMessage w = (Normal tt, w)
  /\ messages (db (exec Chat.sendMessage w)) = messages (db w).
Proof.
  intros H.
  assert (E : Chat.sendMessage w = (Normal tt, w)).
  { unfold Chat.sendMessage, bind, get_state, gets.
    rewrite (trim_blank _ H); reflexivity. }
  split; [exact E | unfold exec; rewrite E; reflexivity].
Qed.

(** C10.  For a draft that is not blank, in an open room: when the insert
    fails the draft and the local transcript are as they were, nothing is
    persisted and the failure is notified; when it succeeds exactly one
    row is appended, its content is the draft without its surrounding
    white space, the draft is cleared and the local transcript is still
    as it was. *)
Theorem sendMessage_outcome (w : World Chat.State) (r : ChatRoom) (u : User) :
  truthy (trim (Chat.newMessage (component w))) = true ->
  Chat.room (component w) = Some r ->
  Chat.currentUser (component w) = Some u ->
  let w' := exec Chat.sendMessage w in
  (forall message, hd None (net w) = Some message ->
     Chat.newMessage (component w') = Chat.newMessage (component w)
     /\ Chat.messages (component w') = Chat.messages (component w)
     /\ db w' = db w
     /\ toasts w' = toasts w ++ [Chat.send_failed message])
  /\ (hd None (net w) = None ->
     messages (db w') = messages (db w) ++ [sent_row w r u]
     /\ msg_content (sent_row w r u) = trim (Chat.newMessage (component w))
     /\ Chat.newMessage (component w') = []
     /\ Chat.messages (component w') = Chat.messages (component w)
     /\ toasts w' = toasts w).
Proof.
  intros Hdraft Hroom Huser w'. subst w'.
  unfold exec, Chat.sendMessage, bind, get_state, gets.
  rewrite Hdraft, Hroom, Huser. unfold try_catch, bind.
  split.
  - intros message Hf. rewrite (request_fault _ _ _ _ _ Hf). simpl.
    repeat split; reflexivity.
  - intros Hf. rewrite (request_through _ _ _ _ Hf). simpl.
    repeat split; reflexivity.
Qed.

End SendFacts.

(* ================================================================== *)
(** * Tasks that only read *)

Section Frame.
Variable C : Type.

Lemma keeps_db_ret {A} (a : A) : keeps_db (@ret (World C) A a).
Proof. intros w; reflexivity. Qed.

Lemma keeps_db_throw {A} (e : jsstring) : keeps_db (@throw (World C) A e).
Proof. intros w; reflexivity. Qed.

Lemma keeps_db_bind {A B} (m : Task (World C) A) (k : A -> Task (World C) B) :
  keeps_db m -> (forall a, keeps_db (k a)) -> keeps_db (bind m k).
Proof.
  intros Hm Hk w; unfold bind.
  specialize (Hm w); destruct (m w) as [[a|e] w1]; simpl in *.
  - rewrite Hk; exact Hm.
  - exact Hm.
Qed.

Lemma keeps_db_try_catch {A} (m : Task (World C) A)
    (h : jsstring -> Task (World C) A) :
  keeps_db m -> (forall e, keeps_db (h e)) -> keeps_db (try_catch m h).
Proof.
  intros Hm Hh w; unfold try_catch.
  specialize (Hm w); destruct (m w) as [[a|e] w1]; simpl in *.
  - exact Hm.
  - rewrite Hh; exact Hm.
Qed.

Lemma keeps_db_modify (f : World C -> World C) :
  (forall w, db (f w) = db w) -> keeps_db (modify f).
Proof. intros Hf w; apply Hf. Qed.

Lemma keeps_db_toast (t : Toast) : keeps_db (@toast C t).
Proof. apply keeps_db_modify; reflexivity. Qed.

Lemma keeps_db_console_error (l m : jsstring) :
  keeps_db (@console_error C l m).
Proof. apply keeps_db_modify; reflexivity. Qed.

Lemma keeps_db_set_state (f : C -> C) : keeps_db (set_state f).
Proof. apply keeps_db_modify; reflexivity. Qed.

Lemma keeps_db_request {A} (query : Db -> Response A * Db) :
  (forall d, snd (query d) = d) -> keeps_db (@request C A query).
Proof.
  intros Hq w; unfold request.
  destruct (hd None (net w)); [reflexivity|].
  specialize (Hq (db w)); destruct (query (db w)); simpl in *; exact Hq.
Qed.

Lemma keeps_db_promise_all_map {A B} (f : A -> Task (World C) B)
    (items : list A) :
  (forall a, keeps_db (f a)) -> keeps_db (promise_all_map f items).
Proof.
  intros Hf; induction items as [|x rest IH]; simpl.
  - apply keeps_db_ret.
  - apply keeps_db_bind; [apply Hf|]; intros y.
    apply keeps_db_bind; [exact IH|]; intros ys. apply keeps_db_ret.
Qed.

End Frame.

Create HintDb reads.

#[local] Hint Resolve keeps_db_ret keeps_db_throw keeps_db_toast
  keeps_db_console_error keeps_db_set_state keeps_db_promise_all_map
  : reads.

(* ================================================================== *)
(** * Room Directory: creating a room *)

Lemma hex_pair (b : byte) :
  length (padStart 2 48%N (toString16 b)) = 2
  /\ forallb is_hex_digit (padStart 2 48%N (toString16 b)) = true.
Proof. destruct b; split; reflexivity. Qed.

Lemma hex_pairs (bytes : list byte) :
  length (join (map (fun b => padStart 2 48%N (toString16 b)) bytes))
    = 2 * length bytes
  /\ forallb is_hex_digit
       (join (map (fun b => padStart 2 48%N (toString16 b)) bytes)) = true.
Proof.
  unfold join; induction bytes as [|b bytes [IHl IHd]]; [split; reflexivity|].
  destruct (hex_pair b) as [Hl Hd].
  cbn [map concat length]. rewrite length_app, forallb_app, Hl, Hd, IHl, IHd.
  split; [lia | reflexivity].
Qed.

Section CreateFacts.
Context {P : Platform}.

Lemma loadRooms_keeps_db : keeps_db Dashboard.loadRooms.
Proof.
  unfold Dashboard.loadRooms.
  apply keeps_db_try_catch; [|auto with reads].
  apply keeps_db_bind; [apply keeps_db_request; reflexivity|].
  intros r; destruct (error r); [auto with reads|].
  apply keeps_db_bind; [|auto with reads].
  apply keeps_db_promise_all_map; intros room.
  apply keeps_db_bind; [apply keeps_db_request; reflexivity|auto with reads].
Qed.

(** A [createRoom] that passes the name check, with a signed-in user and
    an insert that goes through, appends exactly the row built from the
    form. *)
Lemma createRoom_persists (w : World Dashboard.State) (u : User) :
  truthy (trim (Dashboard.name (Dashboard.newRoom (component w)))) = true ->
  Dashboard.currentUser (component w) = Some u ->
  hd None (net w) = None ->
  chat_rooms (db (exec Dashboard.createRoom w)) =
    chat_rooms (db w)
    ++ [Query.new_room
          (Dashboard.roomData (Dashboard.newRoom (component w)) (user_id u))
          (db w)].
Proof.
  intros Hname Huser Hnet.
  unfold exec, Dashboard.createRoom, try_catch, bind at 1, get_state, gets.
  rewrite Hname, Huser. cbn [negb]. unfold bind at 1, ret.
  unfold bind at 1. rewrite (request_through _ _ _ _ Hnet).
  cbn [fst snd Query.insert_room error data ok].
  unfold bind at 1, toast at 1, modify at 1.
  unfold bind at 1, set_state at 1, modify at 1.
  unfold bind at 1, set_state at 1, modify at 1.
  match goal with
  | |- context [Dashboard.loadRooms ?w0] =>
      pose proof (loadRooms_keeps_db w0) as Hl;
      destruct (Dashboard.loadRooms w0) as [[[]|e] w1]; simpl in Hl |- *;
      rewrite Hl; reflexivity
  end.
Qed.

(** C6.  With an empty name (or one that is only white space)
    [createRoom] notifies that the name is required and returns: no
    request is issued and the backend is as it was, so no room row is
    persisted. *)
Theorem createRoom_empty_name_rejected (w : World Dashboard.State) :
  trim (Dashboard.name (Dashboard.newRoom (component w))) = [] ->
  Dashboard.createRoom w = (Normal tt, add_toast Dashboard.name_required w)
  /\ db (exec Dashboard.createRoom w) = db w
  /\ chat_rooms (db (exec Dashboard.createRoom w)) = chat_rooms (db w)
  /\ net (exec Dashboard.createRoom w) = net w.
Proof.
  intros H.
  assert (E : Dashboard.createRoom w =
              (Normal tt, add_toast Dashboard.name_required w)).
  { unfold Dashboard.createRoom, try_catch, bind, get_state, gets.
    rewrite H; reflexivity. }
  unfold exec; rewrite E; repeat split; reflexivity.
Qed.


(** A [createRoom] that persists a room stores the capacity the form
    holds, whatever it is. *)
Lemma createRoom_stores_capacity (w : World Dashboard.State) (u : User) :
  truthy (trim (Dashboard.name (Dashboard.newRoom (component w)))) = true ->
  Dashboard.currentUser (component w) = Some u ->
  hd None (net w) = None ->
  map cr_max_participants (chat_rooms (db (exec Dashboard.createRoom w))) =
    map cr_max_participants (chat_rooms (db w))
    ++ [Some (Dashboard.maxParticipants (Dashboard.newRoom (component w)))].
Proof.
  intros Hname Huser Hnet.
  rewrite (createRoom_persists w u Hname Huser Hnet), map_app; reflexivity.
Qed.

End CreateFacts.


(** C8 fails on the code.  The capacity input declares [min="2"], but its
    change handler keeps whatever [parseInt] reads and [createRoom] sends
    it on unchecked: typing 1 and creating the room persists a room of
    capacity 1. *)
Lemma createRoom_accepts_capacity_one :
  Dashboard.maxParticipants
    (Dashboard.newRoom (Sample.typed "Standup" EmptyString "1")) = 1%Z
  /\ map cr_max_participants
       (chat_rooms
          (db (exec (@Dashboard.createRoom Sample.platform)
                 (Sample.world (Sample.typed "Standup" EmptyString "1")
                    Sample.empty_db [])))) = [Some 1%Z]
  /\ ~ (2 <= 1)%Z.
Proof. split; [reflexivity | split; [vm_compute; reflexivity | lia]]. Qed.

(* ================================================================== *)
(** * Room Directory: resolving a join *)

Lemma app_one_neq {A} (l : list A) (x : A) : l ++ [x] <> l.
Proof.
  intros H; apply (f_equal (@length A)) in H.
  rewrite length_app in H; simpl in H; lia.
Qed.

Section JoinFacts.
Context {P : Platform}.

(** What the count request tells [joinRoom]: [null] when it fails. *)
Lemma count_reported (w : World Dashboard.State) (room_id : jsstring) :
  request (Query.count_active_members room_id) w =
    (Normal
       match hd None (net w) with
       | Some message => failed message
       | None =>
           {| data := Some (Query.active_members room_id (db w));
              error := None;
              count := Some (Z.of_nat
                               (length (Query.active_members room_id (db w))))
           |}
       end,
     set_backend (db w) (tl (net w)) w).
Proof. unfold request; destruct (hd None (net w)); reflexivity. Qed.

(** [joinRoom] once the code is given, the lookup request goes through
    and finds [room]. *)
Lemma joinRoom_resolved (w : World Dashboard.State) (room : ChatRoom) :
  truthy (trim (Dashboard.joinRoomCode (component w))) = true ->
  hd None (net w) = None ->
  fst (Query.room_by_code
         (toUpperCase (Dashboard.joinRoomCode (component w))) (db w))
    = ok room ->
  Dashboard.joinRoom w =
    let w1 := set_backend (db w) (tl (net w)) w in
    if is_true (cr_is_password_protected room)
       && negb (truthy (Dashboard.joinRoomPassword (component w)))
    then (Normal tt, add_toast Dashboard.password_required w1)
    else
      let w2 := set_backend (db w) (tl (tl (net w))) w1 in
      let M := Z.of_nat (length (Query.active_members (cr_id room) (db w))) in
      match hd None (tl (net w)) with
      | Some _ =>
          (Normal tt,
           add_navigation (Dashboard.chat_path (cr_room_code room)) w2)
      | None =>
          if reported_full M (cr_max_participants room)
          then (Normal tt, add_toast Dashboard.room_full w2)
          else (Normal tt,
                add_navigation (Dashboard.chat_path (cr_room_code room)) w2)
      end.
Proof.
  intros Hcode Hnet Hroom.
  unfold Dashboard.joinRoom, try_catch, bind at 1, get_state, gets.
  rewrite Hcode. cbn [negb]. unfold bind at 1.
  rewrite (request_through _ _ _ _ Hnet). rewrite Hroom.
  cbn [error data ok fst snd Query.room_by_code].
  destruct (is_true (cr_is_password_protected room)
            && negb (truthy (Dashboard.joinRoomPassword (component w)))).
  - reflexivity.
  - unfold bind. rewrite count_reported.
    cbn [net set_backend db].
    destruct (hd None (tl (net w))) as [message|].
    + reflexivity.
    + cbn [count]. unfold reported_full.
      assert (E : forall M cap,
                 truthy_number (Some M) && ge_nullable (number_or (Some M) 0) cap
                 = negb (Z.eqb M 0) && ge_nullable M cap).
      { intros M cap; unfold number_or, truthy_number.
        destruct (Z.eqb M 0); reflexivity. }
      rewrite E.
      destruct (negb _ && _); reflexivity.
Qed.

(** C2.  For a password-protected active room that the code lookup
    finds: with no password typed the join stops with the "Password
    required" notification and goes nowhere; with any password typed the
    gate is passed, and what happens next is decided by the participant
    count alone, whatever the password and the stored hash are. *)
Theorem joinRoom_password_gate (w : World Dashboard.State) (room : ChatRoom) :
  truthy (trim (Dashboard.joinRoomCode (component w))) = true ->
  hd None (net w) = None ->
  fst (Query.room_by_code
         (toUpperCase (Dashboard.joinRoomCode (component w))) (db w))
    = ok room ->
  cr_is_password_protected room = Some true ->
  let w' := exec Dashboard.joinRoom w in
  (Dashboard.joinRoomPassword (component w) = [] ->
     toasts w' = toasts w ++ [Dashboard.password_required]
     /\ navigations w' = navigations w)
  /\ (Dashboard.joinRoomPassword (component w) <> [] ->
     let full :=
       match hd None (tl (net w)) with
       | Some _ => false
       | None =>
           reported_full
             (Z.of_nat (length (Query.active_members (cr_id room) (db w))))
             (cr_max_participants room)
       end in
     toasts w' = toasts w ++ (if full then [Dashboard.room_full] else [])
     /\ navigations w' =
          navigations w
          ++ (if full then []
              else [Dashboard.chat_path (cr_room_code room)])).
Proof.
  intros Hcode Hnet Hroom Hprot w'; subst w'.
  unfold exec; rewrite (joinRoom_resolved w room Hcode Hnet Hroom).
  rewrite Hprot; cbn [is_true andb].
  split.
  - intros ->; cbn; split; [reflexivity | reflexivity].
  - intros Hpw.
    destruct (Dashboard.joinRoomPassword (component w)) as [|c pw];
      [contradiction Hpw; reflexivity|].
    cbn [truthy negb].
    destruct (hd None (tl (net w))) as [message|]; cbn zeta.
    + cbn; rewrite !app_nil_r; split; reflexivity.
    + destruct (reported_full _ _); cbn; rewrite ?app_nil_r;
        split; reflexivity.
Qed.


End JoinFacts.

(* ================================================================== *)
(** * Admin Monitor: capture records *)

Section CaptureFacts.


End CaptureFacts.

(** The scenario of the spec: no image, five audio records and three
    locations load as they are, with no error. *)
Lemma loadUserVerificationData_scenario :
  AdminPanel.verificationData
    (component
       (exec (AdminPanel.loadUserVerificationData (str "alice"))
          (Sample.world AdminPanel.initial Sample.captures [])))
  = {| AdminPanel.images := [];
       AdminPanel.audio := rev (map Sample.audio_clip (seq 0 5));
       AdminPanel.locations := rev (map Sample.position (seq 0 3)) |}
  /\ toasts
       (exec (AdminPanel.loadUserVerificationData (str "alice"))
          (Sample.world AdminPanel.initial Sample.captures [])) = [].
Proof. split; reflexivity. Qed.

(* ================================================================== *)
(** * Ordered selections *)

Section OrderFacts.
Variable A : Type.
Variable key : A -> timestamp.

#[local] Abbreviation le := (not_after key).
#[local] Abbreviation lt := (earlier key).

Lemma insert_row_perm (x : A) (rows : list A) :
  Permutation (insert_row key true x rows) (x :: rows).
Proof.
  induction rows as [|y rest IH]; cbn [insert_row]; [reflexivity|].
  destruct (before key true x y); [reflexivity|].
  rewrite IH; apply perm_swap.
Qed.

Lemma order_perm (rows : list A) : Permutation (order key true rows) rows.
Proof.
  induction rows as [|x rest IH]; cbn [order fold_right]; [constructor|].
  rewrite insert_row_perm; constructor; exact IH.
Qed.

Lemma insert_row_sorted (x : A) (rows : list A) :
  StronglySorted le rows -> StronglySorted le (insert_row key true x rows).
Proof.
  induction 1 as [|y rest Hs IH Hall]; cbn [insert_row].
  - constructor; constructor.
  - unfold before; destruct (Z.leb (key x) (key y)) eqn:E.
    + apply Z.leb_le in E. constructor; [constructor; assumption|].
      constructor; [exact E|].
      eapply Forall_impl; [|exact Hall].
      unfold not_after; intros a Ha; lia.
    + apply Z.leb_gt in E. constructor; [exact IH|].
      eapply Permutation_Forall; [symmetry; apply insert_row_perm|].
      constructor; [unfold not_after; lia | exact Hall].
Qed.

Lemma order_sorted (rows : list A) : StronglySorted le (order key true rows).
Proof.
  induction rows as [|x rest IH]; cbn [order fold_right]; [constructor|].
  apply insert_row_sorted, IH.
Qed.

(** A log whose creation times strictly increase is the only way to put
    its rows in creation order. *)
Lemma sorted_unique (l1 l2 : list A) :
  StronglySorted lt l1 -> StronglySorted le l2 -> Permutation l1 l2 ->
  l1 = l2.
Proof.
  intros H1; revert l2; induction H1 as [|a l1 Hs1 IH Hall1]; intros l2 H2 Hp.
  - apply Permutation_nil in Hp; symmetry; exact Hp.
  - destruct H2 as [|b l2 Hs2 Hall2].
    + apply Permutation_sym, Permutation_nil in Hp; discriminate Hp.
    + assert (Ha : In a (b :: l2))
        by (eapply Permutation_in; [exact Hp | left; reflexivity]).
      assert (Hb : In b (a :: l1))
        by (eapply Permutation_in; [symmetry; exact Hp | left; reflexivity]).
      assert (E : a = b).
      { destruct Ha as [Ha|Ha]; [symmetry; exact Ha|].
        destruct Hb as [Hb|Hb]; [exact Hb|].
        rewrite Forall_forall in Hall1, Hall2.
        specialize (Hall1 _ Hb); specialize (Hall2 _ Ha).
        unfold not_after, earlier in *; lia. }
      subst b. f_equal. apply IH; [exact Hs2|].
      eapply Permutation_cons_inv; exact Hp.
Qed.

Lemma order_of_log (log rows : list A) :
  StronglySorted lt log -> Permutation log rows ->
  order key true rows = log.
Proof.
  intros Hs Hp; symmetry; apply sorted_unique.
  - exact Hs.
  - apply order_sorted.
  - rewrite Hp; symmetry; apply order_perm.
Qed.

End OrderFacts.

(* ================================================================== *)
(** * Room Session: the transcript *)

Lemma set_backend_same {C} (w : World C) : set_backend (db w) (net w) w = w.
Proof. destruct w; reflexivity. Qed.

Lemma skipn_tl {A} (k : nat) (l : list A) : skipn k (tl l) = skipn (S k) l.
Proof. destruct l; [apply skipn_nil | reflexivity]. Qed.

Lemma reliable_skipn (k : nat) (n : list Fault) :
  reliable n -> reliable (skipn k n).
Proof.
  revert n; induction k as [|k IH]; intros n H; [exact H|].
  rewrite <- skipn_tl; apply IH, reliable_tl, H.
Qed.

(** With no fault pending, the profile lookups of a load answer, in
    order, for every row; they use up one request each and touch nothing
    else. *)
Lemma profiles_loaded (w : World Chat.State) (rows : list Backend.Message) :
  reliable (net w) ->
  promise_all_map
    (fun message =>
       p <- request (Query.profile_of (msg_user_id message)) ;;
       ret (Chat.with_profile message (Chat.author_of (data p))))
    rows w
  = (Normal (map (enriched (db w)) rows),
     set_backend (db w) (skipn (length rows) (net w)) w).
Proof.
  revert w; induction rows as [|m rows IH]; intros w Hn.
  - cbn [promise_all_map map length skipn]. unfold ret.
    rewrite set_backend_same; reflexivity.
  - cbn [promise_all_map]. unfold bind at 1. unfold bind at 1.
    rewrite (request_through _ _ _ _ (reliable_hd _ Hn)).
    cbn [fst snd Query.profile_of]. unfold ret at 1. unfold bind at 1.
    rewrite IH by (apply reliable_tl, Hn).
    cbn [db net set_backend map length]. rewrite skipn_tl. reflexivity.
Qed.

Lemma no_profile (d : Db) (user : jsstring) :
  (forall p, In p (profiles d) -> pf_user_id p <> user) ->
  filter (fun p => Js.eqb (pf_user_id p) user) (profiles d) = [].
Proof.
  intros H; induction (profiles d) as [|p rest IH]; [reflexivity|].
  cbn [filter].
  assert (E : Js.eqb (pf_user_id p) user = false)
    by (apply eqb_neq, H; left; reflexivity).
  rewrite E; apply IH; intros q Hq; apply H; right; exact Hq.
Qed.



(* ================================================================== *)
(** * Room Session: membership *)

Section MemberFacts.
Context {P : Platform}.
Variables room user : jsstring.

#[local] Abbreviation mine := (Query.same_member room user).

Lemma mine_fields (p : RoomParticipant) :
  mine p = true -> rp_room_id p = room /\ rp_user_id p = user.
Proof.
  unfold mine, Query.same_member; rewrite andb_true_iff, !eqb_eq; tauto.
Qed.

Lemma activate_active (p : RoomParticipant) :
  rp_is_active p = Some true -> Query.activate p = p.
Proof. destruct p; cbn; intros ->; reflexivity. Qed.

Lemma none_mine (rows : list RoomParticipant) :
  existsb mine rows = false <-> filter mine rows = [].
Proof.
  induction rows as [|p rows IH]; cbn [existsb filter]; [tauto|].
  destruct (mine p); cbn [orb]; [split; discriminate | exact IH].
Qed.

Lemma activated_mine (rows : list RoomParticipant) :
  filter mine (map (fun p => if mine p then Query.activate p else p) rows)
  = map Query.activate (filter mine rows).
Proof.
  induction rows as [|p rows IH]; [reflexivity|].
  cbn [map filter]. destruct (mine p) eqn:E.
  - change (mine (Query.activate p)) with (mine p). rewrite E.
    cbn [map]; f_equal; exact IH.
  - rewrite E; exact IH.
Qed.

(** The membership rows after an upsert for the pair that went through. *)
Lemma upsert_member_rows (d : Db) :
  room_participants (snd (Query.upsert_member room user d)) =
    if existsb mine (room_participants d)
    then map (fun p => if mine p then Query.activate p else p)
           (room_participants d)
    else room_participants d
         ++ [ {| rp_id := gen_random_uuid (row_seq d);
                 rp_is_active := Some true; rp_joined_at := clock d;
                 rp_room_id := room; rp_user_id := user |} ].
Proof.
  unfold Query.upsert_member; fold mine.
  destruct (existsb mine (room_participants d)); reflexivity.
Qed.

(** After an upsert that went through, the pair has as many rows as
    before, or one if it had none, and all of them are active. *)
Lemma upsert_member_mine (d : Db) :
  let rows' := room_participants (snd (Query.upsert_member room user d)) in
  length (filter mine rows')
    = Nat.max 1 (length (filter mine (room_participants d)))
  /\ Forall (fun p => rp_is_active p = Some true) (filter mine rows').
Proof.
  cbn zeta; rewrite upsert_member_rows.
  destruct (existsb mine (room_participants d)) eqn:E.
  - rewrite activated_mine, length_map. split.
    + destruct (filter mine (room_participants d)) eqn:F;
        [apply none_mine in F; congruence | cbn [length]; lia].
    + apply Forall_map, Forall_forall; intros; reflexivity.
  - apply none_mine in E. rewrite filter_app, E.
    assert (M : mine {| rp_id := gen_random_uuid (row_seq d);
                        rp_is_active := Some true; rp_joined_at := clock d;
                        rp_room_id := room; rp_user_id := user |} = true)
      by (unfold mine, Query.same_member; cbn; rewrite !eqb_refl;
          reflexivity).
    cbn [filter app]. rewrite M. split; [reflexivity|].
    constructor; [reflexivity | constructor].
Qed.

(** An upsert for a pair whose rows are all active, and which has one,
    changes no row. *)
Lemma upsert_member_again (d : Db) :
  filter mine (room_participants d) <> [] ->
  Forall (fun p => rp_is_active p = Some true)
    (filter mine (room_participants d)) ->
  room_participants (snd (Query.upsert_member room user d))
  = room_participants d.
Proof.
  intros Hne Hact. rewrite upsert_member_rows.
  destruct (existsb mine (room_participants d)) eqn:E;
    [|apply none_mine in E; contradiction].
  rewrite <- (map_id (room_participants d)) at 2.
  apply map_ext_in; intros p Hp. destruct (mine p) eqn:M; [|reflexivity].
  apply activate_active.
  rewrite Forall_forall in Hact; apply Hact, filter_In; split; assumption.
Qed.

Lemma joinRoom_db (w : World Chat.State) :
  db (exec (Chat.joinRoom room user) w) =
    match hd None (net w) with
    | Some _ => db w
    | None => snd (Query.upsert_member room user (db w))
    end
  /\ net (exec (Chat.joinRoom room user) w) = tl (net w).
Proof.
  unfold exec, Chat.joinRoom, bind, request.
  destruct (hd None (net w)); [split; reflexivity|].
  destruct (Query.upsert_member room user (db w)) as [r d] eqn:E.
  destruct (error r); split; reflexivity.
Qed.

(** Whatever requests fail, joining never takes a pair that has at most
    one membership row to two. *)
Lemma joinRoom_at_most_one (w : World Chat.State) :
  length (filter mine (room_participants (db w))) <= 1 ->
  length (filter mine
            (room_participants (db (exec (Chat.joinRoom room user) w)))) <= 1.
Proof.
  intros H. destruct (joinRoom_db w) as [-> _].
  destruct (hd None (net w)); [exact H|].
  destruct (upsert_member_mine (db w)) as [-> _]; lia.
Qed.

(** C4.  Against a membership table keyed by (room, user), where the
    pair has at most one row: after the join has been performed twice
    the pair has exactly one row, that row is active, and the second
    join left the rows as the first one made them. *)
Theorem joinRoom_twice_one_membership (w : World Chat.State) :
  length (filter mine (room_participants (db w))) <= 1 ->
  hd None (net w) = None ->
  hd None (tl (net w)) = None ->
  let w1 := exec (Chat.joinRoom room user) w in
  let w2 := exec (Chat.joinRoom room user) w1 in
  (exists p,
     filter (Query.same_member room user) (room_participants (db w2)) = [p]
     /\ rp_is_active p = Some true
     /\ rp_room_id p = room /\ rp_user_id p = user)
  /\ room_participants (db w2) = room_participants (db w1).
Proof.
  intros Hone Hn1 Hn2 w1 w2. fold mine.
  destruct (joinRoom_db w) as [Hd1 Hnet1]; fold w1 in Hd1, Hnet1.
  rewrite Hn1 in Hd1.
  destruct (joinRoom_db w1) as [Hd2 _]; fold w2 in Hd2.
  rewrite Hnet1, Hn2 in Hd2.
  destruct (upsert_member_mine (db w)) as [Hlen Hact].
  cbn zeta in Hlen, Hact. rewrite <- Hd1 in Hlen, Hact.
  assert (Hlen1 : length (filter mine (room_participants (db w1))) = 1)
    by lia.
  assert (Hsame : room_participants (db w2) = room_participants (db w1)).
  { rewrite Hd2. apply upsert_member_again; [|exact Hact].
    intros E; rewrite E in Hlen1; discriminate Hlen1. }
  split; [|exact Hsame]. rewrite Hsame.
  destruct (filter mine (room_participants (db w1))) as [|p [|q rest]] eqn:F;
    try discriminate Hlen1.
  exists p. split; [reflexivity|].
  split; [inversion Hact; assumption|].
  apply mine_fields.
  assert (Hin : In p (filter mine (room_participants (db w1))))
    by (rewrite F; left; reflexivity).
  apply filter_In in Hin; tauto.
Qed.

End MemberFacts.

(* ================================================================== *)
(** * The theorems at work on the sample tables *)



Lemma joinRoom_password_gate_witness :
  toasts
    (exec (@Dashboard.joinRoom Sample.platform)
       (Sample.world (Sample.joining "ab12" EmptyString)
          (Sample.directory (Some 2%Z) true 1) []))
  = [] ++ [Dashboard.password_required]
  /\ navigations
       (exec (@Dashboard.joinRoom Sample.platform)
          (Sample.world (Sample.joining "ab12" "guess")
             (Sample.directory (Some 2%Z) true 1) []))
     = [] ++ [Dashboard.chat_path (str "AB12")].
Proof.
  split.
  - refine (proj1 (proj1
      (@joinRoom_password_gate Sample.platform
         (Sample.world (Sample.joining "ab12" EmptyString)
            (Sample.directory (Some 2%Z) true 1) [])
         (Sample.design_sync (Some 2%Z) true) _ _ _ _) _));
      reflexivity.
  - refine (proj2 (proj2
      (@joinRoom_password_gate Sample.platform
         (Sample.world (Sample.joining "ab12" "guess")
            (Sample.directory (Some 2%Z) true 1) [])
         (Sample.design_sync (Some 2%Z) true) _ _ _ _) _));
      try reflexivity.
    discriminate.
Defined.



Lemma joinRoom_twice_one_membership_witness :
  exists p,
    filter (Query.same_member (str "room-1") (str "alice"))
      (room_participants
         (db (exec (@Chat.joinRoom Sample.platform (str "room-1")
                      (str "alice"))
                (exec (@Chat.joinRoom Sample.platform (str "room-1")
                         (str "alice"))
                   (Sample.world Chat.initial Sample.empty_db []))))) = [p]
    /\ rp_is_active p = Some true
    /\ rp_room_id p = str "room-1" /\ rp_user_id p = str "alice".
Proof.
  refine (proj1
    (@joinRoom_twice_one_membership Sample.platform (str "room-1")
       (str "alice") (Sample.world Chat.initial Sample.empty_db [])
       _ _ _)).
  - cbn; lia.
  - reflexivity.
  - reflexivity.
Defined.

Lemma sendMessage_blank_persists_nothing_witness :
  @Chat.sendMessage Sample.platform
    (Sample.world (Sample.in_room [32; 9; 160; 10]%N) (Sample.history 2) [])
  = (Normal tt,
     Sample.world (Sample.in_room [32; 9; 160; 10]%N) (Sample.history 2) []).
Proof.
  refine (proj1
    (@sendMessage_blank_persists_nothing Sample.platform
       (Sample.world (Sample.in_room [32; 9; 160; 10]%N) (Sample.history 2)
          []) _)).
  reflexivity.
Defined.

Lemma createRoom_empty_name_rejected_witness :
  chat_rooms
    (db (exec (@Dashboard.createRoom Sample.platform)
           (Sample.world (Sample.typed EmptyString "secret" "10")
              (Sample.directory (Some 2%Z) false 0) [])))
  = chat_rooms (Sample.directory (Some 2%Z) false 0).
Proof.
  refine (proj1 (proj2 (proj2
    (@createRoom_empty_name_rejected Sample.platform
       (Sample.world (Sample.typed EmptyString "secret" "10")
          (Sample.directory (Some 2%Z) false 0) []) _)))).
  reflexivity.
Defined.

Lemma sendMessage_outcome_witness :
  (Chat.newMessage
     (component
        (exec (@Chat.sendMessage Sample.platform)
           (Sample.world (Sample.in_room (str " hello ")) (Sample.history 2)
              [Some (str "offline")])))
   = str " hello ")
  /\ map msg_content
       (messages
          (db (exec (@Chat.sendMessage Sample.platform)
                 (Sample.world (Sample.in_room (str " hello "))
                    (Sample.history 2) []))))
     = map msg_content (messages (Sample.history 2)) ++ [str "hello"].
Proof.
  split.
  - refine (proj1 (proj1
      (@sendMessage_outcome Sample.platform
         (Sample.world (Sample.in_room (str " hello ")) (Sample.history 2)
            [Some (str "offline")])
         (Sample.design_sync (Some 50%Z) false) Sample.alice _ _ _)
      (str "offline") _)); reflexivity.
  - pose proof (proj1 (proj2
      (@sendMessage_outcome Sample.platform
         (Sample.world (Sample.in_room (str " hello ")) (Sample.history 2) [])
         (Sample.design_sync (Some 50%Z) false) Sample.alice
         eq_refl eq_refl eq_refl) eq_refl)) as H.
    cbv zeta in H. rewrite H, map_app. reflexivity.
Defined.

(* ================================================================== *)
(** * Ordered selections, either way *)

Section SelectionFacts.
Variable A : Type.
Variable key : A -> timestamp.
Variable ascending : bool.

Lemma insert_row_permutation (x : A) (rows : list A) :
  Permutation (insert_row key ascending x rows) (x :: rows).
Proof.
  induction rows as [|y rest IH]; cbn [insert_row]; [reflexivity|].
  destruct (before key ascending x y); [reflexivity|].
  rewrite IH; apply perm_swap.
Qed.

Lemma order_permutation (rows : list A) :
  Permutation (order key ascending rows) rows.
Proof.
  induction rows as [|x rest IH]; cbn [order fold_right]; [constructor|].
  rewrite insert_row_permutation; constructor; exact IH.
Qed.

Lemma order_In (x : A) (rows : list A) :
  In x (order key ascending rows) <-> In x rows.
Proof.
  split; apply Permutation_in;
    [apply order_permutation | symmetry; apply order_permutation].
Qed.

Lemma in_order_trans (a b c : A) :
  in_order key ascending a b -> in_order key ascending b c ->
  in_order key ascending a c.
Proof. unfold in_order; destruct ascending; lia. Qed.

Lemma before_in_order (a b : A) :
  before key ascending a b = true -> in_order key ascending a b.
Proof.
  unfold before, in_order; destruct ascending; apply Z.leb_le.
Qed.

Lemma not_before_in_order (a b : A) :
  before key ascending a b = false -> in_order key ascending b a.
Proof.
  unfold before, in_order; destruct ascending; intros H;
    apply Z.leb_gt in H; lia.
Qed.

Lemma insert_row_in_order (x : A) (rows : list A) :
  StronglySorted (in_order key ascending) rows ->
  StronglySorted (in_order key ascending) (insert_row key ascending x rows).
Proof.
  induction 1 as [|y rest Hs IH Hall]; cbn [insert_row].
  - constructor; constructor.
  - destruct (before key ascending x y) eqn:E.
    + apply before_in_order in E.
      constructor; [constructor; assumption|].
      constructor; [exact E|].
      eapply Forall_impl; [|exact Hall].
      intros a Ha; eapply in_order_trans; eassumption.
    + apply not_before_in_order in E. constructor; [exact IH|].
      eapply Permutation_Forall;
        [symmetry; apply insert_row_permutation|].
      constructor; [exact E | exact Hall].
Qed.

Lemma order_in_order (rows : list A) :
  StronglySorted (in_order key ascending) (order key ascending rows).
Proof.
  induction rows as [|x rest IH]; cbn [order fold_right]; [constructor|].
  apply insert_row_in_order, IH.
Qed.

(** Of an ordered selection, a limit keeps a prefix: what it keeps is in
    order, and stands before everything it drops. *)
Lemma limit_in_order (n : nat) (rows : list A) :
  StronglySorted (in_order key ascending)
    (limit n (order key ascending rows))
  /\ forall x y,
       In x (limit n (order key ascending rows)) ->
       In y rows -> ~ In y (limit n (order key ascending rows)) ->
       in_order key ascending x y.
Proof.
  pose proof (order_in_order rows) as Hs.
  unfold limit.
  rewrite <- (firstn_skipn n (order key ascending rows)) in Hs.
  split.
  - clear -Hs. induction (firstn n (order key ascending rows)) as [|a l IH];
      [constructor|].
    cbn [app] in Hs. inversion Hs as [|? ? Hs' Hall]; subst.
    constructor; [apply IH, Hs'|].
    apply Forall_app in Hall; tauto.
  - intros x y Hx Hy Hny.
    apply order_In in Hy.
    rewrite <- (firstn_skipn n (order key ascending rows)) in Hy.
    apply in_app_or in Hy. destruct Hy as [Hy|Hy]; [contradiction|].
    clear Hny. induction (firstn n (order key ascending rows)) as [|a l IH];
      [contradiction|].
    cbn [app] in Hs. inversion Hs as [|? ? Hs' Hall]; subst.
    destruct Hx as [->|Hx]; [|apply IH; assumption].
    rewrite Forall_forall in Hall; apply Hall, in_or_app; right; exact Hy.
Qed.

Lemma limit_In (n : nat) (x : A) (rows : list A) :
  In x (limit n (order key ascending rows)) -> In x rows.
Proof.
  intros H; apply order_In; unfold limit in H.
  rewrite <- (firstn_skipn n (order key ascending rows)).
  apply in_or_app; left; exact H.
Qed.

End SelectionFacts.

(* ================================================================== *)
(** * Admin Monitor: what a selected user shows *)

(** What [handleUserSelect] leaves on the page, request by request. *)
Lemma handleUserSelect_shown (w : World AdminPanel.State) (userId : jsstring) :
  let w' := exec (AdminPanel.handleUserSelect userId) w in
  AdminPanel.selectedUser (component w') = Some userId
  /\ AdminPanel.images (AdminPanel.verificationData (component w')) =
       match nth 0 (net w) None with
       | Some _ => []
       | None =>
           limit 20 (order vi_captured_at false
                       (filter (fun r => Js.eqb (vi_user_id r) userId)
                          (verification_images (db w))))
       end
  /\ AdminPanel.audio (AdminPanel.verificationData (component w')) =
       match nth 1 (net w) None with
       | Some _ => []
       | None =>
           limit 20 (order va_recorded_at false
                       (filter (fun r => Js.eqb (va_user_id r) userId)
                          (verification_audio (db w))))
       end
  /\ AdminPanel.locations (AdminPanel.verificationData (component w')) =
       match nth 2 (net w) None with
       | Some _ => []
       | None =>
           limit 50 (order lt_recorded_at false
                       (filter (fun r => Js.eqb (lt_user_id r) userId)
                          (location_tracking (db w))))
       end.
Proof.
  unfold exec, AdminPanel.handleUserSelect,
    AdminPanel.loadUserVerificationData, try_catch, bind, request, set_state,
    modify.
  destruct w as [c t n k d faults]; cbn [net db set_component component].
  destruct faults as [|[m1|] [|[m2|] [|[m3|] rest]]];
    cbn -[order filter limit]; repeat split.
Qed.

Section ShownFacts.
Variable A : Type.
Variable key : A -> timestamp.
Variable owner : A -> jsstring.
Variable userId : jsstring.
Variable n : nat.
Variable table : list A.
Variable fault : Fault.

#[local] Abbreviation shown :=
  (match fault with
   | Some _ => []
   | None => limit n (order key false
                        (filter (fun r => Js.eqb (owner r) userId) table))
   end).

Lemma shown_owned : Forall (fun r => owner r = userId) shown.
Proof.
  destruct fault; [constructor|].
  apply Forall_forall; intros r Hr.
  apply limit_In, filter_In in Hr. apply eqb_eq; tauto.
Qed.

Lemma shown_newest :
  StronglySorted (in_order key false) shown
  /\ forall x y,
       In x shown -> In y table -> owner y = userId -> ~ In y shown ->
       (key y <= key x)%Z.
Proof.
  destruct fault; [split; [constructor | intros x y []]|].
  destruct (limit_in_order A key false n
              (filter (fun r => Js.eqb (owner r) userId) table)) as [Hs Hd].
  split; [exact Hs|].
  intros x y Hx Hy Ho Hn.
  apply (Hd x y Hx); [|exact Hn].
  apply filter_In; split; [exact Hy | apply eqb_eq; exact Ho].
Qed.

End ShownFacts.



(* ================================================================== *)
(** * Room Directory: the list of rooms *)

Lemma number_or_self (z : Z) : number_or (Some z) 0 = z.
Proof.
  unfold number_or, truthy_number.
  destruct (Z.eqb z 0) eqn:E; [apply Z.eqb_eq in E; subst|]; reflexivity.
Qed.

Lemma setRooms_same (s : Dashboard.State) :
  Dashboard.setRooms (Dashboard.rooms s) s = s.
Proof. destruct s; reflexivity. Qed.

Lemma set_component_same {C} (w : World C) : set_component (component w) w = w.
Proof. destruct w; reflexivity. Qed.

(** The card of a room row with [n] as its count of members. *)
Lemma counted_fields (room : ChatRoom) (n : Z) :
  Dashboard.room_id (Dashboard.room_view room n) = cr_id room
  /\ Dashboard.room_code (Dashboard.room_view room n) = cr_room_code room
  /\ Dashboard.room_created_at (Dashboard.room_view room n)
     = cr_created_at room
  /\ Dashboard.max_participants (Dashboard.room_view room n)
     = cr_max_participants room
  /\ Dashboard.is_password_protected (Dashboard.room_view room n)
     = cr_is_password_protected room
  /\ Dashboard.participant_count (Dashboard.room_view room n) = n.
Proof. repeat split. Qed.

(** The count requests of [loadRooms], one per room and in order: each
    answers the number of active members of its room, or nothing when
    it fails, and then the room counts as empty. *)
Lemma counts_loaded (rows : list ChatRoom) (w : World Dashboard.State) :
  exists views w',
    promise_all_map
      (fun room =>
         c <- request (Query.count_active_members (cr_id room)) ;;
         ret (Dashboard.room_view room (number_or (count c) 0)))
      rows w = (Normal views, w')
    /\ Forall2
         (fun room view =>
            exists n,
              view = Dashboard.room_view room n
              /\ (n = Z.of_nat
                        (length (Query.active_members (cr_id room) (db w)))
                  \/ n = 0%Z)
              /\ (reliable (net w) ->
                  n = Z.of_nat
                        (length (Query.active_members (cr_id room) (db w)))))
         rows views
    /\ component w' = component w /\ toasts w' = toasts w
    /\ navigations w' = navigations w /\ console w' = console w
    /\ db w' = db w /\ net w' = skipn (length rows) (net w).
Proof.
  revert w; induction rows as [|room rows IH]; intros w.
  - exists [], w. cbn. repeat split; constructor.
  - cbn [promise_all_map]. unfold bind at 1. unfold bind at 1.
    unfold request at 1.
    destruct (hd None (net w)) as [message|] eqn:Hf.
    + cbn [failed count]. unfold ret at 1.
      destruct (IH (set_backend (db w) (tl (net w)) w))
        as [views [w' [Hrun [Hv [Hc [Ht [Hn [Hk [Hd Hnet]]]]]]]]].
      unfold bind at 1. rewrite Hrun. unfold ret.
      eexists; eexists; split; [reflexivity|].
      cbn [set_backend db net component toasts navigations console]
        in Hv, Hc, Ht, Hn, Hk, Hd, Hnet.
      repeat split; try assumption.
      * constructor.
        -- exists 0%Z. repeat split; [right; reflexivity|].
           intros Hr. apply reliable_hd in Hr. congruence.
        -- eapply Forall2_impl; [|exact Hv].
           intros r v [n [E [Hn' Hr]]]; exists n; repeat split; try assumption.
           intros Hrel; apply Hr, reliable_tl, Hrel.
      * rewrite Hnet; apply skipn_tl.
    + cbn [Query.count_active_members count]. unfold ret at 1.
      destruct (IH (set_backend (db w) (tl (net w)) w))
        as [views [w' [Hrun [Hv [Hc [Ht [Hn [Hk [Hd Hnet]]]]]]]]].
      unfold bind at 1. rewrite Hrun. unfold ret.
      eexists; eexists; split; [reflexivity|].
      cbn [set_backend db net component toasts navigations console]
        in Hv, Hc, Ht, Hn, Hk, Hd, Hnet.
      repeat split; try assumption.
      * constructor.
        -- eexists. split; [reflexivity|]. rewrite number_or_self.
           split; [left; reflexivity | intros _; reflexivity].
        -- eapply Forall2_impl; [|exact Hv].
           intros r v [n [E [Hn' Hr]]]; exists n; repeat split; try assumption.
           intros Hrel; apply Hr, reliable_tl, Hrel.
      * rewrite Hnet; apply skipn_tl.
Qed.

(** [loadRooms], whatever fails: it returns, says nothing to the user,
    goes nowhere, writes nothing, and changes at most the list of rooms. *)
Lemma loadRooms_frame (w : World Dashboard.State) :
  exists views w',
    Dashboard.loadRooms w = (Normal tt, w')
    /\ component w' = Dashboard.setRooms views (component w)
    /\ toasts w' = toasts w /\ navigations w' = navigations w
    /\ db w' = db w
    /\ (hd None (net w) = None ->
        console w' = console w
        /\ Forall2
             (fun room view =>
                exists n,
                  view = Dashboard.room_view room n
                  /\ (n = Z.of_nat
                            (length (Query.active_members (cr_id room) (db w)))
                      \/ n = 0%Z)
                  /\ (reliable (net w) ->
                      n = Z.of_nat
                            (length
                               (Query.active_members (cr_id room) (db w)))))
             (order cr_created_at false
                (filter (fun r => is_true (cr_is_active r))
                   (chat_rooms (db w))))
             views)
    /\ (forall message, hd None (net w) = Some message ->
        views = Dashboard.rooms (component w)
        /\ console w' = console w ++ [(str "Error loading rooms:", message)]).
Proof.
  unfold Dashboard.loadRooms, try_catch. unfold bind at 1. unfold request at 1.
  destruct (hd None (net w)) as [message|] eqn:Hf.
  - cbn [failed error]. unfold throw, console_error, modify.
    exists (Dashboard.rooms (component w)). eexists.
    split; [reflexivity|].
    cbn. rewrite setRooms_same.
    repeat split; try reflexivity; try discriminate.
    match goal with E : Some _ = Some _ |- _ => injection E as <- end.
    reflexivity.
  - cbn [Query.active_rooms ok error data].
    destruct (counts_loaded
                (order cr_created_at false
                   (filter (fun r => is_true (cr_is_active r))
                      (chat_rooms (db w))))
                (set_backend (db w) (tl (net w)) w))
      as [views [w' [Hrun [Hv [Hc [Ht [Hn [Hk [Hd Hnet]]]]]]]]].
    unfold bind at 1. rewrite Hrun. unfold set_state, modify.
    exists views. eexists. split; [reflexivity|].
    cbn [set_backend db net component toasts navigations console
         set_component] in *.
    rewrite Hc, Ht, Hn, Hk, Hd.
    repeat split; try reflexivity; try discriminate.
    eapply Forall2_impl; [|exact Hv].
    intros r v [n [E [Hn' Hr]]]; exists n; repeat split; try assumption.
    intros Hrel; apply Hr, reliable_tl, Hrel.
Qed.

Lemma sorted_views (rows : list ChatRoom) (views : list Dashboard.Room) :
  StronglySorted (in_order cr_created_at false) rows ->
  Forall2 (fun room view =>
             Dashboard.room_created_at view = cr_created_at room) rows views ->
  StronglySorted (in_order Dashboard.room_created_at false) views.
Proof.
  intros Hs Hv; induction Hv as [|r v rows views E Hv IH]; [constructor|].
  inversion Hs as [|? ? Hs' Hall]; subst.
  constructor; [apply IH, Hs'|].
  clear -E Hall Hv. induction Hv as [|r' v' rows views E' Hv IH];
    [constructor|].
  inversion Hall as [|? ? H1 H2]; subst.
  constructor; [|apply IH, H2].
  unfold in_order in *; rewrite E, E'; exact H1.
Qed.


(** X4.  When its listing request fails, [loadRooms] keeps the list it
    had, tells the user nothing and only logs the error. *)
Theorem loadRooms_failure_is_silent (w : World Dashboard.State)
    (message : jsstring) :
  hd None (net w) = Some message ->
  let w' := exec Dashboard.loadRooms w in
  component w' = component w
  /\ toasts w' = toasts w
  /\ navigations w' = navigations w
  /\ console w' = console w ++ [(str "Error loading rooms:", message)]
  /\ db w' = db w.
Proof.
  intros Hnet w'; subst w'.
  destruct (loadRooms_frame w)
    as [views [w' [Hrun [Hc [Ht [Hn [Hd [_ Hko]]]]]]]].
  destruct (Hko message Hnet) as [-> Hk].
  unfold exec; rewrite Hrun; cbn [snd].
  rewrite Hc, setRooms_same. repeat split; assumption.
Qed.

(* ================================================================== *)
(** * Room Directory: what creating a room leaves behind *)

Section CreatedFacts.
Context {P : Platform}.

(** A [createRoom] that persists its room goes on as [loadRooms] does
    from the page with the room announced, the dialog closed and the
    form reset. *)
Lemma createRoom_reloads (w : World Dashboard.State) (u : User) :
  truthy (trim (Dashboard.name (Dashboard.newRoom (component w)))) = true ->
  Dashboard.currentUser (component w) = Some u ->
  hd None (net w) = None ->
  let row :=
    Query.new_room
      (Dashboard.roomData (Dashboard.newRoom (component w)) (user_id u))
      (db w) in
  Dashboard.createRoom w =
    Dashboard.loadRooms
      (set_component
         (Dashboard.setNewRoom (fun _ => Dashboard.newRoom Dashboard.initial)
            (Dashboard.setShowCreateRoom false (component w)))
         (add_toast (Dashboard.room_created row)
            (set_backend
               (advance (set_chat_rooms (chat_rooms (db w) ++ [row]) (db w)))
               (tl (net w)) w))).
Proof.
  intros Hname Huser Hnet row.
  unfold Dashboard.createRoom, try_catch, bind at 1, get_state, gets.
  rewrite Hname, Huser. cbn [negb]. unfold bind at 1, ret.
  unfold bind at 1. rewrite (request_through _ _ _ _ Hnet).
  cbn [fst snd Query.insert_room error data ok].
  unfold bind at 1, toast at 1, modify at 1.
  unfold bind at 1, set_state at 1, modify at 1.
  unfold bind at 1, set_state at 1, modify at 1.
  fold row.
  match goal with
  | |- context [Dashboard.loadRooms ?w0] =>
      destruct (loadRooms_frame w0) as [views [w1 [Hrun _]]];
      transitivity (Dashboard.loadRooms w0);
      [rewrite Hrun; reflexivity | reflexivity]
  end.
Qed.

(** X5.  A [createRoom] whose insert goes through persists one active
    room: its name is the typed name without surrounding white space,
    its description is null when the typed one is blank, its creator is
    the signed-in user and it is protected exactly when a password was
    typed.  The room is announced with its name and code, the dialog
    is closed and the form is back to its defaults, whatever happens
    to the reload that follows. *)
Theorem createRoom_success (w : World Dashboard.State) (u : User) :
  truthy (trim (Dashboard.name (Dashboard.newRoom (component w)))) = true ->
  Dashboard.currentUser (component w) = Some u ->
  hd None (net w) = None ->
  let form := Dashboard.newRoom (component w) in
  let w' := exec Dashboard.createRoom w in
  exists row,
    chat_rooms (db w') = chat_rooms (db w) ++ [row]
    /\ cr_name row = trim (Dashboard.name form)
    /\ cr_description row =
         (if truthy (trim (Dashboard.description form))
          then Some (trim (Dashboard.description form)) else None)
    /\ cr_created_by row = user_id u
    /\ cr_is_active row = Some true
    /\ cr_is_password_protected row
       = Some (truthy (Dashboard.password form))
    /\ toasts w' = toasts w ++ [Dashboard.room_created row]
    /\ Dashboard.showCreateRoom (component w') = false
    /\ Dashboard.newRoom (component w') = Dashboard.newRoom Dashboard.initial
    /\ navigations w' = navigations w.
Proof.
  intros Hname Huser Hnet form w'; subst w'.
  unfold exec. rewrite (createRoom_reloads w u Hname Huser Hnet). cbv zeta.
  match goal with
  | |- context [Dashboard.loadRooms ?w0] =>
      destruct (loadRooms_frame w0)
        as [views [w1 [Hrun [Hc [Ht [Hn [Hd _]]]]]]]
  end.
  rewrite Hrun; cbn [snd]. rewrite Hc, Ht, Hn, Hd.
  eexists; split; [reflexivity|].
  repeat split.
Qed.

(** X6.  A [createRoom] whose insert fails persists nothing, notifies
    the failure with the error's message, and keeps the dialog and what
    was typed; no further request is issued. *)
Theorem createRoom_insert_failure (w : World Dashboard.State) (u : User)
    (message : jsstring) :
  truthy (trim (Dashboard.name (Dashboard.newRoom (component w)))) = true ->
  Dashboard.currentUser (component w) = Some u ->
  hd None (net w) = Some message ->
  let w' := exec Dashboard.createRoom w in
  db w' = db w
  /\ toasts w' = toasts w ++ [Dashboard.create_failed message]
  /\ component w' = component w
  /\ net w' = tl (net w).
Proof.
  intros Hname Huser Hnet w'; subst w'.
  assert (E : Dashboard.createRoom w =
              (Normal tt,
               add_toast (Dashboard.create_failed message)
                 (set_backend (db w) (tl (net w)) w))).
  { unfold Dashboard.createRoom, try_catch, bind at 1, get_state, gets.
    rewrite Hname, Huser. cbn [negb]. unfold bind at 1, ret.
    unfold bind at 1. rewrite (request_fault _ _ _ _ _ Hnet).
    reflexivity. }
  unfold exec; rewrite E; repeat split.
Qed.

(** X7.  With no signed-in user on the page, a [createRoom] that passes
    the name check issues no request and persists nothing: reading the
    user's id fails, and that failure is what is notified. *)
Theorem createRoom_without_user (w : World Dashboard.State) :
  truthy (trim (Dashboard.name (Dashboard.newRoom (component w)))) = true ->
  Dashboard.currentUser (component w) = None ->
  Dashboard.createRoom w =
    (Normal tt, add_toast (Dashboard.create_failed (null_read "id")) w)
  /\ db (exec Dashboard.createRoom w) = db w
  /\ net (exec Dashboard.createRoom w) = net w.
Proof.
  intros Hname Huser.
  assert (E : Dashboard.createRoom w =
              (Normal tt,
               add_toast (Dashboard.create_failed (null_read "id")) w)).
  { unfold Dashboard.createRoom, try_catch, bind, get_state, gets.
    rewrite Hname, Huser. reflexivity. }
  unfold exec; rewrite E; repeat split.
Qed.

(** X8.  When no request fails, the room a [createRoom] persists is in
    the list the page shows afterwards. *)
Theorem createRoom_lists_new_room (w : World Dashboard.State) (u : User) :
  truthy (trim (Dashboard.name (Dashboard.newRoom (component w)))) = true ->
  Dashboard.currentUser (component w) = Some u ->
  reliable (net w) ->
  let w' := exec Dashboard.createRoom w in
  In (gen_random_uuid (row_seq (db w)))
    (map Dashboard.room_id (Dashboard.rooms (component w')))
  /\ In (generate_room_code (row_seq (db w)))
       (map Dashboard.room_code (Dashboard.rooms (component w'))).
Proof.
  intros Hname Huser Hrel w'; subst w'.
  unfold exec.
  rewrite (createRoom_reloads w u Hname Huser (reliable_hd _ Hrel)). cbv zeta.
  match goal with
  | |- context [Dashboard.loadRooms ?w0] =>
      destruct (loadRooms_frame w0)
        as [views [w1 [Hrun [Hc [_ [_ [_ [Hok _]]]]]]]]
  end.
  rewrite Hrun; cbn [snd]. rewrite Hc.
  change (Dashboard.rooms (Dashboard.setRooms views ?s)) with views.
  cbn [set_component add_toast set_backend db net] in Hok.
  destruct (Hok (reliable_hd _ (reliable_tl _ Hrel))) as [_ Hv].
  set (row := Query.new_room
                (Dashboard.roomData (Dashboard.newRoom (component w))
                   (user_id u)) (db w)) in *.
  assert (Hin : In row
                  (order cr_created_at false
                     (filter (fun r => is_true (cr_is_active r))
                        (chat_rooms (db w) ++ [row])))).
  { apply order_In, filter_In; split; [|reflexivity].
    apply in_or_app; right; left; reflexivity. }
  cbn [advance set_chat_rooms chat_rooms] in Hv.
  revert Hin. generalize dependent views.
  generalize (order cr_created_at false
                (filter (fun r => is_true (cr_is_active r))
                   (chat_rooms (db w) ++ [row]))).
  intros rows views _ _ Hv Hin.
  induction Hv as [|r v rows views [n [-> _]] Hv IH]; [contradiction|].
  destruct Hin as [->|Hin].
  - split; left; reflexivity.
  - destruct (IH Hin); split; right; assumption.
Qed.

End CreatedFacts.

(* ================================================================== *)
(** * Room Directory: the other ways a join ends *)

Lemma single_found {A} (rows : list A) (r : A) :
  single rows = ok r <-> rows = [r].
Proof.
  destruct rows as [|x [|y rest]]; cbn; split; intros H;
    try discriminate H.
  - injection H as ->; reflexivity.
  - injection H as ->; reflexivity.
Qed.

Lemma single_missing {A} (rows : list A) :
  (forall r, single rows <> ok r) -> single rows = failed single_error.
Proof.
  destruct rows as [|x [|y rest]]; cbn; intros H; try reflexivity.
  exfalso; apply (H x); reflexivity.
Qed.

Section OtherJoinFacts.
Context {P : Platform}.

(** A room the code lookup finds is an active room of the table, with
    the code that was looked up. *)
Lemma room_by_code_found (code : jsstring) (d : Db) (room : ChatRoom) :
  fst (Query.room_by_code code d) = ok room ->
  In room (chat_rooms d)
  /\ cr_is_active room = Some true
  /\ cr_room_code room = code.
Proof.
  unfold Query.room_by_code; cbn [fst]. intros H.
  apply single_found in H.
  assert (Hin : In room
                  (filter (fun r => Js.eqb (cr_room_code r) code
                                    && is_true (cr_is_active r))
                     (chat_rooms d)))
    by (rewrite H; left; reflexivity).
  apply filter_In in Hin. destruct Hin as [Hin Hb].
  apply andb_true_iff in Hb. destruct Hb as [Hc Ha].
  apply eqb_eq in Hc. split; [exact Hin|]. split; [|exact Hc].
  destruct (cr_is_active room) as [[|]|]; try discriminate Ha; reflexivity.
Qed.

(** [joinRoom] when the lookup request fails or finds no single room. *)
Lemma joinRoom_unresolved (w : World Dashboard.State) :
  truthy (trim (Dashboard.joinRoomCode (component w))) = true ->
  hd None (net w) <> None
  \/ (forall room,
        fst (Query.room_by_code
               (toUpperCase (Dashboard.joinRoomCode (component w))) (db w))
        <> ok room) ->
  Dashboard.joinRoom w =
    (Normal tt,
     add_toast Dashboard.room_not_found (set_backend (db w) (tl (net w)) w)).
Proof.
  intros Hcode Hwhy.
  unfold Dashboard.joinRoom, try_catch, bind at 1, get_state, gets.
  rewrite Hcode. cbn [negb]. unfold bind at 1. unfold request.
  destruct (hd None (net w)) as [message|] eqn:Hf; [reflexivity|].
  destruct Hwhy as [Hwhy|Hwhy]; [contradiction Hwhy; reflexivity|].
  cbn [Query.room_by_code fst] in Hwhy |- *.
  rewrite (single_missing _ Hwhy). reflexivity.
Qed.

(** With a blank room code [joinRoom] asks for a code and stops: no
    request is issued and nothing else changes. *)
Lemma joinRoom_needs_code (w : World Dashboard.State) :
  trim (Dashboard.joinRoomCode (component w)) = [] ->
  Dashboard.joinRoom w = (Normal tt, add_toast Dashboard.code_required w).
Proof.
  intros H.
  unfold Dashboard.joinRoom, try_catch, bind, get_state, gets.
  rewrite H; reflexivity.
Qed.

(** X9.  A join by a code that no active room carries - an unknown
    code, or the code of rooms that are all inactive - ends with "Room
    not found" and goes nowhere; so does a join whose lookup request
    fails, whatever the tables hold. *)
Theorem joinRoom_not_found (w : World Dashboard.State) :
  truthy (trim (Dashboard.joinRoomCode (component w))) = true ->
  hd None (net w) <> None
  \/ (forall r, In r (chat_rooms (db w)) ->
        cr_room_code r = toUpperCase (Dashboard.joinRoomCode (component w)) ->
        is_true (cr_is_active r) = false) ->
  let w' := exec Dashboard.joinRoom w in
  toasts w' = toasts w ++ [Dashboard.room_not_found]
  /\ navigations w' = navigations w
  /\ db w' = db w.
Proof.
  intros Hcode Hwhy w'; subst w'.
  unfold exec; rewrite (joinRoom_unresolved w Hcode); [repeat split|].
  destruct Hwhy as [Hwhy|Hwhy]; [left; exact Hwhy|right].
  intros room Hroom. apply room_by_code_found in Hroom.
  destruct Hroom as [Hin [Ha Hc]].
  specialize (Hwhy room Hin Hc). rewrite Ha in Hwhy. discriminate Hwhy.
Qed.

(** X10.  Every [joinRoom] returns, writes nothing to the tables and
    leaves the page's state as it was; it ends either with exactly one
    notification and no navigation, or with no notification and exactly
    one navigation, and then to the chat of an active room whose code is
    the typed code in upper case. *)
Theorem joinRoom_one_outcome (w : World Dashboard.State) :
  let w' := exec Dashboard.joinRoom w in
  fst (Dashboard.joinRoom w) = Normal tt
  /\ db w' = db w
  /\ component w' = component w
  /\ ((exists t, toasts w' = toasts w ++ [t]
                 /\ navigations w' = navigations w)
      \/ (exists room,
            In room (chat_rooms (db w))
            /\ cr_is_active room = Some true
            /\ cr_room_code room
               = toUpperCase (Dashboard.joinRoomCode (component w))
            /\ toasts w' = toasts w
            /\ navigations w'
               = navigations w ++ [Dashboard.chat_path (cr_room_code room)])).
Proof.
  intros w'; subst w'. unfold exec.
  destruct (truthy (trim (Dashboard.joinRoomCode (component w)))) eqn:Hcode.
  2:{ assert (E : trim (Dashboard.joinRoomCode (component w)) = [])
        by (destruct (trim (Dashboard.joinRoomCode (component w)));
            [reflexivity | discriminate Hcode]).
      rewrite (joinRoom_needs_code w E).
      repeat split. left; eexists; split; reflexivity. }
  destruct (hd None (net w)) as [message|] eqn:Hnet.
  { rewrite (joinRoom_unresolved w Hcode)
      by (left; rewrite Hnet; discriminate).
    repeat split. left; eexists; split; reflexivity. }
  destruct (fst (Query.room_by_code
                   (toUpperCase (Dashboard.joinRoomCode (component w)))
                   (db w))) as [[room|] [e|] c] eqn:Hroom.
  all: try (rewrite (joinRoom_unresolved w Hcode)
              by (right; intros room'; rewrite Hroom; discriminate);
            repeat split; left; eexists; split; reflexivity).
  assert (Hok : fst (Query.room_by_code
                       (toUpperCase (Dashboard.joinRoomCode (component w)))
                       (db w)) = ok room).
  { unfold Query.room_by_code in Hroom |- *; cbn [fst] in Hroom |- *.
    destruct (filter _ (chat_rooms (db w))) as [|x [|y rest]];
      cbn in Hroom |- *; try discriminate Hroom.
    injection Hroom as -> <-. reflexivity. }
  rewrite (joinRoom_resolved w room Hcode Hnet Hok). cbv zeta.
  destruct (room_by_code_found _ _ _ Hok) as [Hin [Ha Hc]].
  destruct (is_true (cr_is_password_protected room)
            && negb (truthy (Dashboard.joinRoomPassword (component w)))).
  { repeat split. left; eexists; split; reflexivity. }
  destruct (hd None (tl (net w))).
  { repeat split. right; exists room; repeat split; assumption. }
  destruct (reported_full _ _).
  { repeat split. left; eexists; split; reflexivity. }
  repeat split. right; exists room; repeat split; assumption.
Qed.

(** X11.  A join whose count request fails enters the room: once the
    lookup has found the room and the password gate is passed, a failed
    count lets the user in whatever the capacity and the number of
    members are. *)
Theorem joinRoom_failed_count_enters (w : World Dashboard.State)
    (room : ChatRoom) (message : jsstring) :
  truthy (trim (Dashboard.joinRoomCode (component w))) = true ->
  hd None (net w) = None ->
  fst (Query.room_by_code
         (toUpperCase (Dashboard.joinRoomCode (component w))) (db w))
    = ok room ->
  is_true (cr_is_password_protected room) = false
    \/ Dashboard.joinRoomPassword (component w) <> [] ->
  hd None (tl (net w)) = Some message ->
  let w' := exec Dashboard.joinRoom w in
  navigations w' = navigations w ++ [Dashboard.chat_path (cr_room_code room)]
  /\ toasts w' = toasts w.
Proof.
  intros Hcode Hnet Hroom Hgate Hnet2 w'; subst w'.
  unfold exec; rewrite (joinRoom_resolved w room Hcode Hnet Hroom).
  cbv zeta. rewrite Hnet2.
  assert (Hgate' : is_true (cr_is_password_protected room)
                   && negb (truthy (Dashboard.joinRoomPassword (component w)))
                   = false).
  { destruct Hgate as [-> | Hpw]; [reflexivity|].
    destruct (Dashboard.joinRoomPassword (component w));
      [contradiction Hpw; reflexivity | apply andb_false_r]. }
  rewrite Hgate'. split; reflexivity.
Qed.

End OtherJoinFacts.

(* ================================================================== *)
(** * Room Directory: from a created room to its chat *)

Lemma hd_tl_nth {A} (l : list A) (d : A) :
  hd d l = nth 0 l d /\ hd d (tl l) = nth 1 l d.
Proof. destruct l as [|x [|y l]]; split; reflexivity. Qed.

Lemma filter_none {A} (f : A -> bool) (l : list A) :
  (forall x, In x l -> f x = false) -> filter f l = [].
Proof.
  induction l as [|x l IH]; intros H; [reflexivity|].
  cbn [filter]. rewrite (H x (or_introl eq_refl)).
  apply IH; intros y Hy; apply H; right; exact Hy.
Qed.

Section EnterFacts.
Context {P : Platform}.

(** The tables after a [createRoom] that persists its room. *)
Lemma createRoom_db (w : World Dashboard.State) (u : User) :
  truthy (trim (Dashboard.name (Dashboard.newRoom (component w)))) = true ->
  Dashboard.currentUser (component w) = Some u ->
  hd None (net w) = None ->
  db (exec Dashboard.createRoom w) =
    advance
      (set_chat_rooms
         (chat_rooms (db w)
          ++ [Query.new_room
                (Dashboard.roomData (Dashboard.newRoom (component w))
                   (user_id u)) (db w)])
         (db w)).
Proof.
  intros Hname Huser Hnet. unfold exec.
  rewrite (createRoom_reloads w u Hname Huser Hnet). cbv zeta.
  match goal with
  | |- context [Dashboard.loadRooms ?w0] =>
      destruct (loadRooms_frame w0) as [views [w1 [Hrun [_ [_ [_ [Hd _]]]]]]]
  end.
  rewrite Hrun; cbn [snd]. rewrite Hd. reflexivity.
Qed.

(** X12.  A room that was just created can be entered by the code the
    server issued for it, whatever its capacity: when that code is in
    upper case, not blank and carried by no other active room, and the
    new room's id is not yet referred to by a membership, a join by that
    code (with some password typed if the room is protected) goes to the
    chat of the room, with no notification. *)
Theorem created_room_can_be_joined (w w2 : World Dashboard.State) (u : User) :
  truthy (trim (Dashboard.name (Dashboard.newRoom (component w)))) = true ->
  Dashboard.currentUser (component w) = Some u ->
  hd None (net w) = None ->
  let code := generate_room_code (row_seq (db w)) in
  toUpperCase code = code ->
  truthy (trim code) = true ->
  (forall r, In r (chat_rooms (db w)) ->
     is_true (cr_is_active r) = true -> cr_room_code r <> code) ->
  (forall p, In p (room_participants (db w)) ->
     rp_room_id p <> gen_random_uuid (row_seq (db w))) ->
  db w2 = db (exec Dashboard.createRoom w) ->
  Dashboard.joinRoomCode (component w2) = code ->
  (Dashboard.password (Dashboard.newRoom (component w)) <> [] ->
   Dashboard.joinRoomPassword (component w2) <> []) ->
  hd None (net w2) = None ->
  let w' := exec Dashboard.joinRoom w2 in
  navigations w' = navigations w2 ++ [Dashboard.chat_path code]
  /\ toasts w' = toasts w2.
Proof.
  intros Hname Huser Hnet code Hupper Hcode Huniq Hfresh Hdb Htyped Hpw Hnet2
    w'; subst w'.
  set (row := Query.new_room
                (Dashboard.roomData (Dashboard.newRoom (component w))
                   (user_id u)) (db w)).
  rewrite (createRoom_db w u Hname Huser Hnet) in Hdb. fold row in Hdb.
  assert (Hroom : fst (Query.room_by_code
                         (toUpperCase (Dashboard.joinRoomCode (component w2)))
                         (db w2)) = ok row).
  { rewrite Htyped, Hupper, Hdb. unfold Query.room_by_code; cbn [fst].
    apply single_found. cbn [advance set_chat_rooms chat_rooms].
    rewrite filter_app.
    assert (Hold : filter (fun r => Js.eqb (cr_room_code r) code
                                    && is_true (cr_is_active r))
                     (chat_rooms (db w)) = []).
    { apply filter_none. intros r Hr.
      destruct (is_true (cr_is_active r)) eqn:Ha; [|apply andb_false_r].
      rewrite andb_true_r. apply eqb_neq, Huniq; assumption. }
    rewrite Hold. cbn [filter app row Query.new_room cr_room_code
                       cr_is_active is_true].
    fold code. rewrite eqb_refl. reflexivity. }
  assert (Hmembers : Query.active_members (cr_id row) (db w2) = []).
  { rewrite Hdb. unfold Query.active_members.
    cbn [advance set_chat_rooms room_participants row Query.new_room cr_id].
    apply filter_none. intros p Hp.
    assert (E : Js.eqb (rp_room_id p) (gen_random_uuid (row_seq (db w)))
                = false) by (apply eqb_neq, Hfresh, Hp).
    rewrite E; reflexivity. }
  assert (Hcode2 : truthy (trim (Dashboard.joinRoomCode (component w2)))
                   = true) by (rewrite Htyped; exact Hcode).
  unfold exec. rewrite (joinRoom_resolved w2 row Hcode2 Hnet2 Hroom).
  cbv zeta. rewrite Hmembers.
  assert (Hgate : is_true (cr_is_password_protected row)
                  && negb (truthy (Dashboard.joinRoomPassword (component w2)))
                  = false).
  { cbn [row Query.new_room cr_is_password_protected Dashboard.roomData
         Query.rd_is_password_protected is_true].
    destruct (Dashboard.password (Dashboard.newRoom (component w)))
      as [|c pw] eqn:E; [reflexivity|].
    cbn [truthy].
    destruct (Dashboard.joinRoomPassword (component w2));
      [exfalso; apply Hpw; [discriminate | reflexivity] | reflexivity]. }
  rewrite Hgate.
  change (cr_room_code row) with code.
  destruct (hd None (tl (net w2))); split; reflexivity.
Qed.

(** A room the list shows, when the listing request went through. *)
Lemma listed_room (w : World Dashboard.State) (view : Dashboard.Room) :
  hd None (net w) = None ->
  In view (Dashboard.rooms (component (exec Dashboard.loadRooms w))) ->
  exists room n,
    In room (chat_rooms (db w))
    /\ cr_is_active room = Some true
    /\ view = Dashboard.room_view room n
    /\ (reliable (net w) ->
        n = Z.of_nat (length (Query.active_members (cr_id room) (db w)))).
Proof.
  intros Hnet. unfold exec.
  destruct (loadRooms_frame w)
    as [views [w' [Hrun [Hc [_ [_ [_ [Hok _]]]]]]]].
  rewrite Hrun; cbn [snd]. rewrite Hc.
  change (Dashboard.rooms (Dashboard.setRooms views (component w)))
    with views.
  destruct (Hok Hnet) as [_ Hv].
  assert (Hrows : forall r,
            In r (order cr_created_at false
                    (filter (fun r => is_true (cr_is_active r))
                       (chat_rooms (db w)))) ->
            In r (chat_rooms (db w)) /\ cr_is_active r = Some true).
  { intros r Hr. apply order_In, filter_In in Hr. destruct Hr as [Hin Ha].
    split; [exact Hin|].
    destruct (cr_is_active r) as [[|]|]; try discriminate Ha; reflexivity. }
  clear Hrun Hc Hok. revert Hv Hrows.
  generalize (order cr_created_at false
                (filter (fun r => is_true (cr_is_active r))
                   (chat_rooms (db w)))).
  intros rows0 Hv Hrows Hin.
  induction Hv as [|r v rows views [n [E [_ Hn]]] Hv IH]; [contradiction|].
  destruct Hin as [Hin|Hin].
  - subst view v. exists r, n. destruct (Hrows r (or_introl eq_refl)) as [H1 H2].
    repeat split; assumption.
  - apply IH; [|exact Hin]. intros r' Hr'; apply Hrows; right; exact Hr'.
Qed.


End EnterFacts.

(* ================================================================== *)
(** * Room Directory: opening the dashboard *)

(** A request that only reads answers its query, or the fault. *)
Lemma request_read {C A} (query : Db -> Response A * Db) (w : World C) :
  (forall d, snd (query d) = d) ->
  request query w =
    (Normal match hd None (net w) with
            | Some message => failed message
            | None => fst (query (db w))
            end,
     set_backend (db w) (tl (net w)) w).
Proof.
  intros Hq. unfold request. destruct (hd None (net w)); [reflexivity|].
  specialize (Hq (db w)). destruct (query (db w)) as [r d]; cbn in *.
  rewrite Hq; reflexivity.
Qed.

Lemma is_admin_single (roles : list Directory.UserRole) (id : jsstring) :
  Directory.is_admin
    (data (single (filter (fun r => Js.eqb (Directory.ur_user_id r) id)
                     roles))) = true
  <-> exists r,
        filter (fun r => Js.eqb (Directory.ur_user_id r) id) roles = [r]
        /\ Directory.ur_role r = Directory.admin.
Proof.
  destruct (filter _ roles) as [|x [|y rest]]; cbn; split.
  - discriminate.
  - intros [r [E _]]; discriminate E.
  - intros H; exists x; split; [reflexivity|].
    destruct (Directory.ur_role x); [reflexivity | discriminate H].
  - intros [r [E Hr]]; injection E as <-. rewrite Hr; reflexivity.
  - discriminate.
  - intros [r [E _]]; discriminate E.
Qed.

Section OpenDashboardFacts.
Context {P : Platform}.

(** X14.  Opening the dashboard always ends with the loading flag down,
    notifies nothing and writes nothing.  With no session it only goes
    to the sign-in page, issuing no request.  With a session it keeps the
    user with the profile the profile request answered, and marks the
    user as admin exactly when the role request went through and found
    one role row for the user, with the admin role. *)
Theorem initializeDashboard_outcome (roles : list Directory.UserRole)
    (session : option jsstring) (w : World Dashboard.State) :
  let w' := exec (Directory.initializeDashboard roles session) w in
  Dashboard.loading (component w') = false
  /\ toasts w' = toasts w
  /\ db w' = db w
  /\ match session with
     | None =>
         navigations w' = navigations w ++ [str "/auth"]
         /\ net w' = net w
         /\ Dashboard.isAdmin (component w') = Dashboard.isAdmin (component w)
         /\ Dashboard.currentUser (component w')
            = Dashboard.currentUser (component w)
     | Some id =>
         navigations w' = navigations w
         /\ Dashboard.currentUser (component w') =
              Some {| user_id := id;
                      user_profile :=
                        match hd None (net w) with
                        | Some _ => None
                        | None => data (fst (Query.profile_of id (db w)))
                        end |}
         /\ (Dashboard.isAdmin (component w') = true <->
             hd None (tl (net w)) = None
             /\ exists r,
                  filter (fun r => Js.eqb (Directory.ur_user_id r) id) roles
                  = [r]
                  /\ Directory.ur_role r = Directory.admin)
     end.
Proof.
  intros w'; subst w'. unfold exec.
  destruct session as [id|];
    [|unfold Directory.initializeDashboard, finally, try_catch; cbn;
      repeat split].
  assert (E : exists views w1,
            Directory.initializeDashboard roles (Some id) w =
              (Normal tt,
               set_component (Directory.setLoading false (component w1)) w1)
            /\ component w1 =
                 Dashboard.setRooms views
                   (Directory.setIsAdmin
                      (Directory.is_admin
                         (data
                            match hd None (tl (net w)) with
                            | Some message => failed message
                            | None => fst (Directory.role_of roles id (db w))
                            end))
                      (Directory.setCurrentUser
                         (Some
                            {| user_id := id;
                               user_profile :=
                                 data
                                   match hd None (net w) with
                                   | Some message => failed message
                                   | None =>
                                       fst (Query.profile_of id (db w))
                                   end |})
                         (component w)))
            /\ toasts w1 = toasts w /\ navigations w1 = navigations w
            /\ db w1 = db w).
  { unfold Directory.initializeDashboard, finally, try_catch.
    unfold bind at 1.
    rewrite (request_read (Query.profile_of id) w) by reflexivity.
    unfold bind at 1.
    rewrite (request_read (Directory.role_of roles id)) by reflexivity.
    unfold bind at 1, set_state at 1, modify at 1.
    unfold bind at 1, set_state at 1, modify at 1.
    match goal with
    | |- context [Dashboard.loadRooms ?w0] =>
        destruct (loadRooms_frame w0)
          as [views [w1 [Hrun [Hc [Ht [Hn [Hd _]]]]]]]
    end.
    rewrite Hrun. exists views, w1.
    split; [reflexivity|]. repeat split; assumption. }
  destruct E as [views [w1 [E [Hc [Ht [Hn Hd]]]]]].
  rewrite E. cbn [snd set_component component toasts navigations db].
  rewrite Hc, Ht, Hn, Hd.
  cbn [Directory.setLoading Dashboard.setRooms Directory.setIsAdmin
       Directory.setCurrentUser Dashboard.loading Dashboard.isAdmin
       Dashboard.currentUser].
  split; [reflexivity|]. split; [reflexivity|]. split; [reflexivity|].
  split; [reflexivity|]. split.
  - destruct (hd None (net w)); reflexivity.
  - split.
    + intros Hadmin.
      destruct (hd None (tl (net w))) as [message|];
        [discriminate Hadmin|].
      split; [reflexivity | apply is_admin_single, Hadmin].
    + intros [Hnet Hr]. rewrite Hnet. apply is_admin_single, Hr.
Qed.

End OpenDashboardFacts.

(* ================================================================== *)
(** * Tasks that always return *)

Section CompletesFacts.
Variable C : Type.

Lemma completes_ret {A} (a : A) : completes (@ret (World C) A a).
Proof. intros w; exists a; reflexivity. Qed.

Lemma completes_modify (f : World C -> World C) : completes (modify f).
Proof. intros w; exists tt; reflexivity. Qed.

Lemma completes_request {A} (query : Db -> Response A * Db) :
  completes (@request C A query).
Proof.
  intros w; unfold request. destruct (hd None (net w)).
  - eexists; reflexivity.
  - destruct (query (db w)); eexists; reflexivity.
Qed.

Lemma completes_bind {A B} (m : Task (World C) A)
    (k : A -> Task (World C) B) :
  completes m -> (forall a, completes (k a)) -> completes (bind m k).
Proof.
  intros Hm Hk w; unfold bind.
  destruct (Hm w) as [a Ha]. destruct (m w) as [c w1]; cbn in Ha; subst c.
  apply Hk.
Qed.

Lemma completes_try_catch {A} (m : Task (World C) A)
    (h : jsstring -> Task (World C) A) :
  (forall e, completes (h e)) -> completes (try_catch m h).
Proof.
  intros Hh w; unfold try_catch. destruct (m w) as [[a|e] w1].
  - exists a; reflexivity.
  - apply Hh.
Qed.

Lemma completes_finally {A} (m : Task (World C) A) (f : World C -> World C) :
  completes m -> completes (finally m (modify f)).
Proof.
  intros Hm w; unfold finally, modify.
  destruct (Hm w) as [a Ha]. destruct (m w) as [c w1]; cbn in Ha; subst c.
  exists a; reflexivity.
Qed.

Lemma completes_promise_all_map {A B} (f : A -> Task (World C) B)
    (items : list A) :
  (forall a, completes (f a)) -> completes (promise_all_map f items).
Proof.
  intros Hf; induction items as [|x rest IH]; cbn [promise_all_map].
  - apply completes_ret.
  - apply completes_bind; [apply Hf|]; intros y.
    apply completes_bind; [exact IH|]; intros ys. apply completes_ret.
Qed.

End CompletesFacts.

Lemma zoom_run {C D A} (get : D -> C) (put : C -> D -> D)
    (m : Task (World C) A) (w : World D) :
  zoom get put m w =
    (fst (m (focus get w)), unfocus put (snd (m (focus get w))) w).
Proof. unfold zoom. destruct (m (focus get w)); reflexivity. Qed.

Lemma completes_zoom {C D A} (get : D -> C) (put : C -> D -> D)
    (m : Task (World C) A) :
  completes m -> completes (zoom get put m).
Proof.
  intros Hm w. rewrite zoom_run; cbn [fst]. apply Hm.
Qed.

(** Solves [completes m] for a task built from requests, state updates
    and the combinators, by following its structure. *)
Ltac returns :=
  repeat first
    [ apply completes_ret
    | apply completes_modify
    | apply completes_request
    | apply completes_zoom
    | apply completes_finally
    | apply completes_try_catch; intros
    | apply completes_promise_all_map; intros
    | apply completes_bind; [|intros]
    | progress unfold toast, navigate, console_error, set_state, get_state,
        gets
    | match goal with
      | |- completes (fun w => (Normal _, w)) =>
          intros ?w; eexists; reflexivity
      | |- completes (match ?x with _ => _ end) => destruct x
      | |- completes (if ?x then _ else _) => destruct x
      | |- completes (let _ := _ in _) => cbv zeta
      end ].

(* ================================================================== *)
(** * Room Session: live messages *)

Section LiveFacts.
Context {P : Platform}.

(** The handler of a new-message event, request by request. *)
Lemma onMessageInserted_run (w : World Chat.State) (id : jsstring) :
  Session.onMessageInserted id w =
    match hd None (net w),
          filter (fun m => Js.eqb (msg_id m) id) (messages (db w))
    with
    | None, [m] =>
        (Normal tt,
         set_component
           (Chat.setMessages
              (fun prev =>
                 prev ++
                 [Chat.with_profile m
                    (Chat.author_of
                       (data
                          match hd None (tl (net w)) with
                          | Some message => failed message
                          | None =>
                              fst (Query.profile_of (msg_user_id m) (db w))
                          end))])
              (component w))
           (set_backend (db w) (tl (tl (net w))) w))
    | _, _ => (Normal tt, set_backend (db w) (tl (net w)) w)
    end.
Proof.
  unfold Session.onMessageInserted. unfold bind at 1.
  rewrite (request_read (Session.message_by_id id) w) by reflexivity.
  destruct (hd None (net w)) as [message|]; [reflexivity|].
  cbn [Session.message_by_id fst].
  destruct (filter _ (messages (db w))) as [|m [|m' rest]];
    try reflexivity.
  cbn [single ok data]. unfold bind at 1.
  rewrite (request_read (Query.profile_of (msg_user_id m))) by reflexivity.
  reflexivity.
Qed.

Lemma onMessageInserted_found (w : World Chat.State) (id : jsstring)
    (m : Backend.Message) :
  hd None (net w) = None ->
  hd None (tl (net w)) = None ->
  filter (fun m => Js.eqb (msg_id m) id) (messages (db w)) = [m] ->
  Chat.messages (component (exec (Session.onMessageInserted id) w))
  = Chat.messages (component w) ++ [enriched (db w) m]
  /\ Chat.newMessage (component (exec (Session.onMessageInserted id) w))
     = Chat.newMessage (component w).
Proof.
  intros Hn1 Hn2 Hm. unfold exec.
  rewrite onMessageInserted_run, Hn1, Hm, Hn2. split; reflexivity.
Qed.

(** X15.  The handler of a new-message event never touches the entries
    the transcript already has, the draft or the tables: it appends at
    most one entry.  When both its requests go through and the table
    holds one message with the event's id, it appends that message,
    with its author's name, at the end - whether or not the transcript
    already shows it. *)
Theorem onMessageInserted_appends (w : World Chat.State) (id : jsstring) :
  let w' := exec (Session.onMessageInserted id) w in
  (exists entries,
     Chat.messages (component w') = Chat.messages (component w) ++ entries
     /\ length entries <= 1)
  /\ Chat.newMessage (component w') = Chat.newMessage (component w)
  /\ db w' = db w
  /\ toasts w' = toasts w
  /\ (forall m,
        hd None (net w) = None ->
        hd None (tl (net w)) = None ->
        filter (fun m => Js.eqb (msg_id m) id) (messages (db w)) = [m] ->
        Chat.messages (component w')
        = Chat.messages (component w) ++ [enriched (db w) m]).
Proof.
  intros w'; subst w'.
  split; [|split; [|split; [|split]]].
  5:{ intros m Hn1 Hn2 Hm.
      apply (onMessageInserted_found w id m Hn1 Hn2 Hm). }
  all: unfold exec; rewrite onMessageInserted_run.
  all: destruct (hd None (net w)) as [message|];
    [|destruct (filter _ (messages (db w))) as [|m [|m' rest]]].
  all: try reflexivity.
  all: cbn [snd set_component set_backend component Chat.setMessages
            Chat.messages].
  all: try (exists []; rewrite app_nil_r; split; [reflexivity | cbn; lia]).
  eexists; split; [reflexivity | cbn; lia].
Qed.

(** X16.  From sending to seeing: when a draft that is not blank is
    sent in an open room, the insert goes through, and the event of the
    new row is then handled with its two requests going through, the
    transcript gains exactly one entry at its end, whose content is the
    draft without its surrounding white space and whose author is the
    sender - provided the id the server gave the row is the id of no
    earlier message. *)
Theorem sent_message_comes_back (w : World Chat.State) (r : ChatRoom)
    (u : User) :
  truthy (trim (Chat.newMessage (component w))) = true ->
  Chat.room (component w) = Some r ->
  Chat.currentUser (component w) = Some u ->
  hd None (net w) = None ->
  hd None (tl (net w)) = None ->
  hd None (tl (tl (net w))) = None ->
  (forall m, In m (messages (db w)) ->
     msg_id m <> gen_random_uuid (row_seq (db w))) ->
  let w1 := exec (Session.handleKeyPress (str "Enter") false) w in
  let w2 :=
    exec (Session.onMessageInserted (gen_random_uuid (row_seq (db w)))) w1 in
  exists entry,
    Chat.messages (component w2) = Chat.messages (component w) ++ [entry]
    /\ Chat.content entry = trim (Chat.newMessage (component w))
    /\ Chat.author_id entry = user_id u
    /\ Chat.id entry = gen_random_uuid (row_seq (db w))
    /\ Chat.newMessage (component w2) = [].
Proof.
  intros Hdraft Hroom Huser Hn1 Hn2 Hn3 Hfresh w1 w2.
  assert (E1 : Chat.sendMessage w =
               (Normal tt,
                set_component (Chat.setNewMessage [] (component w))
                  (set_backend
                     (advance
                        (set_messages (messages (db w) ++ [sent_row w r u])
                           (db w)))
                     (tl (net w)) w))).
  { unfold Chat.sendMessage, bind at 1, get_state, gets.
    rewrite Hdraft, Hroom, Huser. unfold try_catch, bind.
    rewrite (request_through _ _ _ _ Hn1). reflexivity. }
  assert (Hw1 : w1 = set_component (Chat.setNewMessage [] (component w))
                       (set_backend
                          (advance
                             (set_messages
                                (messages (db w) ++ [sent_row w r u]) (db w)))
                          (tl (net w)) w)).
  { subst w1. unfold exec, Session.handleKeyPress.
    change (Js.eqb (str "Enter") (str "Enter") && negb false) with true.
    cbv iota. rewrite E1; reflexivity. }
  destruct (onMessageInserted_found w1 (gen_random_uuid (row_seq (db w)))
              (sent_row w r u)) as [Hm Hd].
  - rewrite Hw1; exact Hn2.
  - rewrite Hw1; exact Hn3.
  - rewrite Hw1. cbn [db set_component set_backend advance set_messages
                      messages].
    rewrite filter_app, (filter_none _ (messages (db w))).
    + cbn [filter app sent_row msg_id]. rewrite eqb_refl; reflexivity.
    + intros m Hin. apply eqb_neq, Hfresh, Hin.
  - fold w2 in Hm, Hd. eexists. split; [rewrite Hm, Hw1; reflexivity|].
    rewrite Hd, Hw1. repeat split.
Qed.

End LiveFacts.

(* ================================================================== *)
(** * Room Session: opening the chat page *)

Lemma with_chat_same (s : Session.State) :
  Session.with_chat (Session.chat s) s = s.
Proof. destruct s; reflexivity. Qed.

Lemma upsert_member_keeps {P : Platform} (room user : jsstring) (d : Db) :
  messages (snd (Query.upsert_member room user d)) = messages d
  /\ profiles (snd (Query.upsert_member room user d)) = profiles d
  /\ chat_rooms (snd (Query.upsert_member room user d)) = chat_rooms d.
Proof.
  unfold Query.upsert_member.
  destruct (existsb _ (room_participants d)); repeat split.
Qed.

Ltac tidy_world :=
  cbn [fst snd focus unfocus set_backend set_component db net component
       toasts navigations console Session.with_chat Session.chat
       Session.participants Session.channels] in *.

Section OpenChatFacts.
Context {P : Platform}.
Variable embedded : Db -> RoomParticipant -> option Chat.Author.

Lemma joinRoom_through (room user : jsstring) (w : World Chat.State) :
  hd None (net w) = None ->
  Chat.joinRoom room user w =
    (Normal tt,
     set_backend (snd (Query.upsert_member room user (db w))) (tl (net w)) w).
Proof.
  intros Hn. unfold Chat.joinRoom, bind.
  rewrite (request_through _ _ _ _ Hn).
  unfold Query.upsert_member.
  destruct (existsb _ (room_participants (db w))); reflexivity.
Qed.

Lemma loadMessages_loaded (room : jsstring) (w : World Chat.State) :
  reliable (net w) ->
  let rows :=
    limit 100
      (order msg_created_at true
         (filter (fun m => Js.eqb (msg_room_id m) room) (messages (db w)))) in
  Chat.loadMessages room w =
    (Normal tt,
     set_component
       (Chat.setMessages (fun _ => map (enriched (db w)) rows) (component w))
       (set_backend (db w) (skipn (S (length rows)) (net w)) w)).
Proof.
  intros Hn rows. unfold Chat.loadMessages. unfold bind at 1.
  rewrite (request_through _ _ _ _ (reliable_hd _ Hn)).
  cbn [fst snd Query.room_messages error data ok]. fold rows.
  unfold bind at 1. rewrite profiles_loaded by (apply reliable_tl, Hn).
  cbn [set_state modify set_component set_backend component db net toasts
       navigations console].
  rewrite skipn_tl. reflexivity.
Qed.

(** The page once [initializeChat] has found its room and none of its
    requests has failed. *)
Lemma initializeChat_opened (id roomCode : jsstring) (room : ChatRoom)
    (w : World Session.State) :
  reliable (net w) ->
  fst (Query.room_by_code roomCode (db w)) = ok room ->
  let d1 := snd (Query.upsert_member (cr_id room) id (db w)) in
  let w' :=
    exec (Session.initializeChat embedded (Some id) roomCode) w in
  fst (Session.initializeChat embedded (Some id) roomCode w) = Normal tt
  /\ db w' = d1
  /\ toasts w' = toasts w
  /\ navigations w' = navigations w
  /\ component w' =
       {| Session.chat :=
            Session.setLoading false
              (Chat.setMessages
                 (fun _ =>
                    map (enriched d1)
                      (limit 100
                         (order msg_created_at true
                            (filter
                               (fun m => Js.eqb (msg_room_id m) (cr_id room))
                               (messages d1)))))
                 (Session.setRoom (Some room)
                    (Session.setCurrentUser
                       (Some {| user_id := id;
                                user_profile :=
                                  data (fst (Query.profile_of id (db w))) |})
                       (Session.chat (component w)))));
          Session.participants :=
            map (fun p =>
                   {| Session.participant_id := rp_user_id p;
                      Session.joined_at := rp_joined_at p;
                      Session.participant_profiles := embedded d1 p |})
              (Query.active_members (cr_id room) d1);
          Session.channels :=
            Session.channels (component w)
            ++ [Session.messages_channel (cr_id room);
                Session.participants_channel (cr_id room)] |}.
Proof.
  intros Hn Hroom d1 w'.
  assert (E : exists n',
            Session.initializeChat embedded (Some id) roomCode w =
              (Normal tt,
               {| component :=
                    {| Session.chat :=
                         Session.setLoading false
                           (Chat.setMessages
                              (fun _ =>
                                 map (enriched d1)
                                   (limit 100
                                      (order msg_created_at true
                                         (filter
                                            (fun m =>
                                               Js.eqb (msg_room_id m)
                                                 (cr_id room))
                                            (messages d1)))))
                              (Session.setRoom (Some room)
                                 (Session.setCurrentUser
                                    (Some
                                       {| user_id := id;
                                          user_profile :=
                                            data
                                              (fst (Query.profile_of id
                                                      (db w))) |})
                                    (Session.chat (component w)))));
                       Session.participants :=
                         map (fun p =>
                                {| Session.participant_id := rp_user_id p;
                                   Session.joined_at := rp_joined_at p;
                                   Session.participant_profiles :=
                                     embedded d1 p |})
                           (Query.active_members (cr_id room) d1);
                       Session.channels :=
                         Session.channels (component w)
                         ++ [Session.messages_channel (cr_id room);
                             Session.participants_channel (cr_id room)] |};
                  toasts := toasts w; navigations := navigations w;
                  console := console w; db := d1; net := n' |})).
  { pose proof (reliable_hd _ Hn) as H1.
    pose proof (reliable_tl _ Hn) as Hn2.
    pose proof (reliable_hd _ Hn2) as H2.
    pose proof (reliable_tl _ Hn2) as Hn3.
    pose proof (reliable_hd _ Hn3) as H3.
    pose proof (reliable_tl _ Hn3) as Hn4.
    unfold Session.initializeChat, finally, try_catch.
    unfold bind at 1. rewrite request_through by exact H1.
    cbn [fst snd Query.profile_of].
    unfold bind at 1, set_state at 1, modify at 1.
    unfold bind at 1. rewrite request_through by exact H2.
    tidy_world. rewrite Hroom. cbn [error data ok snd Query.room_by_code].
    unfold bind at 1, set_state at 1, modify at 1.
    unfold bind at 1. rewrite zoom_run. tidy_world.
    rewrite joinRoom_through by exact H3. tidy_world.
    unfold bind at 1. rewrite zoom_run. tidy_world.
    rewrite loadMessages_loaded by exact Hn4. cbv zeta. tidy_world.
    fold d1.
    unfold bind at 1, Session.loadParticipants, bind at 1.
    rewrite request_read by reflexivity. tidy_world.
    rewrite (reliable_hd _ (reliable_skipn _ _ Hn4)).
    cbn [Session.participants_of fst error data ok set_state modify
         Session.setParticipants Session.setupRealtimeSubscriptions
         Session.subscribe Session.setLoading].
    tidy_world.
    eexists. reflexivity. }
  destruct E as [n' E]. subst w'. unfold exec. rewrite E.
  repeat split.
Qed.

End OpenChatFacts.

Section OpenedChatFacts.
Context {P : Platform}.
Variable embedded : Db -> RoomParticipant -> option Chat.Author.

(** X17.  Opening the chat page of an active room admits the user,
    whatever the room's capacity, its number of members and its password
    protection: when no request fails, the user has an active membership
    row for the room afterwards, the roster the page shows lists the
    user, and the roster has one entry per active member of the room. *)
Theorem initializeChat_admits (id roomCode : jsstring) (room : ChatRoom)
    (w : World Session.State) :
  reliable (net w) ->
  fst (Query.room_by_code roomCode (db w)) = ok room ->
  let w' :=
    exec (Session.initializeChat embedded (Some id) roomCode) w in
  (exists p,
     In p (room_participants (db w'))
     /\ rp_room_id p = cr_id room /\ rp_user_id p = id
     /\ rp_is_active p = Some true)
  /\ In id (map Session.participant_id
              (Session.participants (component w')))
  /\ map Session.participant_id (Session.participants (component w'))
     = map rp_user_id (Query.active_members (cr_id room) (db w')).
Proof.
  intros Hn Hroom w'.
  destruct (initializeChat_opened embedded id roomCode room w Hn Hroom)
    as [_ [Hd [_ [_ Hc]]]].
  fold w' in Hd, Hc. cbv zeta in Hd, Hc. rewrite Hc, Hd.
  cbn [Session.participants].
  destruct (upsert_member_mine (cr_id room) id (db w)) as [Hlen Hact].
  cbv zeta in Hlen, Hact.
  set (d1 := snd (Query.upsert_member (cr_id room) id (db w))) in *.
  destruct (filter (Query.same_member (cr_id room) id)
              (room_participants d1)) as [|p rest] eqn:F;
    [cbn [length] in Hlen; lia|].
  assert (Hp : In p (filter (Query.same_member (cr_id room) id)
                       (room_participants d1)))
    by (rewrite F; left; reflexivity).
  apply filter_In in Hp. destruct Hp as [Hin Hmine].
  destruct (mine_fields (cr_id room) id p Hmine) as [Hr Hu].
  assert (Hactive : rp_is_active p = Some true)
    by (inversion Hact; assumption).
  split; [exists p; repeat split; assumption|].
  rewrite map_map. cbn [Session.participant_id].
  split; [|reflexivity].
  apply in_map_iff. exists p. split; [exact Hu|].
  apply filter_In. split; [exact Hin|].
  rewrite Hr, eqb_refl, Hactive. reflexivity.
Qed.

(** X18.  When no request fails, the chat page of an active room opens
    with the room and the user in place, the loading flag down, the
    transcript loaded from the room's log (its first 100 messages in
    creation order, each with its author), the two channels of the room
    subscribed after the ones the page already had, and nothing
    notified. *)
Theorem initializeChat_ready (id roomCode : jsstring) (room : ChatRoom)
    (w : World Session.State) :
  reliable (net w) ->
  fst (Query.room_by_code roomCode (db w)) = ok room ->
  let w' :=
    exec (Session.initializeChat embedded (Some id) roomCode) w in
  let page := Session.chat (component w') in
  Chat.room page = Some room
  /\ Chat.currentUser page =
       Some {| user_id := id;
               user_profile := data (fst (Query.profile_of id (db w))) |}
  /\ Chat.loading page = false
  /\ Chat.messages page =
       map (enriched (db w))
         (limit 100
            (order msg_created_at true
               (filter (fun m => Js.eqb (msg_room_id m) (cr_id room))
                  (messages (db w)))))
  /\ Chat.newMessage page = Chat.newMessage (Session.chat (component w))
  /\ Session.channels (component w') =
       Session.channels (component w)
       ++ [Session.messages_channel (cr_id room);
           Session.participants_channel (cr_id room)]
  /\ toasts w' = toasts w
  /\ navigations w' = navigations w.
Proof.
  intros Hn Hroom w' page. subst page.
  destruct (initializeChat_opened embedded id roomCode room w Hn Hroom)
    as [_ [_ [Ht [Hnav Hc]]]].
  fold w' in Ht, Hnav, Hc. cbv zeta in Hc. rewrite Hc.
  destruct (upsert_member_keeps (cr_id room) id (db w)) as [Hm [Hp _]].
  cbn [Session.chat Session.channels Session.setLoading Chat.setMessages
       Session.setRoom Session.setCurrentUser Chat.room Chat.currentUser
       Chat.loading Chat.messages Chat.newMessage].
  rewrite Hm. repeat split; try assumption.
  apply map_ext. intros m. unfold enriched, Query.profile_of.
  cbn [fst]. rewrite Hp. reflexivity.
Qed.

(** X19.  Opening the chat page with a code that no active room
    carries, or with a room lookup that fails, notifies "Room Not
    Found" and goes back to the dashboard: no membership is created,
    nothing is subscribed, the transcript and the roster are untouched
    and the loading flag is down. *)
Theorem initializeChat_room_not_found (id roomCode : jsstring)
    (w : World Session.State) :
  hd None (tl (net w)) <> None
  \/ (forall r, In r (chat_rooms (db w)) ->
        cr_room_code r = roomCode -> is_true (cr_is_active r) = false) ->
  let w' :=
    exec (Session.initializeChat embedded (Some id) roomCode) w in
  toasts w' = toasts w ++ [Session.room_not_found]
  /\ navigations w' = navigations w ++ [str "/"]
  /\ db w' = db w
  /\ Session.channels (component w') = Session.channels (component w)
  /\ Session.participants (component w')
     = Session.participants (component w)
  /\ Chat.messages (Session.chat (component w'))
     = Chat.messages (Session.chat (component w))
  /\ Chat.room (Session.chat (component w'))
     = Chat.room (Session.chat (component w))
  /\ Chat.loading (Session.chat (component w')) = false.
Proof.
  intros Hwhy w'.
  assert (E : Session.initializeChat embedded (Some id) roomCode w =
              (Normal tt,
               {| component :=
                    Session.with_chat
                      (Session.setLoading false
                         (Session.setCurrentUser
                            (Some
                               {| user_id := id;
                                  user_profile :=
                                    data
                                      match hd None (net w) with
                                      | Some message => failed message
                                      | None =>
                                          fst (Query.profile_of id (db w))
                                      end |})
                            (Session.chat (component w))))
                      (component w);
                  toasts := toasts w ++ [Session.room_not_found];
                  navigations := navigations w ++ [str "/"];
                  console := console w; db := db w;
                  net := tl (tl (net w)) |})).
  { unfold Session.initializeChat, finally, try_catch.
    unfold bind at 1. rewrite request_read by reflexivity.
    unfold bind at 1, set_state at 1, modify at 1.
    unfold bind at 1. rewrite request_read by reflexivity.
    tidy_world.
    destruct (hd None (tl (net w))) as [message|] eqn:Hn2; [reflexivity|].
    destruct Hwhy as [Hwhy|Hwhy]; [contradiction Hwhy; reflexivity|].
    unfold Query.room_by_code; cbn [fst].
    destruct (filter _ (chat_rooms (db w))) as [|x [|y rest]] eqn:F;
      try reflexivity.
    exfalso.
    assert (Hx : In x (filter (fun r => Js.eqb (cr_room_code r) roomCode
                                        && is_true (cr_is_active r))
                         (chat_rooms (db w))))
      by (rewrite F; left; reflexivity).
    apply filter_In in Hx. destruct Hx as [Hin Hb].
    apply andb_true_iff in Hb. destruct Hb as [Hc Ha].
    apply eqb_eq in Hc. rewrite (Hwhy x Hin Hc) in Ha. discriminate Ha. }
  subst w'. unfold exec. rewrite E. repeat split.
Qed.

(** X20.  Opening the chat page always returns with the loading flag
    down, whatever the session, the code, the tables and the requests
    that fail.  With no session it only goes to the sign-in page: no
    request is issued and nothing is written, notified or subscribed. *)
Theorem initializeChat_settles (session : option jsstring)
    (roomCode : jsstring) (w : World Session.State) :
  let w' := exec (Session.initializeChat embedded session roomCode) w in
  fst (Session.initializeChat embedded session roomCode w) = Normal tt
  /\ Chat.loading (Session.chat (component w')) = false
  /\ (session = None ->
      navigations w' = navigations w ++ [str "/auth"]
      /\ net w' = net w /\ db w' = db w /\ toasts w' = toasts w
      /\ Session.channels (component w') = Session.channels (component w)).
Proof.
  intros w'; subst w'.
  split; [|split].
  - assert (H : completes
                  (Session.initializeChat embedded session roomCode)).
    { unfold Session.initializeChat, Session.loadParticipants,
        Session.setupRealtimeSubscriptions, Chat.joinRoom, Chat.loadMessages.
      returns. }
    destruct (H w) as [[] Ha]. exact Ha.
  - unfold exec, Session.initializeChat, finally.
    destruct (try_catch _ _ w) as [c w1]. reflexivity.
  - intros ->. repeat split.
Qed.

End OpenedChatFacts.

(* ================================================================== *)
(** * No handler leaves by an exception *)

Section ReturnFacts.
Context {P : Platform}.


End ReturnFacts.

(* ================================================================== *)
(** * Admin Monitor: access and the list of users *)

Lemma sorted_map {A B} (f : A -> B) (key : A -> timestamp)
    (key' : B -> timestamp) (ascending : bool) (l : list A) :
  (forall a, key' (f a) = key a) ->
  StronglySorted (in_order key ascending) l ->
  StronglySorted (in_order key' ascending) (map f l).
Proof.
  intros Hk Hs; induction Hs as [|a l Hs IH Hall]; cbn [map]; [constructor|].
  constructor; [exact IH|].
  apply Forall_map. eapply Forall_impl; [|exact Hall].
  intros b Hb. unfold in_order in *. rewrite !Hk. exact Hb.
Qed.

(** [loadUsers], by what its request answers. *)
Lemma loadUsers_run (w : World Monitor.State) :
  Monitor.loadUsers w =
    match hd None (net w) with
    | Some message =>
        (Normal tt,
         add_toast Monitor.users_failed
           (add_console (str "Error loading users:", message)
              (set_backend (db w) (tl (net w)) w)))
    | None =>
        (Normal tt,
         set_component
           (Monitor.setUsers
              (map Monitor.listed (order pf_created_at false (profiles (db w))))
              (component w))
           (set_backend (db w) (tl (net w)) w))
    end.
Proof.
  unfold Monitor.loadUsers, try_catch. unfold bind at 1.
  rewrite request_read by reflexivity.
  destruct (hd None (net w)); reflexivity.
Qed.

(** X22.  When its request goes through, [loadUsers] lists every
    profile once, newest first, each under the placeholder address made
    of the first eight code units of its user id; when the request fails
    the list is left as it was and the failure is notified. *)
Theorem loadUsers_lists_profiles (w : World Monitor.State) :
  let w' := exec Monitor.loadUsers w in
  let listed := Monitor.users (component w') in
  (hd None (net w) = None ->
     Permutation (map Monitor.lu_id listed)
       (map pf_user_id (profiles (db w)))
     /\ StronglySorted (in_order Monitor.lu_created_at false) listed
     /\ Forall (fun u =>
                  Monitor.lu_email u
                  = str "user_" ++ firstn 8 (Monitor.lu_id u)
                    ++ str "@example.com") listed
     /\ toasts w' = toasts w)
  /\ (hd None (net w) <> None ->
      listed = Monitor.users (component w)
      /\ toasts w' = toasts w ++ [Monitor.users_failed])
  /\ db w' = db w
  /\ Monitor.panel (component w') = Monitor.panel (component w).
Proof.
  intros w' listed; subst listed w'. unfold exec. rewrite loadUsers_run.
  destruct (hd None (net w)) as [message|].
  - cbn [snd add_toast add_console set_backend component toasts db].
    repeat split; try discriminate.
  - cbn [snd set_component set_backend component toasts db Monitor.setUsers
         Monitor.users Monitor.panel].
    split; [intros _|split; [intros H; contradiction H; reflexivity|
                             split; reflexivity]].
    split; [|split; [|split; [|reflexivity]]].
    + rewrite map_map. cbn [Monitor.listed Monitor.lu_id].
      apply Permutation_map, order_permutation.
    + apply (sorted_map Monitor.listed pf_created_at);
        [reflexivity | apply order_in_order].
    + apply Forall_map, Forall_forall. intros p _. reflexivity.
Qed.

(** X23.  The admin monitor opens only for an admin.  Access is granted
    exactly when there is a session, the role request goes through and
    finds one role row for the user, with the admin role; then the admin
    flag is raised and the users are loaded.  In every other case with a
    session the flag stays as it was, "Access Denied" is notified, the
    page goes back to the dashboard and no user is loaded: the profiles
    are not even requested.  With no session the page only goes to the
    sign-in page.  The loading flag is down in every case, and nothing
    is written. *)
Theorem checkAdminAccess_outcome (roles : list Directory.UserRole)
    (session : option jsstring) (w : World Monitor.State) :
  let w' := exec (Monitor.checkAdminAccess roles session) w in
  let page := Monitor.panel (component w') in
  AdminPanel.loading page = false
  /\ db w' = db w
  /\ match session with
     | None =>
         navigations w' = navigations w ++ [str "/auth"]
         /\ net w' = net w
         /\ AdminPanel.isAdmin page
            = AdminPanel.isAdmin (Monitor.panel (component w))
         /\ Monitor.users (component w') = Monitor.users (component w)
     | Some id =>
         let granted :=
           match hd None (net w) with
           | Some _ => false
           | None =>
               Directory.is_admin
                 (data (fst (Directory.role_of roles id (db w))))
           end in
         (granted = true <->
          hd None (net w) = None
          /\ exists r,
               filter (fun r => Js.eqb (Directory.ur_user_id r) id) roles
               = [r]
               /\ Directory.ur_role r = Directory.admin)
         /\ (granted = true ->
             AdminPanel.isAdmin page = true
             /\ navigations w' = navigations w
             /\ Monitor.users (component w')
                = Monitor.users
                    (component
                       (exec Monitor.loadUsers
                          (set_backend (db w) (tl (net w)) w))))
         /\ (granted = false ->
             AdminPanel.isAdmin page
             = AdminPanel.isAdmin (Monitor.panel (component w))
             /\ toasts w' = toasts w ++ [Monitor.access_denied]
             /\ navigations w' = navigations w ++ [str "/"]
             /\ Monitor.users (component w') = Monitor.users (component w)
             /\ net w' = tl (net w))
     end.
Proof.
  intros w' page; subst page w'. unfold exec.
  destruct session as [id|];
    [|unfold Monitor.checkAdminAccess, finally, try_catch; cbn;
      repeat split].
  assert (E : Monitor.checkAdminAccess roles (Some id) w =
              let granted :=
                match hd None (net w) with
                | Some _ => false
                | None =>
                    Directory.is_admin
                      (data (fst (Directory.role_of roles id (db w))))
                end in
              let w1 := set_backend (db w) (tl (net w)) w in
              if granted then
                let w2 :=
                  snd (Monitor.loadUsers
                         (set_component
                            (Monitor.with_panel
                               (Monitor.setIsAdmin true
                                  (Monitor.panel (component w)))
                               (component w)) w1)) in
                (Normal tt,
                 set_component
                   (Monitor.with_panel
                      (Monitor.setLoading false
                         (Monitor.panel (component w2))) (component w2)) w2)
              else
                (Normal tt,
                 set_component
                   (Monitor.with_panel
                      (Monitor.setLoading false
                         (Monitor.panel (component w))) (component w))
                   (add_navigation (str "/")
                      (add_toast Monitor.access_denied w1)))).
  { unfold Monitor.checkAdminAccess, finally, try_catch.
    unfold bind at 1. rewrite request_read by reflexivity.
    cbv zeta.
    destruct (hd None (net w)) as [message|]; [reflexivity|].
    destruct (Directory.is_admin
                (data (fst (Directory.role_of roles id (db w))))) eqn:Ha.
    - cbn [negb]. unfold bind at 1, set_state at 1, modify at 1.
      tidy_world. rewrite !loadUsers_run. tidy_world.
      destruct (hd None (tl (net w))); reflexivity.
    - reflexivity. }
  rewrite E; clear E. cbv zeta.
  split; [|split; [|split; [|split]]].
  - destruct (match hd None (net w) with Some _ => false | None => _ end);
      reflexivity.
  - destruct (match hd None (net w) with Some _ => false | None => _ end);
      [|reflexivity].
    cbn [snd set_component db]. rewrite loadUsers_run. tidy_world.
    destruct (hd None (tl (net w))); reflexivity.
  - destruct (hd None (net w)) as [message|].
    + split; [discriminate | intros [H _]; discriminate H].
    + cbn [Directory.role_of fst]. rewrite is_admin_single.
      split; [intros H; split; [reflexivity | exact H] | intros [_ H]; exact H].
  - intros Hg. rewrite Hg. cbn [snd set_component component navigations].
    rewrite !loadUsers_run. tidy_world.
    destruct (hd None (tl (net w))); repeat split.
  - intros Hg. rewrite Hg. repeat split.
Qed.

(* ================================================================== *)
(** * The stored hash and the digest *)

Lemma unhex_pair (b : byte) (rest : jsstring) :
  unhex (padStart 2 48%N (toString16 b) ++ rest) =
    match unhex rest with
    | Some bytes => Some (b :: bytes)
    | None => None
    end.
Proof. destruct b; cbn; destruct (unhex rest); reflexivity. Qed.

Lemma unhex_hex (bytes : list byte) :
  unhex (join (map (fun b => padStart 2 48%N (toString16 b)) bytes))
  = Some bytes.
Proof.
  unfold join. induction bytes as [|b bytes IH]; [reflexivity|].
  cbn [map concat]. rewrite unhex_pair, IH. reflexivity.
Qed.

(** X24.  The hash [hashPassword] renders loses nothing of the digest:
    the digest is read back from it pair by pair, so two passwords get
    the same stored hash exactly when their digests are the same. *)
Theorem hashPassword_keeps_digest {P : Platform} (p1 p2 : jsstring) :
  unhex (Dashboard.hashPassword p1) = Some (digest_sha256 (encode p1))
  /\ (Dashboard.hashPassword p1 = Dashboard.hashPassword p2 <->
      digest_sha256 (encode p1) = digest_sha256 (encode p2)).
Proof.
  unfold Dashboard.hashPassword. split; [apply unhex_hex|].
  split; [|intros ->; reflexivity].
  intros H. apply (f_equal unhex) in H. rewrite !unhex_hex in H.
  injection H as H; exact H.
Qed.

(* ================================================================== *)
(** * What is persisted is trimmed *)

Lemma trimStart_kept (s : jsstring) (c : char) :
  hd_error s = Some c -> is_whitespace c = false -> trimStart s = s.
Proof.
  destruct s as [|x s]; [discriminate|].
  cbn. intros H Hc; injection H as ->. rewrite Hc; reflexivity.
Qed.

Lemma trimStart_first (s : jsstring) (c : char) :
  hd_error (trimStart s) = Some c -> is_whitespace c = false.
Proof.
  destruct (trimStart s) as [|x rest] eqn:E; [discriminate|].
  cbn. intros H; injection H as <-. exact (trimStart_head _ _ _ E).
Qed.

Lemma trimStart_snoc (s : jsstring) (c : char) :
  is_whitespace c = false -> trimStart (s ++ [c]) = trimStart s ++ [c].
Proof.
  intros Hc; induction s as [|x s IH]; cbn.
  - rewrite Hc; reflexivity.
  - destruct (is_whitespace x); [exact IH | reflexivity].
Qed.

Lemma trimStart_idem (s : jsstring) : trimStart (trimStart s) = trimStart s.
Proof.
  destruct (trimStart s) as [|x t] eqn:E; [reflexivity|].
  apply (trimStart_kept (x :: t) x eq_refl (trimStart_head _ _ _ E)).
Qed.

(** [trim] leaves a string that neither begins nor ends with white
    space, and that [trim] leaves as it is. *)
Lemma trim_normal (s : jsstring) :
  (forall c, first_unit (trim s) = Some c -> is_whitespace c = false)
  /\ (forall c, last_unit (trim s) = Some c -> is_whitespace c = false)
  /\ trim (trim s) = trim s.
Proof.
  unfold first_unit, last_unit, trim, trimEnd.
  destruct (trimStart s) as [|x t] eqn:E.
  - cbn. repeat split; discriminate.
  - pose proof (trimStart_head _ _ _ E) as Hx.
    assert (Hend : rev (trimStart (rev (x :: t)))
                   = x :: rev (trimStart (rev t))).
    { cbn [rev]. rewrite (trimStart_snoc _ _ Hx), rev_app_distr.
      reflexivity. }
    rewrite Hend.
    split; [|split].
    + cbn. intros c H; injection H as <-; exact Hx.
    + intros c. rewrite <- Hend, rev_involutive. apply trimStart_first.
    + rewrite (trimStart_kept (x :: rev (trimStart (rev t))) x eq_refl Hx).
      rewrite <- Hend, rev_involutive, trimStart_idem. reflexivity.
Qed.

Section TrimmedFacts.
Context {P : Platform}.

Lemma sendMessage_through (w : World Chat.State) (r : ChatRoom) (u : User) :
  truthy (trim (Chat.newMessage (component w))) = true ->
  Chat.room (component w) = Some r ->
  Chat.currentUser (component w) = Some u ->
  hd None (net w) = None ->
  Chat.sendMessage w =
    (Normal tt,
     set_component (Chat.setNewMessage [] (component w))
       (set_backend
          (advance
             (set_messages (messages (db w) ++ [sent_row w r u]) (db w)))
          (tl (net w)) w)).
Proof.
  intros Hdraft Hroom Huser Hn.
  unfold Chat.sendMessage, bind at 1, get_state, gets.
  rewrite Hdraft, Hroom, Huser. unfold try_catch, bind.
  rewrite (request_through _ _ _ _ Hn). reflexivity.
Qed.

(** X25.  The text of a message that [sendMessage] persists is never
    empty and neither begins nor ends with white space; trimming it
    again changes nothing.  The row is a text message of the open room,
    written by the signed-in user. *)
Theorem sendMessage_persists_trimmed_text (w : World Chat.State)
    (r : ChatRoom) (u : User) :
  truthy (trim (Chat.newMessage (component w))) = true ->
  Chat.room (component w) = Some r ->
  Chat.currentUser (component w) = Some u ->
  hd None (net w) = None ->
  exists row,
    messages (db (exec Chat.sendMessage w)) = messages (db w) ++ [row]
    /\ msg_content row <> []
    /\ (forall c, first_unit (msg_content row) = Some c ->
                  is_whitespace c = false)
    /\ (forall c, last_unit (msg_content row) = Some c ->
                  is_whitespace c = false)
    /\ trim (msg_content row) = msg_content row
    /\ msg_room_id row = cr_id r
    /\ msg_user_id row = user_id u
    /\ msg_message_type row = Some (str "text").
Proof.
  intros Hdraft Hroom Huser Hn.
  exists (sent_row w r u). unfold exec.
  rewrite (sendMessage_through w r u Hdraft Hroom Huser Hn).
  destruct (trim_normal (Chat.newMessage (component w))) as [Hf [Hl Hi]].
  cbn [snd set_component set_backend db advance set_messages messages
       sent_row msg_content msg_room_id msg_user_id msg_message_type].
  repeat split; try assumption.
  intros E. rewrite E in Hdraft. discriminate Hdraft.
Qed.

(** X26.  The name of a room that [createRoom] persists is never empty
    and neither begins nor ends with white space, and neither does its
    description when it has one. *)
Theorem createRoom_persists_trimmed_name (w : World Dashboard.State)
    (u : User) :
  truthy (trim (Dashboard.name (Dashboard.newRoom (component w)))) = true ->
  Dashboard.currentUser (component w) = Some u ->
  hd None (net w) = None ->
  exists row,
    chat_rooms (db (exec Dashboard.createRoom w)) = chat_rooms (db w) ++ [row]
    /\ cr_name row <> []
    /\ (forall c, first_unit (cr_name row) = Some c ->
                  is_whitespace c = false)
    /\ (forall c, last_unit (cr_name row) = Some c ->
                  is_whitespace c = false)
    /\ (forall d, cr_description row = Some d ->
          d <> []
          /\ (forall c, first_unit d = Some c -> is_whitespace c = false)
          /\ (forall c, last_unit d = Some c -> is_whitespace c = false)).
Proof.
  intros Hname Huser Hn.
  eexists. split; [apply (createRoom_persists w u Hname Huser Hn)|].
  cbn [Query.new_room cr_name cr_description Dashboard.roomData
       Query.rd_name Query.rd_description].
  destruct (trim_normal (Dashboard.name (Dashboard.newRoom (component w))))
    as [Hf [Hl _]].
  destruct (trim_normal
              (Dashboard.description (Dashboard.newRoom (component w))))
    as [Hdf [Hdl _]].
  split; [intros E; rewrite E in Hname; discriminate Hname|].
  split; [exact Hf|]. split; [exact Hl|].
  intros d.
  destruct (truthy (trim (Dashboard.description
                            (Dashboard.newRoom (component w))))) eqn:Hd;
    [|discriminate].
  intros H; injection H as <-.
  split; [intros E; rewrite E in Hd; discriminate Hd|].
  split; assumption.
Qed.

End TrimmedFacts.

(* ================================================================== *)
(** * The rest of the pages at work on the sample tables *)


Lemma loadRooms_failure_is_silent_witness :
  component
    (exec Dashboard.loadRooms (Scenario.lobby true 1 [Some (str "offline")]))
  = component (Scenario.lobby true 1 [Some (str "offline")]).
Proof.
  exact (proj1 (loadRooms_failure_is_silent
                  (Scenario.lobby true 1 [Some (str "offline")])
                  (str "offline") eq_refl)).
Defined.

Lemma createRoom_success_witness :
  exists row,
    chat_rooms
      (db (exec (@Dashboard.createRoom Sample.platform)
             (Scenario.creating "secret" "10" []))) = [] ++ [row]
    /\ cr_name row = str "Standup"
    /\ cr_is_password_protected row = Some true.
Proof.
  destruct (@createRoom_success Sample.platform
              (Scenario.creating "secret" "10" []) Sample.alice
              eq_refl eq_refl eq_refl)
    as [row [Hrows [Hname [_ [_ [_ [Hprot _]]]]]]].
  exists row. repeat split; assumption.
Defined.

Lemma createRoom_insert_failure_witness :
  db (exec (@Dashboard.createRoom Sample.platform)
        (Scenario.creating "secret" "10" [Some (str "offline")]))
  = Sample.empty_db.
Proof.
  exact (proj1 (@createRoom_insert_failure Sample.platform
                  (Scenario.creating "secret" "10" [Some (str "offline")])
                  Sample.alice (str "offline") eq_refl eq_refl eq_refl)).
Defined.

Lemma createRoom_without_user_witness :
  db (exec (@Dashboard.createRoom Sample.platform)
        Scenario.creating_unsigned) = Sample.empty_db.
Proof.
  exact (proj1 (proj2 (@createRoom_without_user Sample.platform
                         Scenario.creating_unsigned eq_refl eq_refl))).
Defined.

Lemma createRoom_lists_new_room_witness :
  In (str "RM0")
    (map Dashboard.room_code
       (Dashboard.rooms
          (component
             (exec (@Dashboard.createRoom Sample.platform)
                (Scenario.creating "secret" "10" []))))).
Proof.
  refine (proj2 (@createRoom_lists_new_room Sample.platform
                   (Scenario.creating "secret" "10" []) Sample.alice
                   eq_refl eq_refl _)).
  constructor.
Defined.

Lemma joinRoom_not_found_witness :
  toasts
    (exec (@Dashboard.joinRoom Sample.platform)
       (Scenario.joining "zz99" "guess"
          (Sample.directory (Some 2%Z) true 1) []))
  = [] ++ [Dashboard.room_not_found].
Proof.
  refine (proj1 (@joinRoom_not_found Sample.platform
                   (Scenario.joining "zz99" "guess"
                      (Sample.directory (Some 2%Z) true 1) [])
                   eq_refl _)).
  right. intros r [<-|[]] Hc. vm_compute in Hc. discriminate Hc.
Defined.

Lemma joinRoom_failed_count_enters_witness :
  navigations
    (exec (@Dashboard.joinRoom Sample.platform)
       (Scenario.joining "ab12" "guess"
          (Sample.directory (Some 2%Z) true 2)
          [None; Some (str "offline")]))
  = [] ++ [Dashboard.chat_path (str "AB12")].
Proof.
  refine (proj1 (@joinRoom_failed_count_enters Sample.platform
                   (Scenario.joining "ab12" "guess"
                      (Sample.directory (Some 2%Z) true 2)
                      [None; Some (str "offline")])
                   (Sample.design_sync (Some 2%Z) true) (str "offline")
                   eq_refl eq_refl eq_refl _ eq_refl)).
  right; discriminate.
Defined.

Lemma created_room_can_be_joined_witness :
  navigations
    (exec (@Dashboard.joinRoom Sample.platform)
       (Scenario.joining "RM0" "guess"
          (db (exec (@Dashboard.createRoom Sample.platform)
                 (Scenario.creating "secret" "1" []))) []))
  = [] ++ [Dashboard.chat_path (str "RM0")].
Proof.
  refine (proj1 (@created_room_can_be_joined Sample.platform
                   (Scenario.creating "secret" "1" [])
                   (Scenario.joining "RM0" "guess"
                      (db (exec (@Dashboard.createRoom Sample.platform)
                             (Scenario.creating "secret" "1" []))) [])
                   Sample.alice
                   eq_refl eq_refl eq_refl eq_refl eq_refl _ _ eq_refl
                   eq_refl _ eq_refl)).
  - intros r [].
  - intros p [].
  - intros _; discriminate.
Defined.


Lemma sent_message_comes_back_witness :
  exists entry,
    Chat.messages
      (component
         (exec (@Session.onMessageInserted (str "row-2"))
            (exec (@Session.handleKeyPress Sample.platform (str "Enter")
                     false)
               (Scenario.typing " hello " [])))) = [] ++ [entry]
    /\ Chat.content entry = str "hello".
Proof.
  destruct (@sent_message_comes_back Sample.platform
              (Scenario.typing " hello " [])
              (Sample.design_sync (Some 50%Z) false) Sample.alice
              eq_refl eq_refl eq_refl eq_refl eq_refl eq_refl)
    as [entry [Hm [Hc _]]].
  - intros m [<-|[<-|[]]]; discriminate.
  - exists entry. split; [exact Hm | exact Hc].
Defined.

Lemma initializeChat_admits_witness :
  In (str "alice")
    (map Session.participant_id
       (Session.participants
          (component
             (exec (@Session.initializeChat Sample.platform
                      Scenario.by_profile (Some (str "alice")) (str "AB12"))
                (Scenario.arriving 3 []))))).
Proof.
  refine (proj1 (proj2 (@initializeChat_admits Sample.platform
                          Scenario.by_profile (str "alice") (str "AB12")
                          (Sample.design_sync (Some 50%Z) false)
                          (Scenario.arriving 3 []) _ eq_refl))).
  constructor.
Defined.

Lemma initializeChat_ready_witness :
  Chat.loading
    (Session.chat
       (component
          (exec (@Session.initializeChat Sample.platform
                   Scenario.by_profile (Some (str "alice")) (str "AB12"))
             (Scenario.arriving 3 [])))) = false.
Proof.
  refine (proj1 (proj2 (proj2 (@initializeChat_ready Sample.platform
                                 Scenario.by_profile (str "alice")
                                 (str "AB12")
                                 (Sample.design_sync (Some 50%Z) false)
                                 (Scenario.arriving 3 []) _ eq_refl)))).
  constructor.
Defined.

Lemma initializeChat_room_not_found_witness :
  navigations
    (exec (@Session.initializeChat Sample.platform Scenario.by_profile
             (Some (str "alice")) (str "ab12"))
       (Scenario.arriving 3 []))
  = [] ++ [str "/"].
Proof.
  refine (proj1 (proj2 (@initializeChat_room_not_found Sample.platform
                          Scenario.by_profile (str "alice") (str "ab12")
                          (Scenario.arriving 3 []) _))).
  right. intros r [<-|[]] Hc. vm_compute in Hc. discriminate Hc.
Defined.

Lemma sendMessage_persists_trimmed_text_witness :
  exists row,
    messages
      (db (exec (@Chat.sendMessage Sample.platform)
             (Scenario.typing " hello " [])))
    = messages (Sample.history 2) ++ [row]
    /\ msg_content row <> [].
Proof.
  destruct (@sendMessage_persists_trimmed_text Sample.platform
              (Scenario.typing " hello " [])
              (Sample.design_sync (Some 50%Z) false) Sample.alice
              eq_refl eq_refl eq_refl eq_refl)
    as [row [Hm [Hne _]]].
  exists row. split; [exact Hm | exact Hne].
Defined.

Lemma createRoom_persists_trimmed_name_witness :
  exists row,
    chat_rooms
      (db (exec (@Dashboard.createRoom Sample.platform)
             (Scenario.creating "secret" "10" []))) = [] ++ [row]
    /\ cr_name row <> [].
Proof.
  destruct (@createRoom_persists_trimmed_name Sample.platform
              (Scenario.creating "secret" "10" []) Sample.alice
              eq_refl eq_refl eq_refl)
    as [row [Hm [Hne _]]].
  exists row. split; [exact Hm | exact Hne].
Defined.

(* ================================================================== *)
(** * Room Session: loading under failures *)

(** The profile lookups of a load, whatever fails: one entry per row,
    in order, with the author the lookup answered or the placeholder. *)
Lemma profile_lookups_frame (rows : list Backend.Message)
    (w : World Chat.State) :
  exists entries w',
    promise_all_map
      (fun message =>
         p <- request (Query.profile_of (msg_user_id message)) ;;
         ret (Chat.with_profile message (Chat.author_of (data p))))
      rows w = (Normal entries, w')
    /\ Forall2
         (fun m e =>
            e = enriched (db w) m \/ e = Chat.with_profile m Chat.anonymous)
         rows entries
    /\ component w' = component w /\ toasts w' = toasts w
    /\ navigations w' = navigations w /\ console w' = console w
    /\ db w' = db w.
Proof.
  revert w; induction rows as [|m rows IH]; intros w.
  - exists [], w. cbn. repeat split; constructor.
  - cbn [promise_all_map]. unfold bind at 1. unfold bind at 1.
    rewrite request_read by reflexivity. unfold ret at 1.
    destruct (IH (set_backend (db w) (tl (net w)) w))
      as [entries [w' [Hrun [Hv [Hc [Ht [Hn [Hk Hd]]]]]]]].
    unfold bind at 1. rewrite Hrun. unfold ret.
    eexists; eexists; split; [reflexivity|].
    cbn [set_backend db net component toasts navigations console]
      in Hv, Hc, Ht, Hn, Hk, Hd.
    repeat split; try assumption.
    constructor; [|exact Hv].
    destruct (hd None (net w)); [right | left]; reflexivity.
Qed.


(* ================================================================== *)
(** * Room Session: opening the page when the membership write fails *)

Section UnjoinedFacts.
Context {P : Platform}.
Variable embedded : Db -> RoomParticipant -> option Chat.Author.

Lemma joinRoom_fault (room user message : jsstring) (w : World Chat.State) :
  hd None (net w) = Some message ->
  Chat.joinRoom room user w =
    console_error (str "Error joining room:") message
      (set_backend (db w) (tl (net w)) w).
Proof.
  intros Hn. unfold Chat.joinRoom, bind.
  rewrite (request_fault _ _ _ _ _ Hn). reflexivity.
Qed.

(** X28.  A membership write that fails does not stop the chat page
    from opening.  When the room is found, the write fails and the
    requests after it go through, the failure is only logged: nothing is
    notified, the page does not leave, no table changes (so no
    membership row is created), and the page still holds the room, the
    loaded transcript, the roster of the members the room had, the two
    subscribed channels and the loading flag down. *)
Theorem initializeChat_join_failure (id roomCode message : jsstring)
    (room : ChatRoom) (w : World Session.State) :
  hd None (tl (net w)) = None ->
  hd None (tl (tl (net w))) = Some message ->
  reliable (tl (tl (tl (net w)))) ->
  fst (Query.room_by_code roomCode (db w)) = ok room ->
  let w' :=
    exec (Session.initializeChat embedded (Some id) roomCode) w in
  let page := Session.chat (component w') in
  console w' = console w ++ [(str "Error joining room:", message)]
  /\ toasts w' = toasts w
  /\ navigations w' = navigations w
  /\ db w' = db w
  /\ Chat.room page = Some room
  /\ Chat.loading page = false
  /\ Chat.messages page =
       map (enriched (db w))
         (limit 100
            (order msg_created_at true
               (filter (fun m => Js.eqb (msg_room_id m) (cr_id room))
                  (messages (db w)))))
  /\ map Session.participant_id (Session.participants (component w'))
     = map rp_user_id (Query.active_members (cr_id room) (db w))
  /\ Session.channels (component w') =
       Session.channels (component w)
       ++ [Session.messages_channel (cr_id room);
           Session.participants_channel (cr_id room)].
Proof.
  intros H2 H3 Hn4 Hroom w' page. subst page.
  assert (E : exists n' profile,
            Session.initializeChat embedded (Some id) roomCode w =
              (Normal tt,
               {| component :=
                    {| Session.chat :=
                         Session.setLoading false
                           (Chat.setMessages
                              (fun _ =>
                                 map (enriched (db w))
                                   (limit 100
                                      (order msg_created_at true
                                         (filter
                                            (fun m =>
                                               Js.eqb (msg_room_id m)
                                                 (cr_id room))
                                            (messages (db w))))))
                              (Session.setRoom (Some room)
                                 (Session.setCurrentUser
                                    (Some {| user_id := id;
                                             user_profile := profile |})
                                    (Session.chat (component w)))));
                       Session.participants :=
                         map (fun p =>
                                {| Session.participant_id := rp_user_id p;
                                   Session.joined_at := rp_joined_at p;
                                   Session.participant_profiles :=
                                     embedded (db w) p |})
                           (Query.active_members (cr_id room) (db w));
                       Session.channels :=
                         Session.channels (component w)
                         ++ [Session.messages_channel (cr_id room);
                             Session.participants_channel (cr_id room)] |};
                  toasts := toasts w; navigations := navigations w;
                  console :=
                    console w ++ [(str "Error joining room:", message)];
                  db := db w; net := n' |})).
  { unfold Session.initializeChat, finally, try_catch.
    unfold bind at 1. rewrite request_read by reflexivity.
    unfold bind at 1, set_state at 1, modify at 1.
    unfold bind at 1. rewrite request_through by exact H2.
    tidy_world. rewrite Hroom. cbn [error data ok snd Query.room_by_code].
    unfold bind at 1, set_state at 1, modify at 1.
    unfold bind at 1. rewrite zoom_run. tidy_world.
    rewrite joinRoom_fault with (message := message) by exact H3.
    cbn [console_error modify add_console]. tidy_world.
    unfold bind at 1. rewrite zoom_run. tidy_world.
    rewrite loadMessages_loaded by exact Hn4. cbv zeta. tidy_world.
    unfold bind at 1, Session.loadParticipants, bind at 1.
    rewrite request_read by reflexivity. tidy_world.
    rewrite (reliable_hd _ (reliable_skipn _ _ Hn4)).
    cbn [Session.participants_of fst error data ok set_state modify
         Session.setParticipants Session.setupRealtimeSubscriptions
         Session.subscribe Session.setLoading].
    tidy_world.
    eexists. eexists. reflexivity. }
  destruct E as [n' [profile E]]. subst w'. unfold exec. rewrite E.
  cbn [snd component console toasts navigations db Session.chat
       Session.participants Session.channels Session.setLoading
       Chat.setMessages Session.setRoom Session.setCurrentUser Chat.room
       Chat.loading Chat.messages].
  rewrite map_map. cbn [Session.participant_id].
  repeat split.
Qed.

End UnjoinedFacts.

Lemma initializeChat_join_failure_witness :
  db (exec (@Session.initializeChat Sample.platform Scenario.by_profile
              (Some (str "alice")) (str "AB12"))
        (Scenario.arriving 3 [None; None; Some (str "denied")]))
  = db (Scenario.arriving 3 [None; None; Some (str "denied")]).
Proof.
  refine (proj1 (proj2 (proj2 (proj2
            (@initializeChat_join_failure Sample.platform
               Scenario.by_profile (str "alice") (str "AB12") (str "denied")
               (Sample.design_sync (Some 50%Z) false)
               (Scenario.arriving 3 [None; None; Some (str "denied")])
               eq_refl eq_refl _ eq_refl))))).
  constructor.
Defined.
